(** * Quiz-poll analytics pipeline: a shallow embedding and its properties

    The development follows the three stages of the repository:

    - [get_cleaned.py]: date keywords ([convert_date]), tally clean-up
      ([convert_vote_count]) and the vote reconciliation loop;
    - [get_questions.py]: question de-duplication, [parse_custom_date],
      and the batch report metrics;
    - [quiz_dashboard3.py]: [load_data] and [calculate_insights].

    Conventions.  A pandas DataFrame is a list of records (row order and
    duplicate rows matter everywhere).  A Python [str] is a [string]
    whose characters are read as code points below 256.  A Timestamp is
    the number of seconds since 1970-01-01T00:00 as a [Z]; NaT / NaN is
    [None] in typed columns.  Ratios that Python computes in binary
    floating point ([sum / count * 100], [mean]) are exact rationals
    here.  Library functions of pandas whose tie order is left to the
    sorting kind ([sort_values], [value_counts]) are taken through the
    [Sorter] interface; so are [nlargest] / [nsmallest] when asked for
    at least as many rows as there are, and below that they keep the
    first occurrence on ties, as documented for [keep='first']. *)

From Stdlib Require Import ZArith QArith List String Ascii Bool Arith Lia.
From Stdlib Require Import Permutation Sorted.
Import ListNotations.

Local Open Scope string_scope.
Local Open Scope list_scope.
Local Open Scope Z_scope.

(** ** Python values, exceptions *)

(** The dynamically typed cell of a spreadsheet column. *)
Inductive pyval : Type :=
| PInt (z : Z)
| PStr (s : string)
| PTimestamp (t : Z)
| PNaT
| PNaN.

Inductive exn : Type := ValueError | IndexError | TypeError.

Inductive result (A : Type) : Type :=
| Ok (a : A)
| Raise (e : exn).
Arguments Ok {A} a.
Arguments Raise {A} e.

Definition pyval_eqb (a b : pyval) : bool :=
  match a, b with
  | PInt x, PInt y => Z.eqb x y
  | PStr x, PStr y => String.eqb x y
  | PTimestamp x, PTimestamp y => Z.eqb x y
  | _, _ => false
  end.

(** ** The [str] methods the scripts call *)

Module PyStr.

(** [str.isspace] on one character, for code points below 256. *)
Definition is_space (c : ascii) : bool :=
  let n := nat_of_ascii c in
  ((9 <=? n) && (n <=? 13) || (28 <=? n) && (n <=? 32)
   || (n =? 133) || (n =? 160))%nat.

Definition is_digit (c : ascii) : bool :=
  let n := nat_of_ascii c in ((48 <=? n) && (n <=? 57))%nat.

Definition digit_val (c : ascii) : Z := Z.of_nat (nat_of_ascii c) - 48.

Definition is_empty (s : string) : bool :=
  match s with EmptyString => true | _ => false end.

(** [sub in s] *)
Fixpoint contains (sub s : string) : bool :=
  prefix sub s
  || match s with
     | EmptyString => false
     | String _ r => contains sub r
     end.

Definition snoc (s : string) (c : ascii) : string :=
  (s ++ String c EmptyString)%string.

(** [s.split()]: maximal runs of non-space characters. *)
Fixpoint split_ws_go (tok s : string) : list string :=
  match s with
  | EmptyString => if is_empty tok then [] else [tok]
  | String c r =>
      if is_space c
      then (if is_empty tok then split_ws_go EmptyString r
            else tok :: split_ws_go EmptyString r)
      else split_ws_go (snoc tok c) r
  end.

Definition split_ws (s : string) : list string := split_ws_go EmptyString s.

(** [s.split(sep)] for a non-empty separator, scanning left to right;
    [skip] counts the characters of a matched separator still to pass. *)
Fixpoint split_on_go (sep : string) (skip : nat) (tok s : string) : list string :=
  match s with
  | EmptyString => [tok]
  | String c r =>
      match skip with
      | S k => split_on_go sep k tok r
      | O =>
          if prefix sep s
          then tok :: split_on_go sep (String.length sep - 1) EmptyString r
          else split_on_go sep O (snoc tok c) r
      end
  end.

Definition split_on (sep s : string) : list string :=
  split_on_go sep O EmptyString s.

Fixpoint lstrip (s : string) : string :=
  match s with
  | String c r => if is_space c then lstrip r else s
  | EmptyString => EmptyString
  end.

Fixpoint rstrip (s : string) : string :=
  match s with
  | EmptyString => EmptyString
  | String c r =>
      let r' := rstrip r in
      if is_space c && is_empty r' then EmptyString else String c r'
  end.

Definition strip (s : string) : string := rstrip (lstrip s).

(** The digit part of an integer literal: digits, single underscores
    only between digits. *)
Fixpoint parse_digits (acc : Z) (after_digit : bool) (s : string) : option Z :=
  match s with
  | EmptyString => if after_digit then Some acc else None
  | String c r =>
      if is_digit c then parse_digits (10 * acc + digit_val c) true r
      else if Ascii.eqb c "_"%char
           then (if after_digit then parse_digits acc false r else None)
           else None
  end.

(** The number of digit characters of a literal; sign, underscores and
    surrounding blanks do not count. *)
Fixpoint count_digits (s : string) : N :=
  match s with
  | EmptyString => 0%N
  | String c r => ((if is_digit c then 1 else 0) + count_digits r)%N
  end.

(** [sys.int_max_str_digits] at its default: [int] refuses a decimal
    literal with more digits. *)
Definition int_max_str_digits : N := 4300%N.

(** [int(s)] in base ten; [None] is [ValueError], raised for a string
    that is not an integer literal and for a literal of more than
    [int_max_str_digits] digits. *)
Definition py_int (s : string) : option Z :=
  let t := strip s in
  if N.leb (count_digits t) int_max_str_digits
  then match t with
       | String "+"%char r => parse_digits 0 false r
       | String "-"%char r => option_map Z.opp (parse_digits 0 false r)
       | _ => parse_digits 0 false t
       end
  else None.

(** Decimal digits of a natural number, zero-padded to [width]. *)
Fixpoint pad_digits (width : nat) (n : Z) : string :=
  match width with
  | O => EmptyString
  | S w => snoc (pad_digits w (n / 10)) (ascii_of_nat (48 + Z.to_nat (n mod 10)))
  end.

End PyStr.

(** ** Calendar arithmetic for [datetime] *)

Module Calendar.

Definition days_from_civil (y m d : Z) : Z :=
  let y' := if m <=? 2 then y - 1 else y in
  let era := y' / 400 in
  let yoe := y' - era * 400 in
  let mp := if 2 <? m then m - 3 else m + 9 in
  let doy := (153 * mp + 2) / 5 + d - 1 in
  let doe := yoe * 365 + yoe / 4 - yoe / 100 + doy in
  era * 146097 + doe - 719468.

Definition civil_from_days (z : Z) : Z * Z * Z :=
  let z := z + 719468 in
  let era := z / 146097 in
  let doe := z - era * 146097 in
  let yoe := (doe - doe / 1460 + doe / 36524 - doe / 146096) / 365 in
  let doy := doe - (365 * yoe + yoe / 4 - yoe / 100) in
  let mp := (5 * doy + 2) / 153 in
  let d := doy - (153 * mp + 2) / 5 + 1 in
  let m := if mp <? 10 then mp + 3 else mp - 9 in
  let y := yoe + era * 400 + (if m <=? 2 then 1 else 0) in
  (y, m, d).

(** [datetime(y, m, d, hh, mm)] as seconds since the epoch. *)
Definition datetime (y m d hh mm : Z) : Z :=
  days_from_civil y m d * 86400 + hh * 3600 + mm * 60.

Definition day_of (t : Z) : Z := t / 86400.

(** [t.strftime("%d/%m/%Y")] *)
Definition strftime_dmy (t : Z) : string :=
  let '(y, m, d) := civil_from_days (day_of t) in
  (PyStr.pad_digits 2 d ++ "/" ++ PyStr.pad_digits 2 m ++ "/"
     ++ PyStr.pad_digits 4 y)%string.

End Calendar.

(** ** The spreadsheets *)

Module Sheet.

(** One row of [Que_Ans.xlsx] (a question with one answer option). *)
Record que_ans_row : Type := mk_que_ans {
  que_text : string;
  que_created_at : pyval;
  ans_text : string;
  votes : pyval
}.

(** One row of [Voter.xlsx] (a ballot). *)
Record voter_row : Type := mk_voter {
  voter_name : string;
  question_text : string;
  choice : string;
  vote_count : pyval;
  voting_time : pyval
}.

(** One row of [Correct_Answers.xlsx]; its columns are [que_text] and
    [ans_text], renamed here to keep the field names apart. *)
Record correct_row : Type := mk_correct {
  key_que_text : string;
  key_ans_text : string
}.

End Sheet.

(** ** Generic frame operations *)

(** [df.drop_duplicates(subset=[key])] with the default [keep='first'];
    with the identity as key it is [Series.unique()]. *)
Fixpoint drop_duplicates {A : Type} (key : A -> string) (l : list A) : list A :=
  match l with
  | [] => []
  | x :: t =>
      x :: filter (fun y => negb (String.eqb (key y) (key x))) (drop_duplicates key t)
  end.

Definition unique (l : list string) : list string := drop_duplicates (fun s => s) l.

(** [df.head(n)] and [df.tail(n)] *)
Definition head {A : Type} (n : nat) (l : list A) : list A := firstn n l.
Definition tail {A : Type} (n : nat) (l : list A) : list A :=
  skipn (List.length l - n) l.

(** ** A state monad for the module-level script of [get_cleaned.py] *)

Definition State (S A : Type) : Type := S -> A * S.

Definition ret {S A : Type} (a : A) : State S A := fun s => (a, s).
Definition bind {S A B : Type} (m : State S A) (k : A -> State S B) : State S B :=
  fun s => let '(a, s') := m s in k a s'.
Definition get {S : Type} : State S S := fun s => (s, s).
Definition modify {S : Type} (f : S -> S) : State S unit := fun s => (tt, f s).
Definition exec {S A : Type} (m : State S A) (s : S) : S := snd (m s).

Notation "x <- m ;; k" := (bind m (fun x => k))
  (at level 61, m at next level, right associativity).

(** [for x in xs: body(x)] *)
Fixpoint for_each {S A : Type} (xs : list A) (body : A -> State S unit) : State S unit :=
  match xs with
  | [] => ret tt
  | x :: t => _ <- body x ;; for_each t body
  end.

(** [Series.apply(f)] for a function that may raise: the first exception
    aborts the whole statement. *)
Fixpoint apply_raising {A B : Type} (f : A -> result B) (col : list A) : result (list B) :=
  match col with
  | [] => Ok []
  | x :: t =>
      match f x with
      | Raise e => Raise e
      | Ok y =>
          match apply_raising f t with
          | Raise e => Raise e
          | Ok ys => Ok (y :: ys)
          end
      end
  end.

(** ** pandas.to_datetime

    The parser itself belongs to pandas; the scripts only choose its
    options.  An outcome is a Timestamp, NaT (what [errors='coerce']
    gives for a value it cannot read) or an exception. *)
Inductive parse_outcome : Type :=
| Parsed (t : Z)
| Unparseable
| ParserRaised (e : exn).

(** * get_cleaned.py *)

Module GetCleaned.
Import Sheet.

(** The DataFrame objects bound to the module's global names. *)
Record frames : Type := mk_frames {
  que_ans_df : list que_ans_row;
  voter_df : list voter_row
}.

Section DateConversion.

(** [pd.to_datetime(value, dayfirst=True, errors='coerce')] as it
    answers when the script calls it; for a word such as "today" that
    answer comes from the clock. *)
Variable to_datetime : pyval -> parse_outcome.

Definition is_str (value : pyval) (lit : string) : bool :=
  match value with PStr s => String.eqb s lit | _ => false end.

(** lines 10-25 *)
Definition convert_date (value : pyval) : pyval :=
  if is_str value "TODAY" then PTimestamp (Calendar.datetime 2024 10 22 0 0)
  else if is_str value "YESTERDAY" then PTimestamp (Calendar.datetime 2024 10 21 0 0)
  else if is_str value "SUNDAY" then PTimestamp (Calendar.datetime 2024 10 20 0 0)
  else if is_str value "FRIDAY" then PTimestamp (Calendar.datetime 2024 10 18 0 0)
  else match to_datetime value with
       | Parsed t => PTimestamp t
       | Unparseable => PNaT
       | ParserRaised _ => value
       end.

End DateConversion.

(** lines 34-37 *)
Definition convert_vote_count (value : pyval) : result pyval :=
  match value with
  | PStr s =>
      if PyStr.contains "votes" s
      then match PyStr.split_ws s with
           | [] => Raise IndexError
           | tok :: _ =>
               match PyStr.py_int tok with
               | Some z => Ok (PInt z)
               | None => Raise ValueError
               end
           end
      else Ok value
  | _ => Ok value
  end.

Definition with_votes (r : que_ans_row) (v : pyval) : que_ans_row :=
  {| que_text := que_text r; que_created_at := que_created_at r;
     ans_text := ans_text r; votes := v |}.

Definition with_que_created_at (r : que_ans_row) (v : pyval) : que_ans_row :=
  {| que_text := que_text r; que_created_at := v;
     ans_text := ans_text r; votes := votes r |}.

Definition with_vote_count (r : voter_row) (v : pyval) : voter_row :=
  {| voter_name := voter_name r; question_text := question_text r;
     choice := choice r; vote_count := v; voting_time := voting_time r |}.

(** [voter_df[(voter_df['question_text'] == q) & (voter_df['choice'] == c)].shape[0]] *)
Definition choice_voter_count (voters : list voter_row) (q c : string) : nat :=
  List.length
    (filter (fun v => String.eqb (question_text v) q && String.eqb (choice v) c) voters).

(** [voter_df[voter_df['question_text'] == q]['choice'].unique()] *)
Definition choices_voted (voters : list voter_row) (q : string) : list string :=
  unique (map choice (filter (fun v => String.eqb (question_text v) q) voters)).

(** [que_ans_df.loc[(que_text == q) & (ans_text == c), 'votes'] = n]:
    an assignment into the frame bound to [que_ans_df]. *)
Definition loc_set_votes (q c : string) (n : nat) : State frames unit :=
  modify (fun fr =>
    {| que_ans_df :=
         map (fun r => if String.eqb (que_text r) q && String.eqb (ans_text r) c
                       then with_votes r (PInt (Z.of_nat n)) else r)
             (que_ans_df fr);
       voter_df := voter_df fr |}).

(** lines 45-51; [iterrows] walks the rows as they were when the loop
    started, and the body reads only [que_text] from them. *)
Definition reconcile_votes : State frames unit :=
  fr0 <- get ;;
  for_each (map que_text (que_ans_df fr0)) (fun q =>
    fr <- get ;;
    for_each (choices_voted (voter_df fr) q) (fun c =>
      fr' <- get ;;
      loc_set_votes q c (choice_voter_count (voter_df fr') q c))).

(** The whole script: lines 28, 39 and 45-51 in order. *)
Definition run (to_datetime : pyval -> parse_outcome) (fr : frames) : result frames :=
  let que1 :=
    map (fun r => with_que_created_at r (convert_date to_datetime (que_created_at r)))
        (que_ans_df fr) in
  match apply_raising convert_vote_count (map vote_count (voter_df fr)) with
  | Raise e => Raise e
  | Ok counts =>
      let voters1 := map (fun '(r, v) => with_vote_count r v)
                         (combine (voter_df fr) counts) in
      Ok (exec reconcile_votes {| que_ans_df := que1; voter_df := voters1 |})
  end.

End GetCleaned.

(** * Sorting, ranking and grouping in pandas *)

(** [sort_values] with its default [kind='quicksort'] (used directly and
    inside [value_counts]) promises an ordered permutation and nothing
    about the order of ties; everything that depends on it is stated
    for an arbitrary implementation of this interface. *)
Class Sorter : Type := {
  sort_values : forall {A : Type}, (A -> A -> bool) -> list A -> list A;
  sort_values_perm :
    forall (A : Type) (le : A -> A -> bool) (l : list A),
      Permutation (sort_values le l) l;
  sort_values_sorted :
    forall (A : Type) (le : A -> A -> bool),
      (forall x y, le x y = true \/ le y x = true) ->
      (forall x y z, le x y = true -> le y z = true -> le x z = true) ->
      forall l, StronglySorted (fun x y => le x y = true) (sort_values le l)
}.

(** Insertion sort, stable: among rows that compare equal the earlier
    one stays first.  It orders group keys and implements
    [nlargest] / [nsmallest] with [keep='first']. *)
Fixpoint insert_sorted {A : Type} (le : A -> A -> bool) (x : A) (l : list A) : list A :=
  match l with
  | [] => [x]
  | y :: t => if le x y then x :: l else y :: insert_sorted le x t
  end.

Fixpoint stable_sort {A : Type} (le : A -> A -> bool) (l : list A) : list A :=
  match l with
  | [] => []
  | x :: t => insert_sorted le x (stable_sort le t)
  end.

Definition ascending {A K : Type} (leb : K -> K -> bool) (key : A -> K) : A -> A -> bool :=
  fun x y => leb (key x) (key y).
Definition descending {A K : Type} (leb : K -> K -> bool) (key : A -> K) : A -> A -> bool :=
  fun x y => leb (key y) (key x).

(** The selection behind [s.nlargest(n)] and [s.nsmallest(n)] on a
    column without NaN, for the order [le].  When [n] reaches the
    number of rows pandas returns [s.sort_values(...).head(n)], so the
    order of ties is the sorter's; below that it selects with
    [keep='first'], and the earlier row comes first on a tie. *)
Definition select_n `{Sorter} {A : Type} (le : A -> A -> bool) (n : nat) (l : list A)
    : list A :=
  if (List.length l <=? n)%nat
  then head n (sort_values le l)
  else firstn n (stable_sort le l).

Definition nlargest `{Sorter} {A K : Type} (leb : K -> K -> bool) (n : nat) (key : A -> K)
    (l : list A) : list A :=
  select_n (descending leb key) n l.

Definition nsmallest `{Sorter} {A K : Type} (leb : K -> K -> bool) (n : nat) (key : A -> K)
    (l : list A) : list A :=
  select_n (ascending leb key) n l.

Definition is_some {A : Type} (o : option A) : bool :=
  match o with Some _ => true | None => false end.

Definition count_where {A : Type} (p : A -> bool) (l : list A) : nat :=
  List.length (filter p l).

(** The labels of [df.groupby(key)]: the distinct keys in ascending
    order ([sort=True]). *)
Definition group_keys {A : Type} (key : A -> string) (df : list A) : list string :=
  stable_sort String.leb (unique (map key df)).

Definition group {A : Type} (key : A -> string) (df : list A) (k : string) : list A :=
  filter (fun r => String.eqb (key r) k) df.

(** [df.groupby(key).size()] *)
Definition groupby_size {A : Type} (key : A -> string) (df : list A) : list (string * nat) :=
  map (fun k => (k, List.length (group key df k))) (group_keys key df).

(** [s.value_counts()]: the count of each distinct value, the values in
    order of first appearance, then sorted by count, largest first. *)
Definition value_counts `{Sorter} (col : list string) : list (string * nat) :=
  sort_values (descending Nat.leb snd)
    (map (fun k => (k, count_where (String.eqb k) col)) (unique col)).

(** Minimum and maximum of a non-empty group. *)
Definition list_min (x : Z) (l : list Z) : Z := fold_left Z.min l x.
Definition list_max (x : Z) (l : list Z) : Z := fold_left Z.max l x.

(** The non-missing cells of a column. *)
Fixpoint dropna {A : Type} (col : list (option A)) : list A :=
  match col with
  | [] => []
  | Some x :: t => x :: dropna t
  | None :: t => dropna t
  end.

(** * The typed frames of the analysis *)

Module Frame.

(** A ballot once its dates are Timestamps: [voting_time] is a
    Timestamp or NaT, [response_time] the voting time minus the
    question's creation time in seconds, or missing. *)
Record ballot : Type := mk_ballot {
  voter_name : string;
  question_text : string;
  choice : string;
  voting_time : option Z;
  response_time : option Z
}.

(** A row of [merged_df]: a ballot joined with one row of the answer
    key, and the [is_correct] column. *)
Record merged : Type := mk_merged {
  ballot_of : ballot;
  ans_text : string;
  is_correct : bool
}.

Definition minus (a b : option Z) : option Z :=
  match a, b with
  | Some x, Some y => Some (x - y)
  | _, _ => None
  end.

(** [pd.merge(voter_df, correct_answers_df.rename(...), on='question_text')]
    followed by [merged_df['is_correct'] = choice == ans_text]. *)
Definition merge_correct (voter_df : list ballot) (correct_answers_df : list Sheet.correct_row)
    : list merged :=
  flat_map (fun b =>
    map (fun k => {| ballot_of := b; ans_text := Sheet.key_ans_text k;
                     is_correct := String.eqb (choice b) (Sheet.key_ans_text k) |})
        (filter (fun k => String.eqb (Sheet.key_que_text k) (question_text b))
                correct_answers_df))
    voter_df.

Definition timestamp_of (v : pyval) : option Z :=
  match v with PTimestamp t => Some t | _ => None end.

End Frame.

(** [df.sort_values(col)] on a column that may hold NaN: the rows with
    a value in ascending order, then the rows without one
    ([na_position='last']). *)
Definition keyed {A : Type} (key : A -> option Z) (df : list A) : list (Z * A) :=
  flat_map (fun r => match key r with Some k => [(k, r)] | None => [] end) df.

Definition sort_values_by `{Sorter} {A : Type} (key : A -> option Z) (df : list A) : list A :=
  map snd (sort_values (ascending Z.leb fst) (keyed key df))
  ++ filter (fun r => negb (is_some (key r))) df.

(** * get_questions.py *)

Module GetQuestions.
Import Frame.

(** line 20 *)
Definition N : nat := 32.

(** line 11 *)
Definition dedup_questions (que_ans_df : list Sheet.que_ans_row) : list Sheet.que_ans_row :=
  drop_duplicates Sheet.que_text que_ans_df.

(** The wall clock.  [readings k] is what the [k]-th call of
    [datetime.now()] returns and [reads] counts those calls;
    [parse_instants k] is the instant at which the [k]-th call of
    [pd.to_datetime] runs and [parses] counts those. *)
Record wall_clock : Type := mk_clock {
  readings : nat -> Z;
  reads : nat;
  parse_instants : nat -> Z;
  parses : nat
}.

Definition datetime_now : State wall_clock Z :=
  fun w => (readings w (reads w),
            {| readings := readings w; reads := S (reads w);
               parse_instants := parse_instants w; parses := parses w |}).

(** The instant the next call of [pd.to_datetime] runs at. *)
Definition parser_instant : State wall_clock Z :=
  fun w => (parse_instants w (parses w),
            {| readings := readings w; reads := reads w;
               parse_instants := parse_instants w; parses := S (parses w) |}).

(** The three kinds of column [read_excel] makes: a column of dates
    and empty cells is a datetime column, whose empty cells are NaT;
    a column of numbers and empty cells is numeric, with NaN for the
    empty cells; every other column, and a column without rows, holds
    Python objects. *)
Inductive dtype : Type := Dates | Numbers | Objects.

Definition is_datetime_cell (v : pyval) : bool :=
  match v with PTimestamp _ | PNaT => true | _ => false end.

Definition is_number_cell (v : pyval) : bool :=
  match v with PInt _ | PNaN => true | _ => false end.

Definition dtype_of (col : list pyval) : dtype :=
  match col with
  | [] => Objects
  | _ :: _ =>
      if forallb is_datetime_cell col then Dates
      else if forallb is_number_cell col then Numbers
      else Objects
  end.

(** What [map] fills in for a key without a row. *)
Definition na_value (kind : dtype) : pyval :=
  match kind with Dates => PNaT | _ => PNaN end.

(** [a - b] between two cells: the difference of two Timestamps or of
    two numbers, missing when a side is NaT or NaN; NaT stays NaT next
    to an integer; any other pair, text above all, raises
    [TypeError]. *)
Definition subtract (a b : pyval) : result (option Z) :=
  match a, b with
  | PTimestamp x, PTimestamp y => Ok (Some (x - y))
  | PTimestamp _, PNaT | PNaT, PTimestamp _ | PNaT, PNaT => Ok None
  | PInt x, PInt y => Ok (Some (x - y))
  | PInt _, PNaN | PNaN, PInt _ | PNaN, PNaN => Ok None
  | PNaT, PInt _ | PInt _, PNaT => Ok None
  | _, _ => Raise TypeError
  end.

(** [question_text.map(que_ans_df.set_index('que_text')['que_created_at'])]
    for one ballot, on a question table with one row per question
    text (line 11); [kind] is the dtype of the creation column, which
    the column has had since it was loaded. *)
Definition created_at (kind : dtype) (que_ans_df : list Sheet.que_ans_row) (q : string)
    : pyval :=
  match find (fun r => String.eqb (Sheet.que_text r) q) que_ans_df with
  | Some r => Sheet.que_created_at r
  | None => na_value kind
  end.

(** The subtraction of lines 17 and 52, on the cells as they are.
    pandas refuses a datetime column against a numeric one, and any
    column that is not a datetime column minus a datetime column;
    the other pairs of columns are subtracted cell by cell. *)
Definition response_times (kind : dtype) (que_ans_df : list Sheet.que_ans_row)
    (voter_df : list Sheet.voter_row) : result (list (option Z)) :=
  match dtype_of (map Sheet.voting_time voter_df), kind with
  | Dates, Numbers | Numbers, Dates | Objects, Dates => Raise TypeError
  | _, _ =>
      apply_raising
        (fun v => subtract (Sheet.voting_time v)
                           (created_at kind que_ans_df (Sheet.question_text v)))
        voter_df
  end.

(** The ballot table with its [response_time] column. *)
Definition with_response_time (kind : dtype) (que_ans_df : list Sheet.que_ans_row)
    (voter_df : list Sheet.voter_row) : result (list ballot) :=
  match response_times kind que_ans_df voter_df with
  | Raise e => Raise e
  | Ok times =>
      Ok (map (fun vd =>
                 {| voter_name := Sheet.voter_name (fst vd);
                    question_text := Sheet.question_text (fst vd);
                    choice := Sheet.choice (fst vd);
                    voting_time := timestamp_of (Sheet.voting_time (fst vd));
                    response_time := snd vd |})
              (combine voter_df times))
  end.

Section ParseCustomDate.

(** [pd.to_datetime(date_str, dayfirst=True, errors='coerce')] as it
    answers at a given instant: the parser resolves words such as
    "today" from the clock. *)
Variable to_datetime : Z -> pyval -> parse_outcome.

(** lines 39-41 *)
Definition parsed_date (date_str : pyval) : State wall_clock (result pyval) :=
  t <- parser_instant ;;
  ret (match to_datetime t date_str with
       | Parsed p => Ok (PTimestamp p)
       | Unparseable => Ok PNaT
       | ParserRaised e => Raise e
       end).

(** [date_str.split("at")[-1].strip()] *)
Definition time_part (date_str : string) : string :=
  PyStr.strip (last (PyStr.split_on "at" date_str) EmptyString).

(** lines 27-41; [in] on a value that is neither a string nor a
    Timestamp raises [TypeError]. *)
Definition parse_custom_date (date_str : pyval) : State wall_clock (result pyval) :=
  match date_str with
  | PTimestamp _ => ret (Ok date_str)
  | PStr s =>
      if PyStr.contains "Today" s then
        now <- datetime_now ;;
        let today := Calendar.strftime_dmy now in
        parsed_date (PStr (today ++ " " ++ time_part s)%string)
      else if PyStr.contains "Yesterday" s then
        now <- datetime_now ;;
        let yesterday := Calendar.strftime_dmy (now - 86400) in
        parsed_date (PStr (yesterday ++ " " ++ time_part s)%string)
      else parsed_date date_str
  | _ => ret (Raise TypeError)
  end.

(** line 44: [voter_df['voting_time'].apply(parse_custom_date)] *)
Fixpoint apply_parse (col : list pyval) : State wall_clock (result (list pyval)) :=
  match col with
  | [] => ret (Ok [])
  | v :: t =>
      r <- parse_custom_date v ;;
      match r with
      | Raise e => ret (Raise e)
      | Ok y =>
          rs <- apply_parse t ;;
          ret (match rs with
               | Ok ys => Ok (y :: ys)
               | Raise e => Raise e
               end)
      end
  end.

Definition with_voting_time (v : Sheet.voter_row) (t : pyval) : Sheet.voter_row :=
  {| Sheet.voter_name := Sheet.voter_name v;
     Sheet.question_text := Sheet.question_text v;
     Sheet.choice := Sheet.choice v;
     Sheet.vote_count := Sheet.vote_count v;
     Sheet.voting_time := t |}.

(** lines 44-46: the frame written to [Cleaned_Voter.xlsx]. *)
Definition clean_voting_time (voter_df : list Sheet.voter_row)
    : State wall_clock (result (list Sheet.voter_row)) :=
  r <- apply_parse (map Sheet.voting_time voter_df) ;;
  ret (match r with
       | Raise e => Raise e
       | Ok times =>
           Ok (map (fun vt => with_voting_time (fst vt) (snd vt)) (combine voter_df times))
       end).

(** Lines 11-52 in order: the de-duplication, the first subtraction
    (line 17, on the voting times as loaded), the normalisation of the
    voting times (line 44) and the subtraction again (line 52).  The
    result is the ballot frame the metrics are computed from. *)
Definition prepare (que_ans_df : list Sheet.que_ans_row)
    (voter_df : list Sheet.voter_row) : State wall_clock (result (list ballot)) :=
  let kind := dtype_of (map Sheet.que_created_at que_ans_df) in
  let que := dedup_questions que_ans_df in
  match with_response_time kind que voter_df with
  | Raise e => ret (Raise e)
  | Ok _ =>
      r <- clean_voting_time voter_df ;;
      ret (match r with
           | Raise e => Raise e
           | Ok cleaned => with_response_time kind que cleaned
           end)
  end.

End ParseCustomDate.

Section Report.
Context `{Sorter}.
Variable voter_df : list ballot.
Variable correct_answers_df : list Sheet.correct_row.

(** line 55 *)
Definition active_voters : list (string * nat) :=
  head N (value_counts (map voter_name voter_df)).

(** line 59 *)
Definition early_birds : list (string * nat) :=
  nlargest Nat.leb N snd
    (groupby_size voter_name
       (drop_duplicates question_text (sort_values_by response_time voter_df))).

(** lines 68-77 *)
Definition merged_df : list merged := merge_correct voter_df correct_answers_df.

(** line 89 *)
Definition least_active_voters : list (string * nat) :=
  tail N (value_counts (map voter_name voter_df)).

(** line 98 *)
Definition correct_answers_by_voter : list (string * nat) :=
  nlargest Nat.leb N snd
    (groupby_size (fun m => voter_name (ballot_of m)) (filter is_correct merged_df)).

End Report.

End GetQuestions.

(** * quiz_dashboard3.py *)

Module QuizDashboard3.
Import Frame.

Section LoadData.

(** [pd.to_datetime(column, errors='coerce')], cell by cell.  The
    parser settles the format on the column as a whole (there is no
    [dayfirst] here), so its answer for a cell is taken to depend on
    the column the cell is in. *)
Variable to_datetime : list pyval -> pyval -> parse_outcome.

Definition coerce (col : list pyval) (v : pyval) : result (option Z) :=
  match to_datetime col v with
  | Parsed t => Ok (Some t)
  | Unparseable => Ok None
  | ParserRaised e => Raise e
  end.

(** lines 42-48: the left merge on [question_text] = [que_text] and
    the [response_time] column, for one ballot. *)
Definition left_merge_row (que : list (Sheet.que_ans_row * option Z))
    (v : Sheet.voter_row) (t : option Z) : list ballot :=
  let row (created : option Z) :=
    {| voter_name := Sheet.voter_name v;
       question_text := Sheet.question_text v;
       choice := Sheet.choice v;
       voting_time := t;
       response_time := minus t created |} in
  match filter (fun qc => String.eqb (Sheet.que_text (fst qc)) (Sheet.question_text v)) que with
  | [] => [row None]
  | matches => map (fun qc => row (snd qc)) matches
  end.

(** lines 28-53; [None] is the [except] branch, which reports the
    error and returns no frames. *)
Definition load_data (que_ans_df : list Sheet.que_ans_row)
    (voter_df : list Sheet.voter_row) (correct_answers_df : list Sheet.correct_row)
    : option (list (Sheet.que_ans_row * option Z) * list ballot * list Sheet.correct_row) :=
  let voting := map Sheet.voting_time voter_df in
  let creation := map Sheet.que_created_at que_ans_df in
  match apply_raising (coerce voting) voting,
        apply_raising (coerce creation) creation with
  | Ok times, Ok created =>
      let que := combine que_ans_df created in
      Some (que,
            flat_map (fun vt => left_merge_row que (fst vt) (snd vt))
                     (combine voter_df times),
            correct_answers_df)
  | _, _ => None
  end.

End LoadData.

(** [count], [sum] and [accuracy] of one voter. *)
Record performance : Type := mk_performance {
  count : nat;
  sum : nat;
  accuracy : Q
}.

(** [k / n] on integers, as a reduced fraction. *)
Definition ratio (k n : nat) : Q :=
  Qred (inject_Z (Z.of_nat k) / inject_Z (Z.of_nat n)).

Record insights : Type := mk_insights {
  active_voters : list (string * nat);
  early_birds : list (string * nat);
  incorrect_questions : list (string * Q);
  easy_questions : list (string * Q);
  least_active : list (string * nat);
  inactive_followers : list (string * option Z);
  good_performers : list (string * performance);
  least_voted : list (string * nat);
  fast_responses : list (string * Z);
  slow_responses : list (string * Z)
}.

Definition notna (voter_df : list ballot) : list ballot :=
  filter (fun b => is_some (response_time b)) voter_df.

(** [is_correct] aggregated per group of [merged_df]. *)
Definition correct_in (g : list merged) : nat := count_where is_correct g.
Definition incorrect_in (g : list merged) : nat :=
  count_where (fun m => negb (is_correct m)) g.

(** [s.nsmallest(n)] on a column that may hold NaT: the rows with a
    value first, smallest first, then the rows without one; the whole
    sorted column once [n] reaches the number of rows. *)
Definition nsmallest_na `{Sorter} {A : Type} (n : nat) (key : A -> option Z) (l : list A)
    : list A :=
  if (List.length l <=? n)%nat
  then head n (sort_values_by key l)
  else firstn n (map snd (stable_sort (ascending Z.leb fst) (keyed key l))
                 ++ filter (fun r => negb (is_some (key r))) l).

(** The extreme response time of each question that has one. *)
Definition per_question (pick : Z -> list Z -> Z) (df : list ballot) : list (string * Z) :=
  flat_map (fun k =>
              match dropna (map response_time (group question_text df k)) with
              | [] => []
              | x :: t => [(k, pick x t)]
              end)
           (group_keys question_text df).

Definition max_time (g : list ballot) : option Z :=
  match dropna (map voting_time g) with
  | [] => None
  | x :: t => Some (list_max x t)
  end.

Section CalculateInsights.
Context `{Sorter}.
Variable voter_df : list ballot.
Variable correct_answers_df : list Sheet.correct_row.
Variable n : nat.

(** lines 72-77 *)
Definition merged_df : list merged := merge_correct voter_df correct_answers_df.

Definition by_question (m : merged) : string := question_text (ballot_of m).
Definition by_voter (m : merged) : string := voter_name (ballot_of m).

(** lines 55-124 *)
Definition calculate_insights : insights :=
  {| active_voters := head n (value_counts (map voter_name voter_df));
     early_birds :=
       nlargest Nat.leb n snd
         (groupby_size voter_name
            (drop_duplicates question_text
               (sort_values_by response_time (notna voter_df))));
     incorrect_questions :=
       nlargest Qle_bool n snd
         (map (fun k => let g := group by_question merged_df k in
                        (k, ratio (incorrect_in g) (List.length g)))
              (group_keys by_question merged_df));
     easy_questions :=
       head n
         (filter (fun kv => Qeq_bool (snd kv) 1)
            (map (fun k => let g := group by_question merged_df k in
                           (k, ratio (correct_in g) (List.length g)))
                 (group_keys by_question merged_df)));
     least_active := tail n (value_counts (map voter_name voter_df));
     inactive_followers :=
       nsmallest_na n snd
         (map (fun k => (k, max_time (group voter_name voter_df k)))
              (group_keys voter_name voter_df));
     good_performers :=
       nlargest Qle_bool n (fun kv => accuracy (snd kv))
         (map (fun k => let g := group by_voter merged_df k in
                        (k, {| count := List.length g;
                               sum := correct_in g;
                               accuracy :=
                                 Qred (ratio (correct_in g) (List.length g) * 100) |}))
              (group_keys by_voter merged_df));
     least_voted :=
       nsmallest Nat.leb n snd (value_counts (map question_text voter_df));
     fast_responses :=
       nsmallest Z.leb n snd (per_question list_min (notna voter_df));
     slow_responses :=
       nlargest Z.leb n snd (per_question list_max (notna voter_df)) |}.

End CalculateInsights.

End QuizDashboard3.

(** * Instances used to run the pipeline on concrete tables *)

(** A fragment of [pandas.to_datetime(..., dayfirst=True,
    errors='coerce')]: it reads Timestamps, NaT / NaN, and strings of
    the exact shape [DD/MM/YYYY HH:MM] (the shape [parse_custom_date]
    builds with [strftime]) holding a valid day-first date.  Everything
    else is reported unparseable, where pandas may still read a date;
    the examples below feed it nothing outside the fragment. *)
Module DayFirst.

Fixpoint digits (k : nat) (acc : Z) (s : string) : option (Z * string) :=
  match k with
  | O => Some (acc, s)
  | S k' =>
      match s with
      | String c r =>
          if PyStr.is_digit c then digits k' (10 * acc + PyStr.digit_val c) r else None
      | EmptyString => None
      end
  end.

Definition expect (c : ascii) (s : string) : option string :=
  match s with
  | String c' r => if Ascii.eqb c c' then Some r else None
  | EmptyString => None
  end.

Definition is_leap (y : Z) : bool :=
  ((y mod 4 =? 0) && negb (y mod 100 =? 0)) || (y mod 400 =? 0).

Definition days_in_month (y m : Z) : Z :=
  if m =? 2 then (if is_leap y then 29 else 28)
  else if (m =? 4) || (m =? 6) || (m =? 9) || (m =? 11) then 30 else 31.

Definition parse (s : string) : option Z :=
  match digits 2 0 s with
  | Some (d, s1) =>
  match expect "/"%char s1 with
  | Some s2 =>
  match digits 2 0 s2 with
  | Some (m, s3) =>
  match expect "/"%char s3 with
  | Some s4 =>
  match digits 4 0 s4 with
  | Some (y, s5) =>
  match expect " "%char s5 with
  | Some s6 =>
  match digits 2 0 s6 with
  | Some (hh, s7) =>
  match expect ":"%char s7 with
  | Some s8 =>
  match digits 2 0 s8 with
  | Some (mm, EmptyString) =>
      if (1 <=? m) && (m <=? 12) && (1 <=? d) && (d <=? days_in_month y m)
         && (1 <=? y) && (hh <? 24) && (mm <? 60)
      then Some (Calendar.datetime y m d hh mm) else None
  | _ => None end
  | None => None end
  | None => None end
  | None => None end
  | None => None end
  | None => None end
  | None => None end
  | None => None end
  | None => None end.

Definition to_datetime (v : pyval) : parse_outcome :=
  match v with
  | PTimestamp t => Parsed t
  | PStr s => match parse s with Some t => Parsed t | None => Unparseable end
  | _ => Unparseable
  end.

(** The fragment with the clock: at the instant [now] the word "today"
    reads as [now]. *)
Definition to_datetime_at (now : Z) (v : pyval) : parse_outcome :=
  match v with
  | PStr s => if String.eqb s "today" then Parsed now else to_datetime v
  | _ => to_datetime v
  end.

End DayFirst.

(** * quiz_dashboard.py *)

(** [s.sort_values()] on a column of rationals that may hold NaN. *)
Definition keyed_by {A K : Type} (key : A -> option K) (df : list A) : list (K * A) :=
  flat_map (fun r => match key r with Some k => [(k, r)] | None => [] end) df.

Definition sort_values_na `{Sorter} {A K : Type} (leb : K -> K -> bool)
    (key : A -> option K) (df : list A) : list A :=
  map snd (sort_values (ascending leb fst) (keyed_by key df))
  ++ filter (fun r => negb (is_some (key r))) df.

Module QuizDashboard.
Import Frame.

Record insights : Type := mk_insights {
  active_voters : list (string * nat);
  early_birds : list (string * nat);
  incorrect_questions : list (string * Q);
  good_performers : list (string * QuizDashboard3.performance);
  response_times : list (string * option Q)
}.

(** [groupby('question_text')['response_time'].mean()] for one group:
    the mean of the values present, NaN when there is none. *)
Definition mean_time (g : list ballot) : option Q :=
  match dropna (map response_time g) with
  | [] => None
  | vals =>
      Some (Qred (inject_Z (fold_left Z.add vals 0) / inject_Z (Z.of_nat (List.length vals))))
  end.

Section CalculateInsights.
Context `{Sorter}.
Variable voter_df : list ballot.
Variable correct_answers_df : list Sheet.correct_row.
Variable n : nat.

(** lines 54-60 *)
Definition merged_df : list merged := merge_correct voter_df correct_answers_df.

Definition by_question (m : merged) : string := question_text (ballot_of m).
Definition by_voter (m : merged) : string := voter_name (ballot_of m).

(** lines 39-83 *)
Definition calculate_insights : insights :=
  {| active_voters := head n (value_counts (map voter_name voter_df));
     early_birds :=
       nlargest Nat.leb n snd
         (groupby_size voter_name
            (drop_duplicates question_text (sort_values_by response_time voter_df)));
     incorrect_questions :=
       nlargest Qle_bool n snd
         (map (fun k => let g := group by_question merged_df k in
                        (k, QuizDashboard3.ratio (QuizDashboard3.incorrect_in g) (List.length g)))
              (group_keys by_question merged_df));
     good_performers :=
       nlargest Qle_bool n (fun kv => QuizDashboard3.accuracy (snd kv))
         (map (fun k => let g := group by_voter merged_df k in
                        (k, {| QuizDashboard3.count := List.length g;
                               QuizDashboard3.sum := QuizDashboard3.correct_in g;
                               QuizDashboard3.accuracy :=
                                 Qred (QuizDashboard3.ratio (QuizDashboard3.correct_in g)
                                                            (List.length g) * 100) |}))
              (group_keys by_voter merged_df));
     response_times :=
       head n
         (sort_values_na Qle_bool snd
            (map (fun k => (k, mean_time (group question_text voter_df k)))
                 (group_keys question_text voter_df))) |}.

End CalculateInsights.

End QuizDashboard.

(** * get_questions.py: the question tables of the report *)

Module ReportTables.
Import Frame.

Section Report.
Context `{Sorter}.
Variable voter_df : list ballot.
Variable correct_answers_df : list Sheet.correct_row.

Definition by_question (m : merged) : string := question_text (ballot_of m).

(** line 79 *)
Definition incorrect_counts : list (string * nat) :=
  map (fun k => (k, QuizDashboard3.incorrect_in
                      (group by_question (GetQuestions.merged_df voter_df correct_answers_df) k)))
      (group_keys by_question (GetQuestions.merged_df voter_df correct_answers_df)).

(** line 85 *)
Definition easy_questions : list (string * nat) :=
  nlargest Nat.leb GetQuestions.N snd
    (filter (fun kv => Nat.eqb (snd kv) 0) incorrect_counts).

End Report.

End ReportTables.

(** * Properties *)

(** ** Sanity checks of the string and calendar primitives *)

Example strftime_example :
  Calendar.strftime_dmy (Calendar.datetime 2024 10 22 15 30) = "22/10/2024".
Proof. vm_compute. reflexivity. Qed.

Example split_ws_example :
  PyStr.split_ws "  12   votes " = ["12"; "votes"].
Proof. vm_compute. reflexivity. Qed.

Example split_on_example :
  PyStr.split_on "at" "Today at 10:05" = ["Today "; " 10:05"]
  /\ PyStr.split_on "at" "aat" = ["a"; EmptyString].
Proof. vm_compute. split; reflexivity. Qed.

Example py_int_examples :
  PyStr.py_int "12" = Some 12 /\ PyStr.py_int "-7" = Some (-7)
  /\ PyStr.py_int "1_000" = Some 1000 /\ PyStr.py_int "1_" = None
  /\ PyStr.py_int "votes" = None /\ PyStr.py_int EmptyString = None
  /\ PyStr.py_int "+5" = Some 5 /\ PyStr.py_int "5votes" = None.
Proof. vm_compute. repeat split; reflexivity. Qed.

(** * Lemmas on frames *)

(** ** Lists and the state monad *)

Lemma drop_duplicates_In {A : Type} (key : A -> string) (l : list A) (x : A) :
  In x (drop_duplicates key l) -> In x l.
Proof.
  induction l as [|a t IH]; simpl; [tauto|].
  intros [->|H]; [now left|].
  apply filter_In in H. right. apply IH, H.
Qed.

Lemma drop_duplicates_keys {A : Type} (key : A -> string) (l : list A) (x : A) :
  In x l -> exists y, In y (drop_duplicates key l) /\ key y = key x.
Proof.
  induction l as [|a t IH]; simpl; [tauto|].
  intros [->|H].
  - exists x. auto.
  - destruct (IH H) as [y [Hy Hk]].
    destruct (String.eqb (key y) (key a)) eqn:E.
    + apply String.eqb_eq in E. exists a. split; [now left | congruence].
    + exists y. split; [|exact Hk]. right. apply filter_In. now rewrite E.
Qed.

Lemma unique_In (l : list string) (x : string) : In x (unique l) <-> In x l.
Proof.
  split.
  - apply drop_duplicates_In.
  - intros H. destruct (drop_duplicates_keys (fun s => s) l x H) as [y [Hy ->]].
    exact Hy.
Qed.

Lemma exec_bind {S A B : Type} (m : State S A) (k : A -> State S B) (s : S) :
  exec (x <- m ;; k x) s = exec (k (fst (m s))) (snd (m s)).
Proof. unfold exec, bind. destruct (m s). reflexivity. Qed.

Lemma apply_raising_Raise {A B : Type} (f : A -> result B) (col : list A) (e : exn) :
  apply_raising f col = Raise e -> exists x, In x col /\ f x = Raise e.
Proof.
  induction col as [|x t IH]; simpl; [discriminate|].
  destruct (f x) as [y|e'] eqn:E.
  - destruct (apply_raising f t) as [ys|e'']; [discriminate|].
    intros [= <-]. destruct (IH eq_refl) as [x' [Hin Hx']]. eauto.
  - intros [= <-]. eauto.
Qed.

Lemma apply_raising_Ok {A B : Type} (f : A -> result B) (col : list A) (ys : list B) :
  apply_raising f col = Ok ys -> Forall2 (fun x y => f x = Ok y) col ys.
Proof.
  revert ys. induction col as [|x t IH]; simpl; intros ys.
  - intros [= <-]. constructor.
  - destruct (f x) as [y|e] eqn:E; [|discriminate].
    destruct (apply_raising f t) as [ys'|e]; [|discriminate].
    intros [= <-]. constructor; [exact E | now apply IH].
Qed.

Lemma combine_map_self {A B : Type} (f : A -> B) (g : A -> B -> A) (l : list A) :
  (forall x, g x (f x) = x) ->
  map (fun vt => g (fst vt) (snd vt)) (combine l (map f l)) = l.
Proof.
  intros H. induction l as [|x t IH]; simpl; [reflexivity|]. now rewrite H, IH.
Qed.

(** ** De-duplication *)

Lemma distinct_keys_filter {A : Type} (key : A -> string) (keep : A -> bool) :
  forall rows, NoDup (map key rows) -> NoDup (map key (filter keep rows)).
Proof.
  intros rows. induction rows as [|x t IH]; simpl; intros H; [constructor|].
  apply NoDup_cons_iff in H. destruct H as [Hx Ht].
  destruct (keep x); simpl; [|now apply IH].
  constructor; [|now apply IH].
  rewrite in_map_iff. intros [y [E Hy]]. apply filter_In in Hy.
  apply Hx. rewrite <- E. apply in_map. tauto.
Qed.

Lemma drop_duplicates_NoDup {A : Type} (key : A -> string) (l : list A) :
  NoDup (map key (drop_duplicates key l)).
Proof.
  induction l as [|x t IH]; simpl; constructor.
  - intros Hin. apply in_map_iff in Hin. destruct Hin as [y [E Hy]].
    apply filter_In in Hy. destruct Hy as [_ Hy].
    rewrite E, String.eqb_refl in Hy. discriminate.
  - now apply distinct_keys_filter.
Qed.

Lemma drop_duplicates_first {A : Type} (key : A -> string) (l : list A) (r : A) :
  In r (drop_duplicates key l) ->
  find (fun x => String.eqb (key x) (key r)) l = Some r.
Proof.
  induction l as [|x t IH]; simpl; [contradiction|].
  intros [->|Hin].
  - now rewrite String.eqb_refl.
  - apply filter_In in Hin. destruct Hin as [Hin Hne].
    rewrite String.eqb_sym.
    destruct (String.eqb (key r) (key x)); [discriminate | now apply IH].
Qed.

(** ** Sorting *)

Section InsertionSort.
Context {A : Type} (le : A -> A -> bool).

Lemma insert_sorted_perm x l : Permutation (insert_sorted le x l) (x :: l).
Proof.
  induction l as [|y t IH]; simpl; [reflexivity|].
  destruct (le x y); [reflexivity|].
  rewrite IH. apply perm_swap.
Qed.

Lemma stable_sort_perm l : Permutation (stable_sort le l) l.
Proof.
  induction l as [|x t IH]; simpl; [reflexivity|].
  rewrite insert_sorted_perm. now constructor.
Qed.

Hypothesis le_total : forall x y, le x y = true \/ le y x = true.
Hypothesis le_trans : forall x y z, le x y = true -> le y z = true -> le x z = true.

Lemma insert_sorted_sorted x l :
  StronglySorted (fun a b => le a b = true) l ->
  StronglySorted (fun a b => le a b = true) (insert_sorted le x l).
Proof.
  induction 1 as [|y t Hs IH Hy]; simpl.
  - repeat constructor.
  - destruct (le x y) eqn:E.
    + constructor; [now constructor|].
      constructor; [exact E|].
      eapply Forall_impl; [|exact Hy]. intros z Hz. now apply le_trans with y.
    + constructor; [exact IH|].
      assert (Hyx : le y x = true) by (destruct (le_total x y); congruence).
      eapply Permutation_Forall; [symmetry; apply insert_sorted_perm|].
      now constructor.
Qed.

Lemma stable_sort_sorted l : StronglySorted (fun a b => le a b = true) (stable_sort le l).
Proof.
  induction l as [|x t IH]; simpl; [constructor | now apply insert_sorted_sorted].
Qed.

End InsertionSort.

(** The sorter used to run the pipeline on concrete tables. *)
#[local] Instance insertion_sorter : Sorter :=
  {| sort_values := @stable_sort;
     sort_values_perm := @stable_sort_perm;
     sort_values_sorted := @stable_sort_sorted |}.

Lemma firstn_In {A : Type} (n : nat) (l : list A) (x : A) :
  In x (firstn n l) -> In x l.
Proof.
  intros H. rewrite <- (firstn_skipn n l). apply in_or_app. now left.
Qed.

Lemma skipn_In {A : Type} (n : nat) (l : list A) (x : A) :
  In x (skipn n l) -> In x l.
Proof.
  intros H. rewrite <- (firstn_skipn n l). apply in_or_app. now right.
Qed.

Section Ranking.
Context {A : Type} (R : A -> A -> Prop).

Lemma StronglySorted_firstn n l : StronglySorted R l -> StronglySorted R (firstn n l).
Proof.
  intros H. revert n. induction H as [|x t Hs IH Hx]; intros [|n]; simpl; try constructor.
  - apply IH.
  - rewrite Forall_forall in *. intros y Hy. apply Hx.
    eapply firstn_In; eauto.
Qed.

Lemma StronglySorted_skipn n l : StronglySorted R l -> StronglySorted R (skipn n l).
Proof.
  intros H. revert n. induction H as [|x t Hs IH Hx]; intros [|n]; simpl;
    try constructor; auto.
Qed.

Lemma StronglySorted_app l1 l2 :
  StronglySorted R l1 -> StronglySorted R l2 ->
  (forall x y, In x l1 -> In y l2 -> R x y) ->
  StronglySorted R (l1 ++ l2).
Proof.
  induction 1 as [|x t Hs IH Hx]; intros H2 Hc; simpl; [exact H2|].
  constructor.
  - apply IH; [exact H2|]. intros a b Ha Hb. apply Hc; [now right | exact Hb].
  - apply Forall_app. split; [exact Hx|].
    rewrite Forall_forall. intros y Hy. apply Hc; [now left | exact Hy].
Qed.

End Ranking.

Lemma StronglySorted_app_inv {A : Type} (R : A -> A -> Prop) (l1 l2 : list A) :
  StronglySorted R (l1 ++ l2) -> forall x y, In x l1 -> In y l2 -> R x y.
Proof.
  induction l1 as [|a t IH]; simpl; intros Hs x y Hx Hy; [contradiction|].
  inversion Hs as [|? ? Ht Ha]; subst. destruct Hx as [->|Hx].
  - rewrite Forall_forall in Ha. apply Ha, in_or_app. now right.
  - now apply IH.
Qed.

Lemma StronglySorted_map {A B : Type} (f : A -> B) (R : B -> B -> Prop) (l : list A) :
  StronglySorted (fun x y => R (f x) (f y)) l -> StronglySorted R (map f l).
Proof.
  induction 1 as [|x t Hs IH Hx]; simpl; constructor; [exact IH|].
  rewrite Forall_forall in *. intros y Hy. apply in_map_iff in Hy.
  destruct Hy as [z [<- Hz]]. now apply Hx.
Qed.

Lemma StronglySorted_weaken {A : Type} (R R' : A -> A -> Prop) (l : list A) :
  (forall x y, R x y -> R' x y) -> StronglySorted R l -> StronglySorted R' l.
Proof.
  intros HR. induction 1 as [|x t Hs IH Hx]; constructor; [exact IH|].
  eapply Forall_impl; [|exact Hx]. intros y. apply HR.
Qed.

Lemma head_length {A : Type} (n : nat) (l : list A) : (List.length (head n l) <= n)%nat.
Proof. unfold head. apply firstn_le_length. Qed.

Lemma tail_length {A : Type} (n : nat) (l : list A) : (List.length (tail n l) <= n)%nat.
Proof. unfold tail. rewrite length_skipn. lia. Qed.

(** Both ways of selecting return the first [n] rows of an ordered
    rearrangement of the column. *)
Section Selection.
Context `{Sorter} {A : Type} (le : A -> A -> bool).

Lemma select_n_prefix n l :
  exists s, Permutation s l /\ select_n le n l = firstn n s
            /\ ((forall x y, le x y = true \/ le y x = true) ->
                (forall x y z, le x y = true -> le y z = true -> le x z = true) ->
                StronglySorted (fun a b => le a b = true) s).
Proof.
  unfold select_n, head. destruct (List.length l <=? n)%nat.
  - exists (sort_values le l). split; [apply sort_values_perm|]. split; [reflexivity|].
    intros Ht Hr. now apply sort_values_sorted.
  - exists (stable_sort le l). split; [apply stable_sort_perm|]. split; [reflexivity|].
    intros Ht Hr. now apply stable_sort_sorted.
Qed.

Lemma select_n_length n l : (List.length (select_n le n l) <= n)%nat.
Proof.
  destruct (select_n_prefix n l) as [s [_ [-> _]]]. apply firstn_le_length.
Qed.

Lemma select_n_In n l x : In x (select_n le n l) -> In x l.
Proof.
  destruct (select_n_prefix n l) as [s [Hp [-> _]]]. intros Hx.
  apply (Permutation_in _ Hp). eapply firstn_In, Hx.
Qed.

Lemma select_n_all n l : (List.length l <= n)%nat -> Permutation (select_n le n l) l.
Proof.
  intros Hn. destruct (select_n_prefix n l) as [s [Hp [-> _]]].
  rewrite firstn_all2; [exact Hp|]. now rewrite (Permutation_length Hp).
Qed.

Lemma select_n_distinct {B : Type} (f : A -> B) n l :
  NoDup (map f l) -> NoDup (map f (select_n le n l)).
Proof.
  intros Hnd. destruct (select_n_prefix n l) as [s [Hp [-> _]]].
  rewrite <- firstn_map.
  assert (Hs : NoDup (map f s))
    by (eapply Permutation_NoDup; [symmetry; apply Permutation_map, Hp | exact Hnd]).
  rewrite <- (firstn_skipn n (map f s)) in Hs. now apply NoDup_app_remove_r in Hs.
Qed.

Hypothesis le_total : forall x y, le x y = true \/ le y x = true.
Hypothesis le_trans : forall x y z, le x y = true -> le y z = true -> le x z = true.

Lemma select_n_sorted n l : StronglySorted (fun a b => le a b = true) (select_n le n l).
Proof.
  destruct (select_n_prefix n l) as [s [_ [-> Hs]]].
  apply StronglySorted_firstn. now apply Hs.
Qed.

Lemma select_n_top n l :
  exists rest,
    Permutation (select_n le n l ++ rest) l
    /\ (forall x y, In x (select_n le n l) -> In y rest -> le x y = true)
    /\ List.length (select_n le n l) = Nat.min n (List.length l).
Proof.
  destruct (select_n_prefix n l) as [s [Hp [-> Hs]]].
  exists (skipn n s). split; [|split].
  - now rewrite firstn_skipn.
  - intros x y Hx Hy. specialize (Hs le_total le_trans).
    rewrite <- (firstn_skipn n s) in Hs.
    exact (StronglySorted_app_inv _ _ _ Hs x y Hx Hy).
  - rewrite length_firstn. f_equal. now apply Permutation_length.
Qed.

End Selection.

Lemma nlargest_length `{Sorter} {A K : Type} (leb : K -> K -> bool) n (key : A -> K) l :
  (List.length (nlargest leb n key l) <= n)%nat.
Proof. apply select_n_length. Qed.

Lemma nsmallest_length `{Sorter} {A K : Type} (leb : K -> K -> bool) n (key : A -> K) l :
  (List.length (nsmallest leb n key l) <= n)%nat.
Proof. apply select_n_length. Qed.

(** The three orders that rank the metrics. *)
Lemma nat_leb_total (x y : nat) : Nat.leb x y = true \/ Nat.leb y x = true.
Proof. rewrite !Nat.leb_le. lia. Qed.
Lemma nat_leb_trans (x y z : nat) :
  Nat.leb x y = true -> Nat.leb y z = true -> Nat.leb x z = true.
Proof. rewrite !Nat.leb_le. lia. Qed.
Lemma Z_leb_total (x y : Z) : Z.leb x y = true \/ Z.leb y x = true.
Proof. rewrite !Z.leb_le. lia. Qed.
Lemma Z_leb_trans (x y z : Z) :
  Z.leb x y = true -> Z.leb y z = true -> Z.leb x z = true.
Proof. rewrite !Z.leb_le. lia. Qed.
Lemma Q_leb_total (x y : Q) : Qle_bool x y = true \/ Qle_bool y x = true.
Proof.
  rewrite !Qle_bool_iff. destruct (Qlt_le_dec x y) as [H|H]; [left | right; exact H].
  now apply Qlt_le_weak.
Qed.
Lemma Q_leb_trans (x y z : Q) :
  Qle_bool x y = true -> Qle_bool y z = true -> Qle_bool x z = true.
Proof. rewrite !Qle_bool_iff. apply Qle_trans. Qed.

Section RankedOutputs.
Context `{Sorter} {A K : Type} (leb : K -> K -> bool) (key : A -> K).
Hypothesis leb_total : forall x y, leb x y = true \/ leb y x = true.
Hypothesis leb_trans : forall x y z, leb x y = true -> leb y z = true -> leb x z = true.

Lemma descending_total (x y : A) :
  descending leb key x y = true \/ descending leb key y x = true.
Proof. unfold descending. destruct (leb_total (key x) (key y)); auto. Qed.

Lemma descending_trans (x y z : A) :
  descending leb key x y = true -> descending leb key y z = true ->
  descending leb key x z = true.
Proof. unfold descending. intros H1 H2. now apply leb_trans with (key y). Qed.

Lemma nlargest_sorted n l :
  StronglySorted (fun x y => leb (key y) (key x) = true) (nlargest leb n key l).
Proof.
  apply (select_n_sorted (descending leb key)); [apply descending_total|].
  apply descending_trans.
Qed.

Lemma nsmallest_sorted n l :
  StronglySorted (fun x y => leb (key x) (key y) = true) (nsmallest leb n key l).
Proof.
  apply (select_n_sorted (ascending leb key)); unfold ascending.
  - intros x y. apply leb_total.
  - intros x y z. apply leb_trans.
Qed.

End RankedOutputs.

Lemma value_counts_sorted `{Sorter} (col : list string) :
  StronglySorted (fun x y => (snd y <= snd x)%nat) (value_counts col).
Proof.
  unfold value_counts.
  eapply StronglySorted_weaken;
    [|apply sort_values_sorted with (le := descending Nat.leb (@snd string nat))].
  - intros x y. unfold descending. apply Nat.leb_le.
  - intros x y. unfold descending. apply nat_leb_total.
  - intros x y z. unfold descending. intros H1 H2. now apply nat_leb_trans with (snd y).
Qed.

Lemma StronglySorted_refine {A : Type} (R R' : A -> A -> Prop) (P : A -> Prop) (l : list A) :
  (forall x y, P x -> P y -> R x y -> R' x y) ->
  Forall P l -> StronglySorted R l -> StronglySorted R' l.
Proof.
  intros HR HP Hs. induction Hs as [|x t Hs IH Hx]; constructor.
  - apply IH. now inversion HP.
  - inversion HP as [|? ? Px Pt]; subst.
    rewrite Forall_forall in *. intros y Hy. apply HR; auto.
Qed.

Lemma keyed_In {A : Type} (key : A -> option Z) (l : list A) (k : Z) (r : A) :
  In (k, r) (keyed key l) <-> In r l /\ key r = Some k.
Proof.
  unfold keyed. rewrite in_flat_map. split.
  - intros [x [Hx Hin]]. destruct (key x) eqn:E; simpl in Hin; [|contradiction].
    destruct Hin as [[= <- <-]|[]]. auto.
  - intros [Hr Hk]. exists r. split; [exact Hr|]. rewrite Hk. now left.
Qed.

(** Ascending on the cells that hold a value, the missing cells last. *)
Definition missing_last (a b : option Z) : Prop :=
  match a, b with
  | Some x, Some y => x <= y
  | None, Some _ => False
  | _, None => True
  end.

Lemma present_then_missing_sorted {A : Type} (key : A -> option Z)
    (sorted : list (Z * A)) (l : list A) :
  Forall (fun p => key (snd p) = Some (fst p)) sorted ->
  StronglySorted (fun p q => Z.leb (fst p) (fst q) = true) sorted ->
  StronglySorted (fun x y => missing_last (key x) (key y))
    (map snd sorted ++ filter (fun r => negb (is_some (key r))) l).
Proof.
  intros Hk Hs. apply StronglySorted_app.
  - apply StronglySorted_map.
    eapply StronglySorted_refine; [|exact Hk|exact Hs].
    intros p q Hp Hq Hle. simpl in *. rewrite Hp, Hq. simpl. now apply Z.leb_le.
  - induction l as [|r t IH]; simpl; [constructor|].
    destruct (key r) eqn:E; simpl; [exact IH|].
    constructor; [exact IH|].
    rewrite Forall_forall. intros y Hy. apply filter_In in Hy. destruct Hy as [_ Hy].
    rewrite E. destruct (key y); [discriminate | exact I].
  - intros x y _ Hy. apply filter_In in Hy. destruct Hy as [_ Hy].
    destruct (key y); [discriminate|]. destruct (key x); exact I.
Qed.

Lemma keyed_sound {A : Type} (key : A -> option Z) (l : list A) :
  Forall (fun p => key (snd p) = Some (fst p)) (keyed key l).
Proof.
  rewrite Forall_forall. intros [k r] Hin. apply keyed_In in Hin. simpl. tauto.
Qed.

Lemma sort_values_by_sorted `{Sorter} {A : Type} (key : A -> option Z) (l : list A) :
  StronglySorted (fun x y => missing_last (key x) (key y)) (sort_values_by key l).
Proof.
  unfold sort_values_by. apply present_then_missing_sorted.
  - eapply Permutation_Forall; [symmetry; apply sort_values_perm | apply keyed_sound].
  - apply sort_values_sorted with (le := ascending Z.leb (@fst Z A)); unfold ascending.
    + intros x y. apply Z_leb_total.
    + intros x y z. apply Z_leb_trans.
Qed.

Lemma nsmallest_na_length `{Sorter} {A : Type} (n : nat) (key : A -> option Z)
    (l : list A) :
  (List.length (QuizDashboard3.nsmallest_na n key l) <= n)%nat.
Proof.
  unfold QuizDashboard3.nsmallest_na, head.
  destruct (List.length l <=? n)%nat; apply firstn_le_length.
Qed.

Lemma nsmallest_na_sorted `{Sorter} {A : Type} (n : nat) (key : A -> option Z)
    (l : list A) :
  StronglySorted (fun x y => missing_last (key x) (key y))
    (QuizDashboard3.nsmallest_na n key l).
Proof.
  unfold QuizDashboard3.nsmallest_na, head.
  destruct (List.length l <=? n)%nat; apply StronglySorted_firstn.
  - apply sort_values_by_sorted.
  - apply present_then_missing_sorted.
    + eapply Permutation_Forall; [symmetry; apply stable_sort_perm | apply keyed_sound].
    + apply (stable_sort_sorted (ascending Z.leb fst)); unfold ascending.
      * intros x y. apply Z_leb_total.
      * intros x y z. apply Z_leb_trans.
Qed.

(** ** Groups *)

Lemma unique_NoDup (l : list string) : NoDup (unique l).
Proof.
  unfold unique. rewrite <- (map_id (drop_duplicates (fun s => s) l)).
  apply drop_duplicates_NoDup.
Qed.

Section GroupBy.
Context {A : Type} (key : A -> string) (df : list A).

Lemma group_keys_In (k : string) : In k (group_keys key df) <-> In k (map key df).
Proof.
  unfold group_keys. split; intros H.
  - apply unique_In. eapply Permutation_in; [apply stable_sort_perm | exact H].
  - apply unique_In in H.
    eapply Permutation_in; [symmetry; apply stable_sort_perm | exact H].
Qed.

Lemma group_keys_NoDup : NoDup (group_keys key df).
Proof.
  unfold group_keys. eapply Permutation_NoDup; [symmetry; apply stable_sort_perm|].
  apply unique_NoDup.
Qed.

Lemma group_In (k : string) (r : A) : In r (group key df k) <-> In r df /\ key r = k.
Proof. unfold group. rewrite filter_In, String.eqb_eq. tauto. Qed.

Lemma group_nonempty (k : string) :
  In k (map key df) -> (1 <= List.length (group key df k))%nat.
Proof.
  intros Hk. apply in_map_iff in Hk. destruct Hk as [r [E Hr]].
  assert (Hg : In r (group key df k)) by (apply group_In; tauto).
  destruct (group key df k); [contradiction | simpl; lia].
Qed.

End GroupBy.

Lemma count_where_le {A : Type} (p : A -> bool) (l : list A) :
  (count_where p l <= List.length l)%nat.
Proof. unfold count_where. apply filter_length_le. Qed.

(** ** Rational arithmetic of the ratios *)

Lemma ratio_value (k n : nat) :
  (0 < n)%nat -> (QuizDashboard3.ratio k n == Z.of_nat k # Pos.of_nat n)%Q.
Proof.
  intros Hn. unfold QuizDashboard3.ratio. rewrite Qred_correct.
  destruct n as [|m]; [lia|].
  rewrite <- Pos.of_nat_succ.
  unfold Qdiv, Qinv, Qmult, Qeq, inject_Z. simpl. lia.
Qed.

Lemma percentage_bounds (k n : nat) :
  (0 < n)%nat -> (k <= n)%nat ->
  (0 <= (Z.of_nat k # Pos.of_nat n) * 100)%Q
  /\ ((Z.of_nat k # Pos.of_nat n) * 100 <= 100)%Q.
Proof.
  intros Hn Hk.
  assert (Hp : Z.pos (Pos.of_nat n) = Z.of_nat n).
  { destruct n; [lia|]. rewrite <- Pos.of_nat_succ.
    now rewrite Zpos_P_of_succ_nat, Nat2Z.inj_succ. }
  split; unfold Qle, Qmult; cbn [Qnum Qden inject_Z];
    rewrite ?Pos2Z.inj_mul, ?Hp; nia.
Qed.

(** ** Top-n selection *)

Section TopN.
Context `{Sorter} {A K : Type} (leb : K -> K -> bool) (key : A -> K).
Hypothesis leb_total : forall x y, leb x y = true \/ leb y x = true.
Hypothesis leb_trans : forall x y z, leb x y = true -> leb y z = true -> leb x z = true.

Lemma nlargest_In n l x : In x (nlargest leb n key l) -> In x l.
Proof. apply select_n_In. Qed.

Lemma nsmallest_In n l x : In x (nsmallest leb n key l) -> In x l.
Proof. apply select_n_In. Qed.

Lemma nlargest_top n l :
  exists rest,
    Permutation (nlargest leb n key l ++ rest) l
    /\ (forall x y, In x (nlargest leb n key l) -> In y rest -> leb (key y) (key x) = true)
    /\ List.length (nlargest leb n key l) = Nat.min n (List.length l).
Proof.
  apply (select_n_top (descending leb key));
    [now apply descending_total | now apply descending_trans].
Qed.

End TopN.

(** Tables too small to leave the sorter a choice. *)
Section SmallTables.
Context `{Sorter} {A : Type} (le : A -> A -> bool).

Lemma sort_values_nil : sort_values le [] = [].
Proof. apply Permutation_nil. symmetry. apply sort_values_perm. Qed.

Lemma sort_values_one x : sort_values le [x] = [x].
Proof. apply Permutation_length_1_inv. symmetry. apply sort_values_perm. Qed.

Lemma sort_values_two x y :
  (forall a b, le a b = true \/ le b a = true) ->
  (forall a b c, le a b = true -> le b c = true -> le a c = true) ->
  le y x = false ->
  sort_values le [x; y] = [x; y] /\ sort_values le [y; x] = [x; y].
Proof.
  intros Ht Hr Hyx.
  assert (Hgen : forall l, Permutation l [x; y] -> sort_values le l = [x; y]).
  { intros l Hl. pose proof (sort_values_sorted A le Ht Hr l) as Hs.
    assert (Hp : Permutation [x; y] (sort_values le l))
      by (rewrite sort_values_perm; now symmetry).
    apply Permutation_length_2_inv in Hp. destruct Hp as [E|E]; [exact E|].
    rewrite E in Hs. inversion Hs as [|? ? _ Hall]; subst.
    inversion Hall as [|? ? Hle _]; subst. congruence. }
  split; apply Hgen; [reflexivity | apply perm_swap].
Qed.

Lemma select_n_nil n : select_n le n [] = [].
Proof. unfold select_n, head. simpl. rewrite sort_values_nil. apply firstn_nil. Qed.

Lemma select_n_one n x : (1 <= n)%nat -> select_n le n [x] = [x].
Proof.
  intros Hn. unfold select_n, head. cbn [List.length].
  destruct (Nat.leb_spec 1 n) as [_|Hlt]; [|lia].
  rewrite sort_values_one. destruct n; [lia | simpl; now rewrite firstn_nil].
Qed.

End SmallTables.

Lemma NoDup_firstn {A : Type} (n : nat) (l : list A) : NoDup l -> NoDup (firstn n l).
Proof.
  intros H. rewrite <- (firstn_skipn n l) in H. now apply NoDup_app_remove_r in H.
Qed.

(** ** Sorted frames *)

Lemma sort_values_by_In `{Sorter} {A : Type} (key : A -> option Z) (l : list A) (x : A) :
  In x (sort_values_by key l) <-> In x l.
Proof.
  unfold sort_values_by. rewrite in_app_iff, in_map_iff, filter_In. split.
  - intros [[[k y] [E Hin]]|[Hin _]]; [|exact Hin]. simpl in E. subst y.
    apply (Permutation_in _ (sort_values_perm _ _ _)) in Hin.
    apply keyed_In in Hin. tauto.
  - intros Hin. destruct (key x) as [k|] eqn:E; [left | right; auto].
    exists (k, x). split; [reflexivity|].
    apply (Permutation_in _ (Permutation_sym (sort_values_perm _ _ _))).
    apply keyed_In. tauto.
Qed.

Lemma find_first_sorted {A : Type} (R : A -> A -> Prop) (p : A -> bool) (l : list A) (r : A) :
  StronglySorted R l -> find p l = Some r ->
  forall y, In y l -> p y = true -> y = r \/ R r y.
Proof.
  induction 1 as [|x t Hs IH Hx]; simpl; [discriminate|].
  destruct (p x) eqn:Px.
  - intros [= <-] y [<-|Hy] _; [now left | right].
    rewrite Forall_forall in Hx. now apply Hx.
  - intros Hf y [<-|Hy] Py; [congruence | now apply IH].
Qed.

Lemma NoDup_keys_inj {A : Type} (key : A -> string) (l : list A) (x y : A) :
  NoDup (map key l) -> In x l -> In y l -> key x = key y -> x = y.
Proof.
  induction l as [|a t IH]; simpl; [contradiction|].
  intros Hnd Hx Hy E. apply NoDup_cons_iff in Hnd. destruct Hnd as [Ha Ht].
  destruct Hx as [<-|Hx], Hy as [<-|Hy]; auto.
  - exfalso. apply Ha. rewrite E. now apply in_map.
  - exfalso. apply Ha. rewrite <- E. now apply in_map.
Qed.

(** * Properties of get_cleaned.py *)

(** ** Dates and tallies *)

Module CleanedFacts.
Import Sheet GetCleaned.

Fixpoint all_space (s : string) : bool :=
  match s with
  | EmptyString => true
  | String c r => PyStr.is_space c && all_space r
  end.

Lemma is_empty_snoc tok c : PyStr.is_empty (PyStr.snoc tok c) = false.
Proof. destruct tok; reflexivity. Qed.

Lemma split_ws_go_nil s : forall tok,
  PyStr.split_ws_go tok s = [] -> PyStr.is_empty tok = true /\ all_space s = true.
Proof.
  induction s as [|c r IH]; intros tok; simpl.
  - destruct (PyStr.is_empty tok); [auto | discriminate].
  - destruct (PyStr.is_space c) eqn:Hc; simpl.
    + destruct (PyStr.is_empty tok) eqn:Ht; [|discriminate].
      intros H. apply IH in H. tauto.
    + intros H. apply IH in H. rewrite is_empty_snoc in H. destruct H. discriminate.
Qed.

Lemma prefix_votes_head s :
  prefix "votes" s = true -> exists r, s = String "v"%char r.
Proof.
  destruct s as [|c r]; [discriminate|]. cbn [prefix].
  destruct (ascii_dec "v"%char c) as [<-|]; intros H; [eauto | discriminate H].
Qed.

Lemma contains_votes_not_blank s :
  PyStr.contains "votes" s = true -> all_space s = false.
Proof.
  induction s as [|c r IH].
  - simpl. discriminate.
  - intros H. change (prefix "votes" (String c r)
                      || PyStr.contains "votes" r = true) in H.
    apply orb_true_iff in H. destruct H as [H|H].
    + apply prefix_votes_head in H. destruct H as [r' H]. inversion H. reflexivity.
    + simpl. rewrite (IH H). apply andb_false_r.
Qed.

Lemma split_ws_votes_nonempty s :
  PyStr.contains "votes" s = true ->
  exists tok rest, PyStr.split_ws s = tok :: rest.
Proof.
  intros H. destruct (PyStr.split_ws s) as [|tok rest] eqn:E; [|eauto].
  apply split_ws_go_nil in E. destruct E as [_ E].
  rewrite (contains_votes_not_blank s H) in E. discriminate.
Qed.

End CleanedFacts.

Module DateKeywords.
Import Sheet GetCleaned.

Lemma is_str_true value lit : is_str value lit = true <-> value = PStr lit.
Proof.
  destruct value; simpl; try (split; [discriminate | intros H; discriminate H]).
  rewrite String.eqb_eq. split; [now intros -> | now intros [= ->]].
Qed.

Lemma is_str_other value lit : value <> PStr lit -> is_str value lit = false.
Proof.
  intros H. destruct (is_str value lit) eqn:E; [|reflexivity].
  apply is_str_true in E. contradiction.
Qed.

Definition keywords : list pyval :=
  [PStr "TODAY"; PStr "YESTERDAY"; PStr "SUNDAY"; PStr "FRIDAY"].

(** What the [else] branch of [convert_date] returns. *)
Definition day_first_parse (to_datetime : pyval -> parse_outcome) (value : pyval) : pyval :=
  match to_datetime value with
  | Parsed t => PTimestamp t
  | Unparseable => PNaT
  | ParserRaised _ => value
  end.

Lemma convert_date_fallthrough to_datetime value :
  ~ In value keywords ->
  convert_date to_datetime value = day_first_parse to_datetime value.
Proof.
  intros H. unfold convert_date, day_first_parse.
  rewrite !is_str_other; [reflexivity | | | |];
    intros ->; apply H; simpl; tauto.
Qed.

(** C10.  Keyword recognition in [convert_date] is exact and
    case-sensitive: the four upper-case strings give their fixed
    dates; every other value, among them the lower-case, capitalised
    and compound forms, is handed to the day-first parser, and when
    that parser cannot read it the result is NaT, neither a keyword
    date nor an exception. *)
Theorem convert_date_keywords_exact (to_datetime : pyval -> parse_outcome) :
  convert_date to_datetime (PStr "TODAY") = PTimestamp (Calendar.datetime 2024 10 22 0 0)
  /\ convert_date to_datetime (PStr "YESTERDAY") = PTimestamp (Calendar.datetime 2024 10 21 0 0)
  /\ convert_date to_datetime (PStr "SUNDAY") = PTimestamp (Calendar.datetime 2024 10 20 0 0)
  /\ convert_date to_datetime (PStr "FRIDAY") = PTimestamp (Calendar.datetime 2024 10 18 0 0)
  /\ (forall value, ~ In value keywords ->
        convert_date to_datetime value = day_first_parse to_datetime value)
  /\ (forall s,
        In s ["today"; "Today"; "yesterday"; "Sunday"; "friday";
              "Today at 3pm"; "Yesterday at 3pm"; "TODAY "] ->
        to_datetime (PStr s) = Unparseable ->
        convert_date to_datetime (PStr s) = PNaT).
Proof.
  repeat split; try reflexivity.
  - intros value H. now apply convert_date_fallthrough.
  - intros s Hs Hp. rewrite convert_date_fallthrough.
    + unfold day_first_parse. now rewrite Hp.
    + simpl in Hs. unfold keywords. simpl.
      intros [H|[H|[H|[H|[]]]]]; inversion H; subst;
        repeat (destruct Hs as [Hs|Hs]; [discriminate Hs|]); exact Hs.
Qed.

(** The theorem at the parser that reads nothing, on ["today"] and on
    a Timestamp. *)
Lemma convert_date_keywords_exact_witness :
  convert_date (fun _ => Unparseable) (PStr "today") = PNaT
  /\ convert_date (fun _ => Unparseable) (PTimestamp 0) = PNaT.
Proof.
  pose proof (convert_date_keywords_exact (fun _ => Unparseable)) as H.
  destruct H as [_ [_ [_ [_ [Hfall Hlow]]]]].
  split.
  - apply Hlow; [simpl; tauto | reflexivity].
  - rewrite Hfall; [reflexivity|].
    unfold keywords. simpl. intros [H|[H|[H|[H|[]]]]]; discriminate H.
Defined.

End DateKeywords.

Module TallyCleanup.
Import Sheet GetCleaned CleanedFacts.

(** C7 (as the code has it).  [convert_vote_count] returns a
    non-string value and a string without "votes" unchanged; on a
    string containing "votes" it takes the first whitespace-separated
    token, which always exists, and returns its integer value when
    the token is an integer literal and raises [ValueError] when it
    is not. *)
Theorem convert_vote_count_cases (value : pyval) :
  (forall s, value = PStr s -> PyStr.contains "votes" s = true ->
     exists tok rest,
       PyStr.split_ws s = tok :: rest
       /\ convert_vote_count value =
            match PyStr.py_int tok with
            | Some z => Ok (PInt z)
            | None => Raise ValueError
            end)
  /\ ((forall s, value = PStr s -> PyStr.contains "votes" s = false) ->
      convert_vote_count value = Ok value).
Proof.
  split.
  - intros s -> Hc. destruct (split_ws_votes_nonempty s Hc) as [tok [rest E]].
    exists tok, rest. split; [exact E|].
    unfold convert_vote_count. rewrite Hc, E. reflexivity.
  - intros H. destruct value; try reflexivity.
    unfold convert_vote_count. now rewrite (H s eq_refl).
Qed.

Lemma convert_vote_count_cases_witness :
  convert_vote_count (PStr "12 votes") = Ok (PInt 12)
  /\ convert_vote_count (PStr "n/a") = Ok (PStr "n/a").
Proof.
  split.
  - destruct (convert_vote_count_cases (PStr "12 votes")) as [H _].
    destruct (H "12 votes" eq_refl eq_refl) as [tok [rest [Hs Hr]]].
    vm_compute in Hs. injection Hs as <- <-. exact Hr.
  - destruct (convert_vote_count_cases (PStr "n/a")) as [_ H].
    apply H. intros s [= <-]. reflexivity.
Defined.

(** C7 as stated fails: a "votes" string whose leading token is not
    numeric raises, and the exception aborts the whole script. *)
Lemma convert_vote_count_malformed_raises :
  convert_vote_count (PStr "many votes") = Raise ValueError
  /\ convert_vote_count (PStr "votes") = Raise ValueError
  /\ ~ (exists v, convert_vote_count (PStr "many votes") = Ok v)
  /\ run (fun _ => Unparseable)
         {| que_ans_df := [mk_que_ans "Q1" (PStr "TODAY") "A" (PInt 1)];
            voter_df := [mk_voter "v1" "Q1" "A" (PStr "many votes") PNaT] |}
     = Raise ValueError.
Proof.
  repeat split; try reflexivity.
  intros [v H]. discriminate H.
Qed.

End TallyCleanup.

(** ** The reconciliation loop *)

Module Reconciliation.
Import Sheet GetCleaned.

(** The effect of one [loc] assignment on one row. *)
Definition upd (voters : list voter_row) (q c : string) (r : que_ans_row) : que_ans_row :=
  if String.eqb (que_text r) q && String.eqb (ans_text r) c
  then with_votes r (PInt (Z.of_nat (choice_voter_count voters q c))) else r.

Definition targets (r : que_ans_row) (p : string * string) : bool :=
  String.eqb (que_text r) (fst p) && String.eqb (ans_text r) (snd p).

(** What the loop leaves in a row: the recount when some ballot
    carries the row's (question, choice) pair, the row itself when
    none does. *)
Definition reconciled (voters : list voter_row) (r : que_ans_row) : que_ans_row :=
  match choice_voter_count voters (que_text r) (ans_text r) with
  | O => r
  | S _ as n => with_votes r (PInt (Z.of_nat n))
  end.

Lemma frames_eta fr : {| que_ans_df := que_ans_df fr; voter_df := voter_df fr |} = fr.
Proof. destruct fr; reflexivity. Qed.

Lemma exec_choice_loop q cs : forall fr,
  exec (for_each cs (fun c =>
          fr' <- get ;; loc_set_votes q c (choice_voter_count (voter_df fr') q c))) fr
  = {| que_ans_df :=
         map (fun r => fold_left (fun r c => upd (voter_df fr) q c r) cs r) (que_ans_df fr);
       voter_df := voter_df fr |}.
Proof.
  induction cs as [|c cs IH]; intros fr.
  - simpl. unfold exec, ret. simpl. rewrite map_id. now rewrite frames_eta.
  - cbn [for_each]. rewrite exec_bind, IH.
    unfold bind, get, loc_set_votes, modify. simpl.
    rewrite map_map. reflexivity.
Qed.

Definition pairs_of (voters : list voter_row) (q : string) : list (string * string) :=
  map (pair q) (choices_voted voters q).

Lemma fold_upd_pairs voters q cs r :
  fold_left (fun r c => upd voters q c r) cs r
  = fold_left (fun r p => upd voters (fst p) (snd p) r) (map (pair q) cs) r.
Proof. revert r. induction cs as [|c cs IH]; intros r; simpl; [reflexivity | apply IH]. Qed.

Lemma exec_question_loop qs : forall fr,
  exec (for_each qs (fun q =>
          fr1 <- get ;;
          for_each (choices_voted (voter_df fr1) q) (fun c =>
            fr' <- get ;; loc_set_votes q c (choice_voter_count (voter_df fr') q c)))) fr
  = {| que_ans_df :=
         map (fun r => fold_left (fun r p => upd (voter_df fr) (fst p) (snd p) r)
                                 (flat_map (pairs_of (voter_df fr)) qs) r)
             (que_ans_df fr);
       voter_df := voter_df fr |}.
Proof.
  induction qs as [|q qs IH]; intros fr.
  - simpl. unfold exec, ret. simpl. rewrite map_id. now rewrite frames_eta.
  - cbn [for_each]. rewrite exec_bind, IH.
    replace (snd _) with
      (exec (for_each (choices_voted (voter_df fr) q) (fun c =>
               fr' <- get ;; loc_set_votes q c (choice_voter_count (voter_df fr') q c))) fr)
      by reflexivity.
    rewrite exec_choice_loop. simpl. rewrite map_map. f_equal.
    apply map_ext. intros r. rewrite fold_left_app. f_equal.
    apply fold_upd_pairs.
Qed.

Lemma with_votes_twice r a b : with_votes (with_votes r a) b = with_votes r b.
Proof. reflexivity. Qed.

Lemma fold_upd_untouched voters ps : forall r,
  existsb (targets r) ps = false ->
  fold_left (fun r p => upd voters (fst p) (snd p) r) ps r = r.
Proof.
  induction ps as [|p ps IH]; intros r; simpl; [reflexivity|].
  intros H. apply orb_false_iff in H. destruct H as [Hp Hps].
  unfold upd at 2. unfold targets in Hp. rewrite Hp. now apply IH.
Qed.

Lemma fold_upd_recount voters ps : forall r,
  votes r = PInt (Z.of_nat (choice_voter_count voters (que_text r) (ans_text r))) ->
  fold_left (fun r p => upd voters (fst p) (snd p) r) ps r = r.
Proof.
  induction ps as [|p ps IH]; intros r Hr; simpl; [reflexivity|].
  assert (E : upd voters (fst p) (snd p) r = r).
  { unfold upd. destruct (String.eqb (que_text r) (fst p)) eqn:E1; [|reflexivity].
    destruct (String.eqb (ans_text r) (snd p)) eqn:E2; [|reflexivity].
    apply String.eqb_eq in E1, E2. simpl. rewrite <- E1, <- E2.
    destruct r; simpl in *. now rewrite Hr. }
  rewrite E. now apply IH.
Qed.

Lemma fold_upd_touched voters ps : forall r,
  existsb (targets r) ps = true ->
  fold_left (fun r p => upd voters (fst p) (snd p) r) ps r
  = with_votes r (PInt (Z.of_nat (choice_voter_count voters (que_text r) (ans_text r)))).
Proof.
  induction ps as [|p ps IH]; intros r; simpl; [discriminate|].
  intros H. unfold upd at 2. fold (targets r p).
  destruct (targets r p) eqn:Hp.
  - unfold targets in Hp. apply andb_true_iff in Hp. destruct Hp as [E1 E2].
    apply String.eqb_eq in E1, E2. rewrite <- E1, <- E2.
    apply fold_upd_recount. reflexivity.
  - simpl in H. now apply IH.
Qed.

Lemma count_pos_iff voters q c :
  (0 < choice_voter_count voters q c)%nat
  <-> exists v, In v voters /\ question_text v = q /\ choice v = c.
Proof.
  unfold choice_voter_count. split.
  - destruct (filter _ voters) as [|v t] eqn:E; simpl; [lia|].
    intros _. exists v.
    assert (Hv : In v (filter (fun v => String.eqb (question_text v) q
                                        && String.eqb (choice v) c) voters))
      by (rewrite E; now left).
    apply filter_In in Hv. destruct Hv as [Hin Hb].
    apply andb_true_iff in Hb. destruct Hb as [E1 E2].
    apply String.eqb_eq in E1, E2. auto.
  - intros [v [Hin [E1 E2]]].
    assert (Hv : In v (filter (fun v => String.eqb (question_text v) q
                                        && String.eqb (choice v) c) voters)).
    { apply filter_In. split; [exact Hin|].
      rewrite E1, E2, !String.eqb_refl. reflexivity. }
    destruct (filter _ voters); [contradiction | simpl; lia].
Qed.

Lemma choices_voted_In voters q c :
  In c (choices_voted voters q)
  <-> exists v, In v voters /\ question_text v = q /\ choice v = c.
Proof.
  unfold choices_voted. rewrite unique_In, in_map_iff. split.
  - intros [v [Hc Hv]]. apply filter_In in Hv. destruct Hv as [Hin E].
    apply String.eqb_eq in E. eauto.
  - intros [v [Hin [E1 E2]]]. exists v. split; [exact E2|].
    apply filter_In. split; [exact Hin|]. now rewrite E1, String.eqb_refl.
Qed.

Lemma targeted_iff voters qs r :
  In (que_text r) qs ->
  existsb (targets r) (flat_map (pairs_of voters) qs) = true
  <-> (0 < choice_voter_count voters (que_text r) (ans_text r))%nat.
Proof.
  intros Hq. rewrite existsb_exists, count_pos_iff. split.
  - intros [[q c] [Hin Ht]]. apply in_flat_map in Hin.
    destruct Hin as [q' [_ Hp]]. unfold pairs_of in Hp.
    apply in_map_iff in Hp. destruct Hp as [c' [[= <- <-] Hc]].
    unfold targets in Ht. simpl in Ht. apply andb_true_iff in Ht.
    destruct Ht as [E1 E2]. apply String.eqb_eq in E1, E2. subst.
    now apply choices_voted_In.
  - intros Hv. exists (que_text r, ans_text r). split.
    + apply in_flat_map. exists (que_text r). split; [exact Hq|].
      unfold pairs_of. apply in_map. now apply choices_voted_In.
    + unfold targets. simpl. now rewrite !String.eqb_refl.
Qed.

(** The loop, row by row. *)
Lemma reconcile_votes_rows (fr : frames) :
  exec reconcile_votes fr
  = {| que_ans_df := map (reconciled (voter_df fr)) (que_ans_df fr);
       voter_df := voter_df fr |}.
Proof.
  unfold reconcile_votes. rewrite exec_bind. simpl fst. simpl snd.
  rewrite exec_question_loop. f_equal.
  apply map_ext_in. intros r Hr.
  assert (Hq : In (que_text r) (map que_text (que_ans_df fr))) by now apply in_map.
  pose proof (targeted_iff (voter_df fr) _ r Hq) as Ht.
  unfold reconciled.
  destruct (existsb (targets r) (flat_map (pairs_of (voter_df fr))
                                          (map que_text (que_ans_df fr)))) eqn:E.
  - rewrite fold_upd_touched by exact E.
    destruct (choice_voter_count (voter_df fr) (que_text r) (ans_text r));
      [|reflexivity].
    destruct Ht as [Ht _]. specialize (Ht eq_refl). lia.
  - rewrite fold_upd_untouched by exact E.
    destruct (choice_voter_count (voter_df fr) (que_text r) (ans_text r)) eqn:En;
      [reflexivity|].
    destruct Ht as [_ Ht]. assert (F : false = true) by (apply Ht; lia).
    discriminate F.
Qed.

End Reconciliation.

Module ReconciliationEffects.
Import Sheet GetCleaned Reconciliation.

(** A question with three options: "A" has one ballot, "B" and "C"
    have none; the stored tallies are a string, a string and a stale
    integer. *)
Definition stale_frames : frames :=
  {| que_ans_df :=
       [mk_que_ans "Q1" (PStr "TODAY") "A" (PStr "3 votes");
        mk_que_ans "Q1" (PStr "TODAY") "B" (PStr "0 votes");
        mk_que_ans "Q1" (PStr "TODAY") "C" (PInt 7)];
     voter_df := [mk_voter "v1" "Q1" "A" (PInt 1) (PStr "Today at 10:05")] |}.

(** C1 at its failing input.  The loop visits only the choices that
    occur among a question's ballots, so the pairs with no ballot
    keep the tally they came with: after the run "A" holds the
    recount 1, while "B" still holds the string "0 votes" and "C" the
    stale 7, although both have zero ballots. *)
Theorem reconcile_votes_skips_unvoted_choices (to_datetime : pyval -> parse_outcome) :
  option_map (fun fr => map votes (que_ans_df fr))
             (match run to_datetime stale_frames with
              | Ok fr => Some fr
              | Raise _ => None
              end)
    = Some [PInt 1; PStr "0 votes"; PInt 7]
  /\ map votes (que_ans_df (exec reconcile_votes stale_frames))
     = [PInt 1; PStr "0 votes"; PInt 7]
  /\ choice_voter_count (voter_df stale_frames) "Q1" "B" = 0%nat
  /\ choice_voter_count (voter_df stale_frames) "Q1" "C" = 0%nat.
Proof. repeat split; reflexivity. Qed.

Definition kept_fields (r : que_ans_row) : string * pyval * string :=
  (que_text r, que_created_at r, ans_text r).

Lemma reconciled_kept_fields voters r :
  kept_fields (reconciled voters r) = kept_fields r.
Proof.
  unfold reconciled.
  destruct (choice_voter_count voters (que_text r) (ans_text r)); reflexivity.
Qed.

(** C9 (as the code has it).  The loop assigns into the table bound
    to [que_ans_df] and returns nothing.  Its whole effect is on the
    [votes] column: the ballot table is untouched, the question table
    keeps its rows in number and order with their [que_text],
    [que_created_at] and [ans_text], and a row with matching ballots
    gets their count as its [votes]. *)
Theorem reconcile_votes_frame (fr : frames) :
  let fr' := exec reconcile_votes fr in
  fst (reconcile_votes fr) = tt
  /\ voter_df fr' = voter_df fr
  /\ List.length (que_ans_df fr') = List.length (que_ans_df fr)
  /\ map kept_fields (que_ans_df fr') = map kept_fields (que_ans_df fr)
  /\ Forall2 (fun r r' =>
                match choice_voter_count (voter_df fr) (que_text r) (ans_text r) with
                | O => True
                | S _ as n => votes r' = PInt (Z.of_nat n)
                end)
             (que_ans_df fr) (que_ans_df fr').
Proof.
  cbv zeta. rewrite reconcile_votes_rows. cbn [que_ans_df voter_df].
  split; [now destruct (fst (reconcile_votes fr))|].
  split; [reflexivity|]. split; [apply length_map|]. split.
  - rewrite map_map. apply map_ext. intros r. apply reconciled_kept_fields.
  - induction (que_ans_df fr) as [|r t IH]; simpl; constructor; [|exact IH].
    unfold reconciled.
    destruct (choice_voter_count (voter_df fr) (que_text r) (ans_text r));
      [exact I | reflexivity].
Qed.

(** C9 as stated fails: after the run the table bound to
    [que_ans_df] is no longer the table that was passed in. *)
Lemma reconcile_votes_mutates_que_ans_df :
  que_ans_df (exec reconcile_votes stale_frames) <> que_ans_df stale_frames
  /\ nth_error (que_ans_df stale_frames) 0
     = Some (mk_que_ans "Q1" (PStr "TODAY") "A" (PStr "3 votes"))
  /\ nth_error (que_ans_df (exec reconcile_votes stale_frames)) 0
     = Some (mk_que_ans "Q1" (PStr "TODAY") "A" (PInt 1)).
Proof.
  split; [|split; reflexivity].
  intros H. apply (f_equal (fun l => map votes l)) in H.
  vm_compute in H. discriminate H.
Qed.

End ReconciliationEffects.

(** * Properties of get_questions.py *)

(** ** One row per question text *)

Module QuestionDedup.
Import Sheet GetQuestions.

(** C6 (as the code has it).  [drop_duplicates(subset=['que_text'])]
    leaves exactly one row for each question text of the table, and
    that row is the first row of the table carrying the text: its
    creation timestamp is the first duplicate's, whichever of the
    duplicates is the earliest. *)
Theorem dedup_questions_keeps_first (que_ans_df : list que_ans_row) :
  NoDup (map que_text (dedup_questions que_ans_df))
  /\ (forall r, In r que_ans_df ->
        exists r', In r' (dedup_questions que_ans_df) /\ que_text r' = que_text r)
  /\ (forall r', In r' (dedup_questions que_ans_df) ->
        find (fun r => String.eqb (que_text r) (que_text r')) que_ans_df = Some r').
Proof.
  unfold dedup_questions. split; [apply drop_duplicates_NoDup|]. split.
  - intros r. apply drop_duplicates_keys.
  - intros r'. apply drop_duplicates_first.
Qed.

Definition later_first : list que_ans_row :=
  [mk_que_ans "Q1" (PTimestamp (Calendar.datetime 2024 10 20 10 0)) "A" (PInt 1);
   mk_que_ans "Q1" (PTimestamp (Calendar.datetime 2024 10 20 9 0)) "B" (PInt 1)].

Lemma dedup_questions_keeps_first_witness :
  find (fun r => String.eqb (que_text r) "Q1") later_first
  = Some (mk_que_ans "Q1" (PTimestamp (Calendar.datetime 2024 10 20 10 0)) "A" (PInt 1)).
Proof.
  destruct (dedup_questions_keeps_first later_first) as [_ [_ H]].
  apply (H (mk_que_ans "Q1" (PTimestamp (Calendar.datetime 2024 10 20 10 0)) "A" (PInt 1))).
  simpl. now left.
Defined.

(** C6 as stated fails: when the later-created duplicate comes first
    in the table, the representative carries 10:00 although the
    other duplicate was created at 09:00. *)
Lemma dedup_questions_not_earliest :
  map que_created_at (dedup_questions later_first)
    = [PTimestamp (Calendar.datetime 2024 10 20 10 0)]
  /\ In (PTimestamp (Calendar.datetime 2024 10 20 9 0)) (map que_created_at later_first)
  /\ Calendar.datetime 2024 10 20 9 0 < Calendar.datetime 2024 10 20 10 0.
Proof.
  split; [reflexivity|]. split; [simpl; tauto | reflexivity].
Qed.

End QuestionDedup.

(** ** Relative dates and the wall clock *)

Module WallClock.
Import Sheet GetQuestions.


(** The text [parse_custom_date] hands to the parser for a string
    cell when [datetime.now()] returns [now]. *)
Definition date_text (now : Z) (s : string) : string :=
  if PyStr.contains "Today" s
  then (Calendar.strftime_dmy now ++ " " ++ time_part s)%string
  else if PyStr.contains "Yesterday" s
       then (Calendar.strftime_dmy (now - 86400) ++ " " ++ time_part s)%string
       else s.

(** A cell that makes [parse_custom_date] call [datetime.now()]. *)
Definition is_relative (v : pyval) : bool :=
  match v with
  | PStr s => PyStr.contains "Today" s || PyStr.contains "Yesterday" s
  | _ => false
  end.

Definition is_timestamp (v : pyval) : bool :=
  match v with PTimestamp _ => true | _ => false end.

Definition is_text (v : pyval) : bool :=
  match v with PStr _ => true | _ => false end.





Lemma with_voting_time_same (v : voter_row) : with_voting_time v (voting_time v) = v.
Proof. destruct v; reflexivity. Qed.

Section Parser.
Variable to_datetime : Z -> pyval -> parse_outcome.

(** One call on a string, with the two clocks spelled out. *)
Lemma parse_custom_date_text s w :
  parse_custom_date to_datetime (PStr s) w
  = (match to_datetime (parse_instants w (parses w))
                       (PStr (date_text (readings w (reads w)) s)) with
     | Parsed p => Ok (PTimestamp p)
     | Unparseable => Ok PNaT
     | ParserRaised e => Raise e
     end,
     {| readings := readings w;
        reads := if is_relative (PStr s) then S (reads w) else reads w;
        parse_instants := parse_instants w;
        parses := S (parses w) |}).
Proof.
  cbn [parse_custom_date is_relative]. unfold date_text.
  destruct (PyStr.contains "Today" s); [reflexivity|].
  destruct (PyStr.contains "Yesterday" s); reflexivity.
Qed.

Lemma parse_custom_date_other v w :
  (forall s, v <> PStr s) ->
  parse_custom_date to_datetime v w
  = (if is_timestamp v then Ok v else Raise TypeError, w).
Proof. destruct v; intros H; try reflexivity. now destruct (H s). Qed.

Lemma parse_custom_date_readings v w :
  readings (snd (parse_custom_date to_datetime v w)) = readings w
  /\ parse_instants (snd (parse_custom_date to_datetime v w)) = parse_instants w
  /\ reads (snd (parse_custom_date to_datetime v w))
     = (reads w + (if is_relative v then 1 else 0))%nat.
Proof.
  destruct v as [z|s|t| |];
    try (rewrite parse_custom_date_other by discriminate; simpl; repeat split; lia).
  rewrite parse_custom_date_text. cbn [snd readings parse_instants reads].
  repeat split. destruct (is_relative (PStr s)); lia.
Qed.



(** A column without text: the Timestamps are returned as they are,
    and the first cell of another kind aborts with [TypeError];
    neither clock is consulted. *)
Lemma apply_parse_no_text col w :
  forallb (fun v => negb (is_text v)) col = true ->
  apply_parse to_datetime col w
  = (if forallb is_timestamp col then Ok col else Raise TypeError, w).
Proof.
  induction col as [|v t IH]; [reflexivity|].
  cbn [forallb]. intros H. apply andb_true_iff in H. destruct H as [Hv Ht].
  cbn [apply_parse]. unfold bind at 1.
  rewrite parse_custom_date_other by (intros s ->; discriminate Hv).
  destruct (is_timestamp v) eqn:Ets; cbn [andb]; [|reflexivity].
  unfold bind. rewrite (IH Ht). unfold ret.
  destruct (forallb is_timestamp t); reflexivity.
Qed.

Lemma subtract_text a b d : subtract a b = Ok d -> is_text a = false.
Proof. destruct a; [reflexivity | discriminate | reflexivity..]. Qed.



Section Subtraction.
Variable kind : dtype.
Variable que : list que_ans_row.

Lemma response_times_Ok voters times :
  response_times kind que voters = Ok times ->
  Forall2 (fun v d => subtract (voting_time v) (created_at kind que (question_text v))
                      = Ok d)
          voters times.
Proof.
  unfold response_times. intros H.
  apply (apply_raising_Ok
           (fun v => subtract (voting_time v) (created_at kind que (question_text v)))).
  destruct (dtype_of (map voting_time voters)), kind;
    first [exact H | discriminate H].
Qed.


Lemma with_response_time_Ok voters frame :
  with_response_time kind que voters = Ok frame ->
  exists times,
    response_times kind que voters = Ok times
    /\ List.length times = List.length voters
    /\ frame = map (fun vd =>
                      {| Frame.voter_name := voter_name (fst vd);
                         Frame.question_text := question_text (fst vd);
                         Frame.choice := choice (fst vd);
                         Frame.voting_time := Frame.timestamp_of (voting_time (fst vd));
                         Frame.response_time := snd vd |})
                   (combine voters times).
Proof.
  unfold with_response_time.
  destruct (response_times kind que voters) as [times|e] eqn:E; [|discriminate].
  intros [= <-]. exists times. split; [reflexivity|]. split; [|reflexivity].
  apply response_times_Ok in E. clear -E. induction E; simpl; congruence.
Qed.


Lemma with_response_time_no_text voters frame :
  with_response_time kind que voters = Ok frame ->
  forallb (fun v => negb (is_text v)) (map voting_time voters) = true.
Proof.
  intros H. destruct (with_response_time_Ok _ _ H) as [times [Ht _]].
  apply response_times_Ok in Ht. clear H.
  induction Ht as [|v d vs ds Hv _ IH]; [reflexivity|]. cbn [map forallb].
  rewrite IH, andb_true_r. now rewrite (subtract_text _ _ _ Hv).
Qed.

End Subtraction.

(** The script up to line 52, whatever the parser and the clocks: the
    frame is that of the first subtraction when every voting time is
    a Timestamp, the run stops with [TypeError] otherwise, and in
    either case no clock has been touched. *)
Lemma prepare_outcome que voters w :
  prepare to_datetime que voters w
  = (match with_response_time (dtype_of (map que_created_at que))
                              (dedup_questions que) voters with
     | Raise e => Raise e
     | Ok frame =>
         if forallb is_timestamp (map voting_time voters) then Ok frame
         else Raise TypeError
     end, w).
Proof.
  unfold prepare. cbv zeta.
  destruct (with_response_time (dtype_of (map que_created_at que))
              (dedup_questions que) voters) as [frame|e] eqn:E;
    [|reflexivity].
  unfold clean_voting_time, bind.
  rewrite (apply_parse_no_text _ w (with_response_time_no_text _ _ _ _ E)).
  destruct (forallb is_timestamp (map voting_time voters)); [|reflexivity].
  unfold ret.
  rewrite (combine_map_self voting_time with_voting_time voters with_voting_time_same).
  now rewrite E.
Qed.

End Parser.

End WallClock.

Module Determinism.
Import Sheet GetQuestions WallClock.





End Determinism.

(** * Properties of quiz_dashboard3.py *)

(** ** Size and order of the ten metrics *)

Module InsightOrder.
Import Frame QuizDashboard3.

Definition descending_by {A K : Type} (le : K -> K -> Prop) (key : A -> K) (l : list A) : Prop :=
  StronglySorted (fun x y => le (key y) (key x)) l.
Definition ascending_by {A K : Type} (le : K -> K -> Prop) (key : A -> K) (l : list A) : Prop :=
  StronglySorted (fun x y => le (key x) (key y)) l.

Definition bounded (n : nat) (I : insights) : Prop :=
  (List.length (active_voters I) <= n
   /\ List.length (early_birds I) <= n
   /\ List.length (incorrect_questions I) <= n
   /\ List.length (easy_questions I) <= n
   /\ List.length (least_active I) <= n
   /\ List.length (inactive_followers I) <= n
   /\ List.length (good_performers I) <= n
   /\ List.length (least_voted I) <= n
   /\ List.length (fast_responses I) <= n
   /\ List.length (slow_responses I) <= n)%nat.

(** The order each metric's output is in.  [least_active] is the end
    of the descending ranking and therefore descending itself;
    [easy_questions] is a filter without ranking; in
    [inactive_followers] the voters without any timestamp come
    last. *)
Definition ordered (I : insights) : Prop :=
  descending_by Nat.le snd (active_voters I)
  /\ descending_by Nat.le snd (early_birds I)
  /\ descending_by Qle snd (incorrect_questions I)
  /\ Forall (fun kv => snd kv == 1) (easy_questions I)
  /\ descending_by Nat.le snd (least_active I)
  /\ StronglySorted (fun x y => missing_last (snd x) (snd y)) (inactive_followers I)
  /\ descending_by Qle (fun kv => accuracy (snd kv)) (good_performers I)
  /\ ascending_by Nat.le snd (least_voted I)
  /\ ascending_by Z.le snd (fast_responses I)
  /\ descending_by Z.le snd (slow_responses I).

Lemma sorted_nat_desc {A : Type} (key : A -> nat) (l : list A) :
  StronglySorted (fun x y => Nat.leb (key y) (key x) = true) l ->
  descending_by Nat.le key l.
Proof. apply StronglySorted_weaken. intros x y. apply Nat.leb_le. Qed.

Lemma sorted_nat_asc {A : Type} (key : A -> nat) (l : list A) :
  StronglySorted (fun x y => Nat.leb (key x) (key y) = true) l ->
  ascending_by Nat.le key l.
Proof. apply StronglySorted_weaken. intros x y. apply Nat.leb_le. Qed.

Lemma sorted_Q_desc {A : Type} (key : A -> Q) (l : list A) :
  StronglySorted (fun x y => Qle_bool (key y) (key x) = true) l ->
  descending_by Qle key l.
Proof. apply StronglySorted_weaken. intros x y. apply Qle_bool_iff. Qed.

Lemma sorted_Z_desc {A : Type} (key : A -> Z) (l : list A) :
  StronglySorted (fun x y => Z.leb (key y) (key x) = true) l ->
  descending_by Z.le key l.
Proof. apply StronglySorted_weaken. intros x y. apply Z.leb_le. Qed.

Lemma sorted_Z_asc {A : Type} (key : A -> Z) (l : list A) :
  StronglySorted (fun x y => Z.leb (key x) (key y) = true) l ->
  ascending_by Z.le key l.
Proof. apply StronglySorted_weaken. intros x y. apply Z.leb_le. Qed.

Lemma calculate_insights_bounded `{Sorter} voter_df correct_answers_df n :
  bounded n (calculate_insights voter_df correct_answers_df n).
Proof.
  unfold bounded, calculate_insights; cbn [active_voters early_birds incorrect_questions
    easy_questions least_active inactive_followers good_performers least_voted
    fast_responses slow_responses].
  repeat split;
    first [ apply head_length | apply tail_length | apply nlargest_length
          | apply nsmallest_length | apply nsmallest_na_length ].
Qed.

Lemma calculate_insights_ordered `{Sorter} voter_df correct_answers_df n :
  ordered (calculate_insights voter_df correct_answers_df n).
Proof.
  unfold ordered, calculate_insights; cbn [active_voters early_birds incorrect_questions
    easy_questions least_active inactive_followers good_performers least_voted
    fast_responses slow_responses].
  repeat split.
  - apply StronglySorted_firstn, value_counts_sorted.
  - apply sorted_nat_desc, nlargest_sorted; [apply nat_leb_total | apply nat_leb_trans].
  - apply sorted_Q_desc, nlargest_sorted; [apply Q_leb_total | apply Q_leb_trans].
  - rewrite Forall_forall. intros kv Hkv. apply firstn_In in Hkv.
    apply filter_In in Hkv. destruct Hkv as [_ Hkv]. now apply Qeq_bool_iff.
  - apply StronglySorted_skipn, value_counts_sorted.
  - apply nsmallest_na_sorted.
  - apply sorted_Q_desc with (key := fun kv : string * performance => accuracy (snd kv)).
    apply nlargest_sorted; [apply Q_leb_total | apply Q_leb_trans].
  - apply sorted_nat_asc, nsmallest_sorted; [apply nat_leb_total | apply nat_leb_trans].
  - apply sorted_Z_asc, nsmallest_sorted; [apply Z_leb_total | apply Z_leb_trans].
  - apply sorted_Z_desc, nlargest_sorted; [apply Z_leb_total | apply Z_leb_trans].
Qed.

End InsightOrder.

Module LeastActive.
Import Frame QuizDashboard3 InsightOrder.

(** The entries [tail] cuts off have at least as many ballots as the
    entries it keeps. *)
Lemma tail_keeps_smallest `{Sorter} (col : list string) (n : nat) (x y : string * nat) :
  In x (firstn (List.length (value_counts col) - n) (value_counts col)) ->
  In y (tail n (value_counts col)) ->
  (snd y <= snd x)%nat.
Proof.
  intros Hx Hy. pose proof (value_counts_sorted col) as Hs.
  rewrite <- (firstn_skipn (List.length (value_counts col) - n) (value_counts col)) in Hs.
  exact (StronglySorted_app_inv _ _ _ Hs x y Hx Hy).
Qed.

(** C4 (as the code has it).  For every table, answer key and [n],
    each of the ten outputs of [calculate_insights] has at most [n]
    entries and is in the order [ordered] spells out: the ranked
    metrics in their declared direction, except [least_active],
    which holds the [n] smallest ballot counts in descending order;
    the report script's [least_active_voters] is descending
    likewise. *)
Theorem metrics_bounded_and_ordered `{Sorter} (voter_df : list ballot)
    (correct_answers_df : list Sheet.correct_row) (n : nat) :
  let I := calculate_insights voter_df correct_answers_df n in
  bounded n I
  /\ ordered I
  /\ least_active I = tail n (value_counts (map voter_name voter_df))
  /\ (forall x y,
        In x (firstn (List.length (value_counts (map voter_name voter_df)) - n)
                     (value_counts (map voter_name voter_df))) ->
        In y (least_active I) -> (snd y <= snd x)%nat)
  /\ (List.length (GetQuestions.least_active_voters voter_df) <= GetQuestions.N)%nat
  /\ descending_by Nat.le snd (GetQuestions.least_active_voters voter_df).
Proof.
  cbv zeta. split; [apply calculate_insights_bounded|].
  split; [apply calculate_insights_ordered|].
  split; [reflexivity|]. split; [|split].
  - intros x y. apply tail_keeps_smallest.
  - apply tail_length.
  - apply StronglySorted_skipn, value_counts_sorted.
Qed.

Definition two_voters : list ballot :=
  [mk_ballot "a" "Q1" "A" (Some 0) (Some 60);
   mk_ballot "a" "Q2" "A" (Some 0) (Some 60);
   mk_ballot "b" "Q1" "A" (Some 0) (Some 90)].

(** C4 as stated fails for Least-active voters: with two ballots of
    "a" and one of "b" the output is [("a", 2); ("b", 1)], which is
    not ascending by ballot count. *)
Lemma least_active_not_ascending :
  least_active (calculate_insights two_voters [] 2) = [("a", 2%nat); ("b", 1%nat)]
  /\ GetQuestions.least_active_voters two_voters = [("a", 2%nat); ("b", 1%nat)]
  /\ ~ ascending_by Nat.le snd (least_active (calculate_insights two_voters [] 2)).
Proof.
  split; [reflexivity|]. split; [reflexivity|].
  intros Hs. change (least_active (calculate_insights two_voters [] 2))
    with [("a", 2%nat); ("b", 1%nat)] in Hs.
  inversion Hs as [|? ? _ Hall]; subst. inversion Hall as [|? ? Hle _]; subst.
  simpl in Hle. lia.
Qed.

Lemma metrics_bounded_and_ordered_witness :
  (snd ("b", 1%nat) <= snd ("a", 2%nat))%nat.
Proof.
  destruct (metrics_bounded_and_ordered two_voters [] 1) as [_ [_ [_ [Hcut _]]]].
  apply Hcut; simpl; now left.
Defined.

(** The same output under every sorter: the two counts differ, so the
    descending order leaves no choice. *)
Lemma least_active_two_voters_any_sorter `{Sorter} :
  least_active (calculate_insights two_voters [] 2) = [("a", 2%nat); ("b", 1%nat)].
Proof.
  unfold calculate_insights; cbn [least_active].
  pose proof (value_counts_sorted (map voter_name two_voters)) as Hs.
  unfold value_counts in *.
  set (t := map _ (unique (map voter_name two_voters))) in *.
  assert (Et : t = [("a", 2%nat); ("b", 1%nat)]) by reflexivity.
  pose proof (sort_values_perm _ (descending Nat.leb snd) t) as Hp.
  rewrite Et in Hp at 2. symmetry in Hp.
  apply Permutation_length_2_inv in Hp. destruct Hp as [E|E]; rewrite E in *.
  - reflexivity.
  - inversion Hs as [|? ? _ Hall]; subst. inversion Hall as [|? ? Hle _]; subst.
    simpl in Hle. lia.
Qed.

End LeastActive.

(** ** Good performers *)

(** A frame with one ballot and its answer key. *)
Module SmallFrame.
Definition one_ballot : list Frame.ballot :=
  [Frame.mk_ballot "v1" "Q1" "A" (Some (Calendar.datetime 2024 10 20 10 5)) None].
Definition one_key : list Sheet.correct_row := [Sheet.mk_correct "Q1" "A"].
End SmallFrame.



Module GoodPerformers.
Import Frame QuizDashboard3 InsightOrder.

(** The per-voter table that [groupby('voter_name')] with [count],
    [sum] and [accuracy] builds, before ranking. *)
Definition voter_table (merged_rows : list merged) : list (string * performance) :=
  map (fun k => let g := group by_voter merged_rows k in
                (k, {| count := List.length g;
                       sum := correct_in g;
                       accuracy := Qred (ratio (correct_in g) (List.length g) * 100) |}))
      (group_keys by_voter merged_rows).

(** What an entry of the dashboard says about its voter. *)
Definition entry_ok (merged_rows : list merged) (kv : string * performance) : Prop :=
  let g := group by_voter merged_rows (fst kv) in
  In (fst kv) (map by_voter merged_rows)
  /\ count (snd kv) = List.length g
  /\ (1 <= count (snd kv))%nat
  /\ sum (snd kv) = count_where is_correct g
  /\ (sum (snd kv) <= count (snd kv))%nat
  /\ (accuracy (snd kv)
      == (Z.of_nat (sum (snd kv)) # Pos.of_nat (count (snd kv))) * 100)%Q
  /\ (0 <= accuracy (snd kv))%Q /\ (accuracy (snd kv) <= 100)%Q.

(** The table the report script ranks: the number of correct merged
    ballots of each voter who has one. *)
Definition correct_table (merged_rows : list merged) : list (string * nat) :=
  groupby_size by_voter (filter is_correct merged_rows).

(** What an entry of the report says about its voter. *)
Definition report_entry_ok (merged_rows : list merged) (vc : string * nat) : Prop :=
  snd vc = count_where is_correct (group by_voter merged_rows (fst vc))
  /\ (1 <= snd vc)%nat.

Lemma voter_table_keys merged_rows :
  map fst (voter_table merged_rows) = group_keys by_voter merged_rows.
Proof. unfold voter_table. rewrite map_map. simpl. apply map_id. Qed.

Lemma voter_table_entries merged_rows :
  Forall (entry_ok merged_rows) (voter_table merged_rows).
Proof.
  rewrite Forall_forall. intros kv Hkv. unfold voter_table in Hkv.
  apply in_map_iff in Hkv. destruct Hkv as [k [<- Hk]].
  apply group_keys_In in Hk. unfold entry_ok. cbn [fst snd count sum accuracy].
  pose proof (group_nonempty by_voter merged_rows k Hk) as Hn.
  pose proof (count_where_le is_correct (group by_voter merged_rows k)) as Hle.
  assert (Hacc : (Qred (ratio (correct_in (group by_voter merged_rows k))
                              (List.length (group by_voter merged_rows k)) * 100)
                  == (Z.of_nat (correct_in (group by_voter merged_rows k))
                      # Pos.of_nat (List.length (group by_voter merged_rows k))) * 100)%Q).
  { rewrite Qred_correct, ratio_value by lia. reflexivity. }
  destruct (percentage_bounds _ _ Hn Hle) as [H0 H100].
  repeat split; try assumption; try reflexivity.
  - rewrite Hacc. exact H0.
  - rewrite Hacc. exact H100.
Qed.

Lemma group_filter_count {A : Type} (key : A -> string) (p : A -> bool) (df : list A)
    (k : string) :
  List.length (group key (filter p df) k) = count_where p (group key df k).
Proof.
  unfold group, count_where. induction df as [|x t IH]; simpl; [reflexivity|].
  destruct (p x) eqn:P, (String.eqb (key x) k) eqn:K; simpl; rewrite ?P, ?K; simpl;
    now rewrite IH.
Qed.

Lemma correct_table_keys merged_rows :
  map fst (correct_table merged_rows)
  = group_keys by_voter (filter is_correct merged_rows).
Proof. unfold correct_table, groupby_size. rewrite map_map. simpl. apply map_id. Qed.

Lemma correct_table_entries merged_rows :
  Forall (report_entry_ok merged_rows) (correct_table merged_rows).
Proof.
  rewrite Forall_forall. intros vc Hvc. unfold correct_table, groupby_size in Hvc.
  apply in_map_iff in Hvc. destruct Hvc as [k [<- Hk]]. unfold report_entry_ok.
  cbn [fst snd]. split; [apply group_filter_count|].
  apply group_nonempty. now apply group_keys_In.
Qed.

Lemma good_performers_eq `{Sorter} voter_df correct_answers_df n :
  good_performers (calculate_insights voter_df correct_answers_df n)
  = nlargest Qle_bool n (fun kv => accuracy (snd kv))
      (voter_table (merge_correct voter_df correct_answers_df)).
Proof. reflexivity. Qed.

Lemma correct_answers_by_voter_eq `{Sorter} report_df correct_answers_df :
  GetQuestions.correct_answers_by_voter report_df correct_answers_df
  = nlargest Nat.leb GetQuestions.N snd
      (correct_table (merge_correct report_df correct_answers_df)).
Proof. reflexivity. Qed.

(** The end-to-end scenario: one question with the options "A" and
    "B", two ballots, "A" correct. *)
Definition scenario_questions : list Sheet.que_ans_row :=
  [Sheet.mk_que_ans "Q1" (PTimestamp (Calendar.datetime 2024 10 20 10 0)) "A" PNaN;
   Sheet.mk_que_ans "Q1" (PTimestamp (Calendar.datetime 2024 10 20 10 0)) "B" PNaN].

Definition scenario_ballots : list Sheet.voter_row :=
  [Sheet.mk_voter "v1" "Q1" "A" PNaN (PTimestamp (Calendar.datetime 2024 10 20 10 5));
   Sheet.mk_voter "v2" "Q1" "B" PNaN (PTimestamp (Calendar.datetime 2024 10 20 10 2))].

Definition scenario_key : list Sheet.correct_row := [Sheet.mk_correct "Q1" "A"].

(** The scenario through the dashboard: [load_data], then
    [calculate_insights]. *)
Definition scenario_insights `{Sorter} (n : nat) : option insights :=
  match load_data (fun _ => DayFirst.to_datetime)
                  scenario_questions scenario_ballots scenario_key with
  | Some (_, voter_df, key) => Some (calculate_insights voter_df key n)
  | None => None
  end.

Definition accuracies (I : insights) : list (string * Q) :=
  map (fun kv => (fst kv, accuracy (snd kv))) (good_performers I).

(** The scenario through the report script: lines 11-52, then line
    98. *)
Definition scenario_report `{Sorter} (to_datetime : Z -> pyval -> parse_outcome)
    (w : GetQuestions.wall_clock) : result (list (string * nat)) :=
  match fst (GetQuestions.prepare to_datetime scenario_questions scenario_ballots w) with
  | Ok report_df => Ok (GetQuestions.correct_answers_by_voter report_df scenario_key)
  | Raise e => Raise e
  end.

Definition scenario_frame : list ballot :=
  [mk_ballot "v1" "Q1" "A" (Some (Calendar.datetime 2024 10 20 10 5)) (Some 300);
   mk_ballot "v2" "Q1" "B" (Some (Calendar.datetime 2024 10 20 10 2)) (Some 120)].

Lemma scenario_prepare to_datetime w :
  GetQuestions.prepare to_datetime scenario_questions scenario_ballots w
  = (Ok scenario_frame, w).
Proof. rewrite WallClock.prepare_outcome. reflexivity. Qed.

Lemma scenario_accuracies `{Sorter} :
  option_map accuracies (scenario_insights 2) = Some [("v1", 100 # 1); ("v2", 0 # 1)].
Proof.
  unfold scenario_insights.
  change (load_data (fun _ => DayFirst.to_datetime)
            scenario_questions scenario_ballots scenario_key)
    with (Some (combine scenario_questions
                  [Some (Calendar.datetime 2024 10 20 10 0);
                   Some (Calendar.datetime 2024 10 20 10 0)],
                [mk_ballot "v1" "Q1" "A" (Some (Calendar.datetime 2024 10 20 10 5)) (Some 300);
                 mk_ballot "v1" "Q1" "A" (Some (Calendar.datetime 2024 10 20 10 5)) (Some 300);
                 mk_ballot "v2" "Q1" "B" (Some (Calendar.datetime 2024 10 20 10 2)) (Some 120);
                 mk_ballot "v2" "Q1" "B" (Some (Calendar.datetime 2024 10 20 10 2)) (Some 120)],
                scenario_key)).
  cbn [option_map]. unfold accuracies. rewrite good_performers_eq.
  set (t := voter_table _).
  assert (Et : t = [("v1", mk_performance 2 2 (100 # 1)); ("v2", mk_performance 2 0 (0 # 1))])
    by (vm_compute; reflexivity).
  rewrite Et. unfold nlargest, select_n, head. cbn [List.length Nat.leb].
  destruct (sort_values_two
              (descending Qle_bool (fun kv : string * performance => accuracy (snd kv)))
              ("v1", mk_performance 2 2 (100 # 1)) ("v2", mk_performance 2 0 (0 # 1)))
    as [E _].
  - intros a b. apply descending_total. apply Q_leb_total.
  - intros a b c. apply descending_trans. apply Q_leb_trans.
  - reflexivity.
  - rewrite E. reflexivity.
Qed.

Lemma scenario_report_counts `{Sorter} to_datetime w :
  scenario_report to_datetime w = Ok [("v1", 1%nat)].
Proof.
  unfold scenario_report. rewrite scenario_prepare. cbn [fst].
  rewrite correct_answers_by_voter_eq.
  set (t := correct_table _).
  assert (Et : t = [("v1", 1%nat)]) by (vm_compute; reflexivity).
  rewrite Et. unfold nlargest. rewrite select_n_one; [reflexivity|].
  unfold GetQuestions.N. lia.
Qed.

(** C2 (as the code has it).  In the dashboard, [good_performers]
    holds one entry per voter, only for voters with at least one
    merged ballot; the entry's accuracy is the voter's correct merged
    ballots over all their merged ballots, times 100, and lies in
    [0, 100]; the entries are the [n] best of the per-voter table, in
    descending order of accuracy.  The report script ranks by the
    number of correct merged ballots instead: one entry per voter
    with at least one correct merged ballot, carrying that number, the
    32 largest in descending order.  On the end-to-end scenario the
    dashboard gives [("v1", 100); ("v2", 0)] at [n = 2] and the
    report [("v1", 1)]. *)
Theorem good_performers_ranks_by_accuracy `{Sorter} (voter_df report_df : list ballot)
    (correct_answers_df : list Sheet.correct_row) (n : nat) :
  let merged_rows := merge_correct voter_df correct_answers_df in
  let gp := good_performers (calculate_insights voter_df correct_answers_df n) in
  let report_rows := merge_correct report_df correct_answers_df in
  let report := GetQuestions.correct_answers_by_voter report_df correct_answers_df in
  (Forall (entry_ok merged_rows) gp
   /\ NoDup (map fst gp)
   /\ descending_by Qle (fun kv => accuracy (snd kv)) gp
   /\ List.length gp = Nat.min n (List.length (group_keys by_voter merged_rows))
   /\ (exists rest,
         Permutation (gp ++ rest) (voter_table merged_rows)
         /\ forall x y, In x gp -> In y rest ->
                        (accuracy (snd y) <= accuracy (snd x))%Q)
   /\ (forall v, In v (map fst (voter_table merged_rows))
                 <-> In v (map by_voter merged_rows)))
  /\ (Forall (report_entry_ok report_rows) report
      /\ NoDup (map fst report)
      /\ descending_by Nat.le snd report
      /\ List.length report
         = Nat.min GetQuestions.N (List.length (correct_table report_rows))
      /\ (exists rest,
            Permutation (report ++ rest) (correct_table report_rows)
            /\ forall x y, In x report -> In y rest -> (snd y <= snd x)%nat)
      /\ (forall v, In v (map fst (correct_table report_rows))
                    <-> exists m, In m report_rows /\ by_voter m = v
                                  /\ is_correct m = true))
  /\ option_map accuracies (scenario_insights 2) = Some [("v1", 100 # 1); ("v2", 0 # 1)]
  /\ (forall to_datetime w, scenario_report to_datetime w = Ok [("v1", 1%nat)]).
Proof.
  cbv zeta. rewrite good_performers_eq, correct_answers_by_voter_eq.
  set (merged_rows := merge_correct voter_df correct_answers_df).
  set (report_rows := merge_correct report_df correct_answers_df).
  split; [|split; [|split; [apply scenario_accuracies | apply scenario_report_counts]]].
  - destruct (nlargest_top Qle_bool (fun kv : string * performance => accuracy (snd kv))
                Q_leb_total Q_leb_trans n (voter_table merged_rows))
      as [rest [Hperm [Htop Hlen]]].
    split; [|split; [|split; [|split; [|split]]]].
    + rewrite Forall_forall. intros kv Hkv. apply nlargest_In in Hkv.
      pose proof (voter_table_entries merged_rows) as Hall.
      rewrite Forall_forall in Hall. now apply Hall.
    + apply select_n_distinct. rewrite voter_table_keys. apply group_keys_NoDup.
    + apply sorted_Q_desc with (key := fun kv : string * performance => accuracy (snd kv)).
      apply nlargest_sorted; [apply Q_leb_total | apply Q_leb_trans].
    + rewrite Hlen. f_equal. rewrite <- voter_table_keys. symmetry. apply length_map.
    + exists rest. split; [exact Hperm|].
      intros x y Hx Hy. apply Qle_bool_iff. now apply Htop.
    + intros v. rewrite voter_table_keys. apply group_keys_In.
  - destruct (nlargest_top Nat.leb (@snd string nat) nat_leb_total nat_leb_trans
                GetQuestions.N (correct_table report_rows))
      as [rest [Hperm [Htop Hlen]]].
    split; [|split; [|split; [|split; [|split]]]].
    + rewrite Forall_forall. intros vc Hvc. apply nlargest_In in Hvc.
      pose proof (correct_table_entries report_rows) as Hall.
      rewrite Forall_forall in Hall. now apply Hall.
    + apply select_n_distinct. rewrite correct_table_keys. apply group_keys_NoDup.
    + apply sorted_nat_desc, nlargest_sorted; [apply nat_leb_total | apply nat_leb_trans].
    + exact Hlen.
    + exists rest. split; [exact Hperm|].
      intros x y Hx Hy. apply Nat.leb_le. now apply Htop.
    + intros v. rewrite correct_table_keys, group_keys_In, in_map_iff. split.
      * intros [m [Hv Hm]]. apply filter_In in Hm. exists m. tauto.
      * intros [m [Hm [Hv Hc]]]. exists m. split; [exact Hv|]. apply filter_In. tauto.
Qed.

Lemma good_performers_ranks_by_accuracy_witness :
  In "v1" (map fst (voter_table (merge_correct SmallFrame.one_ballot
                                   SmallFrame.one_key))).
Proof.
  destruct (good_performers_ranks_by_accuracy SmallFrame.one_ballot [] 
              SmallFrame.one_key 5) as [[_ [_ [_ [_ [_ Hkeys]]]]] _].
  apply Hkeys. simpl. now left.
Defined.

(** C2 as stated fails for the report script: on the scenario it
    lists "v1" with the count 1 and leaves out "v2", who has a merged
    ballot and an accuracy of 0 in the dashboard. *)
Lemma report_ranks_by_correct_count :
  scenario_report DayFirst.to_datetime_at
    (GetQuestions.mk_clock (fun _ => 0) 0 (fun _ => 0) 0)
    = Ok [("v1", 1%nat)]
  /\ option_map accuracies (scenario_insights 2) = Some [("v1", 100 # 1); ("v2", 0 # 1)]
  /\ In "v2" (map by_voter (merge_correct scenario_frame scenario_key))
  /\ ~ In "v2" (map fst [("v1", 1%nat)]).
Proof.
  split; [vm_compute; reflexivity|]. split; [vm_compute; reflexivity|].
  split; [simpl; tauto|]. simpl. intros [H|[]]. discriminate H.
Qed.

(** The dashboard's rows in full: the left join of [load_data] pairs
    each ballot with both rows of "Q1", so every count is doubled and
    the accuracies are unchanged. *)
Example scenario_good_performers_rows :
  option_map good_performers (scenario_insights 2)
  = Some [("v1", mk_performance 2 2 (100 # 1)); ("v2", mk_performance 2 0 (0 # 1))].
Proof. vm_compute. reflexivity. Qed.

(** In the scenario "v2" answered after two minutes, "v1" after five:
    Early birds credits "v2". *)
Example scenario_early_birds :
  option_map early_birds (scenario_insights 2) = Some [("v2", 1%nat)].
Proof. vm_compute. reflexivity. Qed.

End GoodPerformers.

(** ** Early birds *)

Module EarlyBirds.
Import Frame.

(** The rows that survive [sort_values('response_time')] and
    [drop_duplicates(['question_text'])] in [calculate_insights]. *)
Definition first_responses `{Sorter} (voter_df : list ballot) : list ballot :=
  drop_duplicates question_text
    (sort_values_by response_time (QuizDashboard3.notna voter_df)).

Lemma early_birds_eq `{Sorter} voter_df correct_answers_df n :
  QuizDashboard3.early_birds (QuizDashboard3.calculate_insights voter_df correct_answers_df n)
  = nlargest Nat.leb n snd (groupby_size voter_name (first_responses voter_df)).
Proof. reflexivity. Qed.

Lemma notna_In voter_df b :
  In b (QuizDashboard3.notna voter_df)
  <-> In b voter_df /\ exists t, response_time b = Some t.
Proof.
  unfold QuizDashboard3.notna. rewrite filter_In. split; intros [Hin Hr]; split; auto.
  - destruct (response_time b) as [t|]; [eauto | discriminate].
  - destruct Hr as [t ->]. reflexivity.
Qed.

(** What [calculate_insights] credits, question by question: a
    question with a ballot that has a response time is credited to
    exactly one ballot, which has the smallest response time among the
    question's ballots and is the first of them in the sorted frame; a
    question without such a ballot is credited to none. *)
Lemma first_responses_spec `{Sorter} (voter_df : list ballot) :
  let sorted := sort_values_by response_time (QuizDashboard3.notna voter_df) in
  (forall r, In r (first_responses voter_df) ->
     In r voter_df
     /\ find (fun b => String.eqb (question_text b) (question_text r)) sorted = Some r
     /\ exists t, response_time r = Some t
          /\ forall b t', In b voter_df -> question_text b = question_text r ->
                          response_time b = Some t' -> t <= t')
  /\ (forall b t, In b voter_df -> response_time b = Some t ->
        exists r, In r (first_responses voter_df)
                  /\ question_text r = question_text b
                  /\ forall r', In r' (first_responses voter_df) ->
                                question_text r' = question_text b -> r' = r)
  /\ (forall q, (forall b, In b voter_df -> question_text b = q -> response_time b = None) ->
        forall r, In r (first_responses voter_df) -> question_text r <> q).
Proof.
  cbv zeta. unfold first_responses.
  set (sorted := sort_values_by response_time (QuizDashboard3.notna voter_df)).
  assert (Hmem : forall b, In b sorted <-> In b voter_df /\ exists t, response_time b = Some t).
  { intros b. unfold sorted. rewrite sort_values_by_In. apply notna_In. }
  assert (Hfirst : forall r, In r (drop_duplicates question_text sorted) ->
            In r voter_df
            /\ find (fun b => String.eqb (question_text b) (question_text r)) sorted = Some r
            /\ exists t, response_time r = Some t
                 /\ forall b t', In b voter_df -> question_text b = question_text r ->
                                 response_time b = Some t' -> t <= t').
  { intros r Hr. pose proof (drop_duplicates_first _ _ _ Hr) as Hf.
    apply drop_duplicates_In in Hr. apply Hmem in Hr. destruct Hr as [Hin [t Ht]].
    split; [exact Hin|]. split; [exact Hf|]. exists t. split; [exact Ht|].
    intros b t' Hb Hq Hb'.
    assert (Hbs : In b sorted) by (apply Hmem; eauto).
    destruct (find_first_sorted _ _ _ _ (sort_values_by_sorted response_time _) Hf b Hbs)
      as [->|Hle].
    - rewrite Hq. apply String.eqb_refl.
    - rewrite Ht in Hb'. injection Hb' as <-. lia.
    - rewrite Ht, Hb' in Hle. exact Hle. }
  split; [exact Hfirst|]. split.
  - intros b t Hb Ht.
    assert (Hbs : In b sorted) by (apply Hmem; eauto).
    destruct (drop_duplicates_keys question_text sorted b Hbs) as [r [Hr Hq]].
    exists r. split; [exact Hr|]. split; [exact Hq|].
    intros r' Hr' Hq'.
    apply (NoDup_keys_inj question_text (drop_duplicates question_text sorted));
      [apply drop_duplicates_NoDup | exact Hr' | exact Hr | congruence].
  - intros q Hq r Hr E. destruct (Hfirst r Hr) as [Hin [_ [t [Ht _]]]].
    rewrite (Hq r Hin E) in Ht. discriminate.
Qed.

(** The ranking of the credits. *)
Lemma early_birds_ranking `{Sorter} voter_df correct_answers_df n :
  let eb := QuizDashboard3.early_birds
              (QuizDashboard3.calculate_insights voter_df correct_answers_df n) in
  Forall (fun vc => snd vc = count_where (fun r => String.eqb (voter_name r) (fst vc))
                               (first_responses voter_df)
                    /\ (1 <= snd vc)%nat) eb
  /\ InsightOrder.descending_by Nat.le snd eb
  /\ (List.length eb <= n)%nat.
Proof.
  cbv zeta. rewrite early_birds_eq. split; [|split].
  - rewrite Forall_forall. intros vc Hvc. apply nlargest_In in Hvc.
    unfold groupby_size in Hvc. apply in_map_iff in Hvc. destruct Hvc as [k [<- Hk]].
    simpl. split; [reflexivity|]. apply group_nonempty. now apply group_keys_In.
  - apply InsightOrder.sorted_nat_desc, nlargest_sorted;
      [apply nat_leb_total | apply nat_leb_trans].
  - apply nlargest_length.
Qed.

(** A question whose creation time could not be read, with its only
    ballot, and a dated question without ballots. *)
Definition undated_question : list Sheet.que_ans_row :=
  [Sheet.mk_que_ans "Q1" PNaT "A" (PInt 1);
   Sheet.mk_que_ans "Q2" (PTimestamp (Calendar.datetime 2024 10 20 10 0)) "A" (PInt 0)].

Definition undated_ballots : list Sheet.voter_row :=
  [Sheet.mk_voter "v1" "Q1" "A" (PInt 1)
     (PTimestamp (Calendar.datetime 2024 10 20 10 5))].

Definition undated_frame : list ballot :=
  [mk_ballot "v1" "Q1" "A" (Some (Calendar.datetime 2024 10 20 10 5)) None].

(** C3 at its failing input.  The report script sorts and
    de-duplicates without the [notna] filter that [calculate_insights]
    applies first: a question whose only ballot has no response time
    still credits that ballot's voter.  The input passes lines 11-52
    of the script for every parser and clock. *)
Theorem report_early_birds_credits_missing_latency `{Sorter}
    (to_datetime : Z -> pyval -> parse_outcome) (w : GetQuestions.wall_clock) :
  GetQuestions.prepare to_datetime undated_question undated_ballots w
    = (Ok undated_frame, w)
  /\ fst (GetQuestions.clean_voting_time to_datetime undated_ballots w)
     = Ok undated_ballots
  /\ GetQuestions.with_response_time
       (GetQuestions.dtype_of (map Sheet.que_created_at undated_question))
       (GetQuestions.dedup_questions undated_question) undated_ballots
     = Ok undated_frame
  /\ GetQuestions.early_birds undated_frame = [("v1", 1%nat)]
  /\ QuizDashboard3.early_birds (QuizDashboard3.calculate_insights undated_frame [] 32) = [].
Proof.
  split; [rewrite WallClock.prepare_outcome; reflexivity|].
  split; [reflexivity|]. split; [reflexivity|].
  split.
  - unfold GetQuestions.early_birds.
    assert (E : sort_values_by response_time undated_frame = undated_frame).
    { unfold sort_values_by, undated_frame. simpl keyed. now rewrite sort_values_nil. }
    rewrite E.
    change (groupby_size voter_name (drop_duplicates question_text undated_frame))
      with [("v1", 1%nat)].
    unfold nlargest. apply select_n_one. unfold GetQuestions.N. lia.
  - rewrite early_birds_eq. unfold first_responses.
    assert (E : sort_values_by response_time (QuizDashboard3.notna undated_frame) = []).
    { unfold sort_values_by, undated_frame. simpl keyed. now rewrite sort_values_nil. }
    rewrite E. unfold nlargest. apply select_n_nil.
Qed.

End EarlyBirds.

(** ** Ballots without a matching question or answer-key row *)

Module UnmatchedBallots.
Import Frame QuizDashboard3.

Lemma merge_correct_app (df1 df2 : list ballot) (key : list Sheet.correct_row) :
  merge_correct (df1 ++ df2) key = merge_correct df1 key ++ merge_correct df2 key.
Proof. unfold merge_correct. apply flat_map_app. Qed.

Lemma merge_correct_unkeyed (b : ballot) (key : list Sheet.correct_row) :
  (forall k, In k key -> Sheet.key_que_text k <> question_text b) ->
  merge_correct [b] key = [].
Proof.
  intros Hk. unfold merge_correct. simpl. rewrite app_nil_r.
  replace (filter _ key) with (@nil Sheet.correct_row); [reflexivity|].
  symmetry. induction key as [|k t IH]; simpl; [reflexivity|].
  destruct (String.eqb (Sheet.key_que_text k) (question_text b)) eqn:E.
  - apply String.eqb_eq in E. exfalso. apply (Hk k); [now left | exact E].
  - apply IH. intros k' Hk'. apply Hk. now right.
Qed.

Lemma merged_df_drops_unkeyed (pre post : list ballot) (b : ballot)
    (key : list Sheet.correct_row) :
  (forall k, In k key -> Sheet.key_que_text k <> question_text b) ->
  merged_df (pre ++ b :: post) key = merged_df (pre ++ post) key.
Proof.
  intros Hk. unfold merged_df.
  change (b :: post) with ([b] ++ post).
  rewrite !merge_correct_app, (merge_correct_unkeyed b key Hk). reflexivity.
Qed.

Lemma notna_drops_missing (pre post : list ballot) (b : ballot) :
  response_time b = None -> notna (pre ++ b :: post) = notna (pre ++ post).
Proof.
  intros Hb. unfold notna. rewrite !filter_app. simpl. now rewrite Hb.
Qed.

Lemma left_merge_row_unmatched (que : list (Sheet.que_ans_row * option Z))
    (v : Sheet.voter_row) (t : option Z) :
  (forall qc, In qc que -> Sheet.que_text (fst qc) <> Sheet.question_text v) ->
  left_merge_row que v t
  = [mk_ballot (Sheet.voter_name v) (Sheet.question_text v) (Sheet.choice v) t None].
Proof.
  intros Hq. unfold left_merge_row.
  replace (filter _ que) with (@nil (Sheet.que_ans_row * option Z)).
  - destruct t; reflexivity.
  - symmetry. induction que as [|qc r IH]; simpl; [reflexivity|].
    destruct (String.eqb (Sheet.que_text (fst qc)) (Sheet.question_text v)) eqn:E.
    + apply String.eqb_eq in E. exfalso. apply (Hq qc); [now left | exact E].
    + apply IH. intros qc' Hqc'. apply Hq. now right.
Qed.

(** C5 (as the code has it).  A ballot whose question has no row in
    the answer key is dropped by the inner merge and changes none of
    the three metrics computed from [merged_df].  A ballot whose
    question has no row in the question table is kept by the left
    join of [load_data], once, with a missing response time; it is
    left out of the three response-time metrics only. *)
Theorem unmatched_ballots_in_metrics `{Sorter} (pre post : list ballot) (b : ballot)
    (key : list Sheet.correct_row) (n : nat) :
  let with_b := calculate_insights (pre ++ b :: post) key n in
  let without_b := calculate_insights (pre ++ post) key n in
  ((forall k, In k key -> Sheet.key_que_text k <> question_text b) ->
     merged_df (pre ++ b :: post) key = merged_df (pre ++ post) key
     /\ incorrect_questions with_b = incorrect_questions without_b
     /\ easy_questions with_b = easy_questions without_b
     /\ good_performers with_b = good_performers without_b)
  /\ (forall que v t,
        (forall qc, In qc que -> Sheet.que_text (fst qc) <> Sheet.question_text v) ->
        left_merge_row que v t
        = [mk_ballot (Sheet.voter_name v) (Sheet.question_text v) (Sheet.choice v) t None])
  /\ (response_time b = None ->
        early_birds with_b = early_birds without_b
        /\ fast_responses with_b = fast_responses without_b
        /\ slow_responses with_b = slow_responses without_b).
Proof.
  cbv zeta. split; [|split].
  - intros Hk. pose proof (merged_df_drops_unkeyed pre post b key Hk) as E.
    unfold calculate_insights;
      cbn [incorrect_questions easy_questions good_performers].
    rewrite E. repeat split; reflexivity.
  - apply left_merge_row_unmatched.
  - intros Hb. pose proof (notna_drops_missing pre post b Hb) as E.
    unfold calculate_insights; cbn [early_birds fast_responses slow_responses].
    rewrite E. repeat split; reflexivity.
Qed.

Definition stray_questions : list Sheet.que_ans_row :=
  [Sheet.mk_que_ans "Q2" (PTimestamp (Calendar.datetime 2024 10 20 10 0)) "A" (PInt 0)].

Definition stray_ballots : list Sheet.voter_row :=
  [Sheet.mk_voter "v1" "Q1" "A" (PInt 1) (PTimestamp (Calendar.datetime 2024 10 20 10 5))].

Definition stray_key : list Sheet.correct_row := SmallFrame.one_key.

Definition stray_frame : list ballot := SmallFrame.one_ballot.

Lemma unmatched_ballots_in_metrics_witness :
  good_performers (calculate_insights (stray_frame ++ [mk_ballot "v2" "Q9" "B" None None]) stray_key 20)
  = good_performers (calculate_insights (stray_frame ++ []) stray_key 20)
  /\ early_birds (calculate_insights ([] ++ stray_frame) stray_key 20)
     = early_birds (calculate_insights ([] ++ []) stray_key 20).
Proof.
  split.
  - destruct (unmatched_ballots_in_metrics stray_frame [] (mk_ballot "v2" "Q9" "B" None None)
                stray_key 20) as [Hkey _].
    apply Hkey. intros k [<-|[]]. discriminate.
  - destruct (unmatched_ballots_in_metrics [] []
                (mk_ballot "v1" "Q1" "A" (Some (Calendar.datetime 2024 10 20 10 5)) None)
                stray_key 20) as [_ [_ Hq]].
    apply Hq. reflexivity.
Defined.

(** C5 as stated fails: the question table has no "Q1", yet the
    ballot for "Q1" survives [load_data] and is counted by the
    ballot-count, timestamp and accuracy metrics. *)
Lemma unmatched_question_ballot_is_counted :
  load_data (fun _ => DayFirst.to_datetime) stray_questions stray_ballots stray_key
    = Some (combine stray_questions [Some (Calendar.datetime 2024 10 20 10 0)],
            stray_frame, stray_key)
  /\ active_voters (calculate_insights stray_frame stray_key 20) = [("v1", 1%nat)]
  /\ least_voted (calculate_insights stray_frame stray_key 20) = [("Q1", 1%nat)]
  /\ inactive_followers (calculate_insights stray_frame stray_key 20)
     = [("v1", Some (Calendar.datetime 2024 10 20 10 5))]
  /\ good_performers (calculate_insights stray_frame stray_key 20)
     = [("v1", mk_performance 1 1 (100 # 1))]
  /\ easy_questions (calculate_insights stray_frame stray_key 20) = [("Q1", 1 # 1)].
Proof. vm_compute. repeat split; reflexivity. Qed.

End UnmatchedBallots.

(** * Further properties of get_cleaned.py *)

Lemma count_where_perm {A : Type} (p : A -> bool) (l l' : list A) :
  Permutation l l' -> List.length (filter p l) = List.length (filter p l').
Proof.
  induction 1 as [|x l l' _ IH|x y l|l l' l'' _ IH1 _ IH2]; simpl.
  - reflexivity.
  - destruct (p x); simpl; now rewrite IH.
  - destruct (p x), (p y); reflexivity.
  - now rewrite IH1.
Qed.

Module ReconciliationLaws.
Import Sheet GetCleaned Reconciliation.

Lemma reconciled_twice voters r :
  reconciled voters (reconciled voters r) = reconciled voters r.
Proof.
  unfold reconciled at 2.
  destruct (choice_voter_count voters (que_text r) (ans_text r)) as [|k] eqn:E.
  - unfold reconciled. now rewrite E.
  - unfold reconciled. cbn [with_votes que_text ans_text]. rewrite E. reflexivity.
Qed.

(** Running the reconciliation loop a second time changes nothing: the
    recount depends on the ballots and on a row's question and answer
    texts only, and the loop touches neither. *)
Theorem reconcile_votes_idempotent (fr : frames) :
  exec reconcile_votes (exec reconcile_votes fr) = exec reconcile_votes fr.
Proof.
  rewrite !reconcile_votes_rows. cbn [que_ans_df voter_df]. f_equal.
  rewrite map_map. apply map_ext. intros r. apply reconciled_twice.
Qed.

Lemma choice_voter_count_perm voters voters' q c :
  Permutation voters voters' ->
  choice_voter_count voters q c = choice_voter_count voters' q c.
Proof. unfold choice_voter_count. apply count_where_perm. Qed.

(** The corrected table does not depend on the order of the ballot
    rows. *)
Theorem reconcile_votes_ballot_order (que : list que_ans_row)
    (voters voters' : list voter_row) :
  Permutation voters voters' ->
  que_ans_df (exec reconcile_votes {| que_ans_df := que; voter_df := voters |})
  = que_ans_df (exec reconcile_votes {| que_ans_df := que; voter_df := voters' |}).
Proof.
  intros Hp. rewrite !reconcile_votes_rows. cbn [que_ans_df voter_df].
  apply map_ext. intros r. unfold reconciled.
  now rewrite (choice_voter_count_perm voters voters' _ _ Hp).
Qed.

Definition ballot_a : voter_row := mk_voter "v1" "Q1" "A" (PInt 1) PNaT.
Definition ballot_b : voter_row := mk_voter "v2" "Q1" "B" (PInt 1) PNaT.

Lemma reconcile_votes_ballot_order_witness :
  que_ans_df (exec reconcile_votes
                {| que_ans_df := [mk_que_ans "Q1" PNaT "A" (PStr "9 votes")];
                   voter_df := [ballot_a; ballot_b] |})
  = que_ans_df (exec reconcile_votes
                  {| que_ans_df := [mk_que_ans "Q1" PNaT "A" (PStr "9 votes")];
                     voter_df := [ballot_b; ballot_a] |}).
Proof.
  apply reconcile_votes_ballot_order. apply perm_swap.
Defined.

End ReconciliationLaws.

Module TallyLaws.
Import Sheet GetCleaned CleanedFacts.

(** A cleaned tally stays as it is: applying [convert_vote_count] to
    its own result returns that result and does not raise. *)
Theorem convert_vote_count_idempotent (value cleaned : pyval) :
  convert_vote_count value = Ok cleaned ->
  convert_vote_count cleaned = Ok cleaned.
Proof.
  destruct value as [z|s|t| |]; simpl; try (intros [= <-]; reflexivity).
  destruct (PyStr.contains "votes" s) eqn:Hc.
  - destruct (PyStr.split_ws s) as [|tok rest]; [discriminate|].
    destruct (PyStr.py_int tok); [|discriminate]. intros [= <-]. reflexivity.
  - intros [= <-]. simpl. now rewrite Hc.
Qed.

Lemma convert_vote_count_idempotent_witness :
  convert_vote_count (PInt 42) = Ok (PInt 42).
Proof.
  apply (convert_vote_count_idempotent (PStr "42 votes")). reflexivity.
Defined.

(** The only exception [convert_vote_count] can raise is
    [ValueError]. *)
Lemma convert_vote_count_raises_only_ValueError value e :
  convert_vote_count value = Raise e -> e = ValueError.
Proof.
  destruct value as [z|s|t| |]; simpl; try discriminate.
  destruct (PyStr.contains "votes" s) eqn:Hc; [|discriminate].
  destruct (split_ws_votes_nonempty s Hc) as [tok [rest ->]].
  destruct (PyStr.py_int tok); [discriminate | now intros [= <-]].
Qed.

End TallyLaws.

(** ** Decimal tallies *)

Module DecimalTally.
Import Sheet GetCleaned.

Fixpoint all_digits (s : string) : bool :=
  match s with
  | EmptyString => true
  | String c r => PyStr.is_digit c && all_digits r
  end.

Lemma digit_char (k : nat) :
  (k < 10)%nat ->
  PyStr.is_digit (ascii_of_nat (48 + k)) = true
  /\ PyStr.digit_val (ascii_of_nat (48 + k)) = Z.of_nat k.
Proof.
  intros Hk. do 10 (destruct k as [|k]; [split; reflexivity|]). lia.
Qed.

Lemma digit_not_space c : PyStr.is_digit c = true -> PyStr.is_space c = false.
Proof.
  unfold PyStr.is_digit, PyStr.is_space. intros H.
  apply andb_true_iff in H. destruct H as [H1 H2].
  apply Nat.leb_le in H1, H2.
  repeat match goal with
         | |- context [(?a <=? ?b)%nat] => destruct (Nat.leb_spec a b)
         | |- context [(?a =? ?b)%nat] => destruct (Nat.eqb_spec a b)
         end; simpl; try reflexivity; lia.
Qed.

Lemma string_app_snoc (s : string) (c : ascii) (t : string) :
  (PyStr.snoc s c ++ t)%string = (s ++ String c t)%string.
Proof. unfold PyStr.snoc. induction s as [|a s IH]; simpl; [reflexivity | now rewrite IH]. Qed.

Lemma string_app_empty (s : string) : (s ++ EmptyString)%string = s.
Proof. induction s as [|a s IH]; simpl; [reflexivity | now rewrite IH]. Qed.

Lemma all_digits_snoc s c :
  all_digits (PyStr.snoc s c) = all_digits s && PyStr.is_digit c.
Proof.
  unfold PyStr.snoc. induction s as [|a s IH]; simpl.
  - now rewrite andb_true_r.
  - rewrite IH. now rewrite andb_assoc.
Qed.

Lemma pad_digits_all_digits w : forall n, all_digits (PyStr.pad_digits w n) = true.
Proof.
  induction w as [|w IH]; intros n; simpl; [reflexivity|].
  rewrite all_digits_snoc, IH. simpl.
  apply digit_char. pose proof (Z.mod_pos_bound n 10). lia.
Qed.

Lemma pad_digits_nonempty w n : PyStr.is_empty (PyStr.pad_digits (S w) n) = false.
Proof. simpl. apply CleanedFacts.is_empty_snoc. Qed.

(** [split] keeps a run of digits together. *)
Lemma split_ws_go_digits d : forall tok rest,
  all_digits d = true ->
  PyStr.split_ws_go tok (d ++ rest)%string = PyStr.split_ws_go (tok ++ d)%string rest.
Proof.
  induction d as [|c d IH]; intros tok rest Hd; simpl.
  - now rewrite string_app_empty.
  - simpl in Hd. apply andb_true_iff in Hd. destruct Hd as [Hc Hd].
    rewrite (digit_not_space c Hc), IH by exact Hd.
    now rewrite string_app_snoc.
Qed.

Lemma contains_app_r sub d t :
  PyStr.contains sub t = true -> PyStr.contains sub (d ++ t)%string = true.
Proof.
  intros H. induction d as [|c d IH]; simpl; [exact H|].
  change (prefix sub (String c (d ++ t)) || PyStr.contains sub (d ++ t)%string = true).
  rewrite IH. apply orb_true_r.
Qed.

Lemma rstrip_digits s : all_digits s = true -> PyStr.rstrip s = s.
Proof.
  induction s as [|c r IH]; simpl; [reflexivity|].
  intros H. apply andb_true_iff in H. destruct H as [Hc Hr].
  now rewrite (digit_not_space c Hc), IH.
Qed.

Lemma strip_digits s : all_digits s = true -> PyStr.strip s = s.
Proof.
  intros H. unfold PyStr.strip.
  assert (Hl : PyStr.lstrip s = s).
  { destruct s as [|c r]; [reflexivity|]. simpl in *.
    apply andb_true_iff in H. destruct H as [Hc _].
    now rewrite (digit_not_space c Hc). }
  rewrite Hl. now apply rstrip_digits.
Qed.

Lemma count_digits_all s :
  all_digits s = true -> PyStr.count_digits s = N.of_nat (String.length s).
Proof.
  induction s as [|c r IH]; [reflexivity|].
  cbn [all_digits PyStr.count_digits String.length]. intros H.
  apply andb_true_iff in H. destruct H as [Hc Hr].
  rewrite Hc, (IH Hr). lia.
Qed.

Lemma snoc_length s c : String.length (PyStr.snoc s c) = S (String.length s).
Proof. unfold PyStr.snoc. induction s as [|a s IH]; simpl; [reflexivity | now rewrite IH]. Qed.

Lemma pad_digits_length w : forall n, String.length (PyStr.pad_digits w n) = w.
Proof.
  induction w as [|w IH]; intros n; [reflexivity|].
  cbn [PyStr.pad_digits]. now rewrite snoc_length, IH.
Qed.

Lemma py_int_digits s :
  all_digits s = true ->
  PyStr.py_int s
  = if N.leb (N.of_nat (String.length s)) PyStr.int_max_str_digits
    then PyStr.parse_digits 0 false s else None.
Proof.
  intros H. unfold PyStr.py_int. cbv zeta.
  rewrite (strip_digits s H), (count_digits_all s H).
  destruct (N.leb (N.of_nat (String.length s)) PyStr.int_max_str_digits); [|reflexivity].
  destruct s as [|c r]; [reflexivity|].
  simpl in H. apply andb_true_iff in H. destruct H as [Hc _].
  destruct c as [[] [] [] [] [] [] [] []]; try reflexivity; discriminate Hc.
Qed.

Lemma parse_digits_pad w : forall n acc b t,
  PyStr.parse_digits acc b (PyStr.pad_digits w n ++ t)%string
  = PyStr.parse_digits (acc * 10 ^ Z.of_nat w + n mod 10 ^ Z.of_nat w)
                       (b || negb (w =? 0)%nat) t.
Proof.
  induction w as [|w IH]; intros n acc b t.
  - simpl. rewrite Z.mod_1_r, orb_false_r. f_equal. lia.
  - cbn [PyStr.pad_digits]. rewrite string_app_snoc, IH.
    pose proof (Z.mod_pos_bound n 10 ltac:(lia)) as Hm.
    destruct (digit_char (Z.to_nat (n mod 10)) ltac:(lia)) as [Hd Hv].
    cbn [PyStr.parse_digits]. rewrite Hd, Hv. simpl negb. rewrite orb_true_r.
    f_equal. rewrite Z2Nat.id by lia.
    rewrite Nat2Z.inj_succ, Z.pow_succ_r by lia.
    rewrite (Z.rem_mul_r n 10 (10 ^ Z.of_nat w)) by lia. lia.
Qed.

(** Writing and reading a tally: a number written in [w] decimal
    digits (leading zeros allowed) and followed by " votes" is
    converted to that number as long as [w] is within the digit limit
    of [int]; beyond the limit the conversion raises [ValueError]. *)
Theorem convert_vote_count_decimal (w : nat) (n : Z) :
  (1 <= w)%nat -> 0 <= n < 10 ^ Z.of_nat w ->
  convert_vote_count (PStr (PyStr.pad_digits w n ++ " votes")%string)
  = if N.leb (N.of_nat w) PyStr.int_max_str_digits
    then Ok (PInt n) else Raise ValueError.
Proof.
  intros Hw Hn. destruct w as [|w]; [lia|].
  unfold convert_vote_count.
  rewrite contains_app_r by reflexivity.
  unfold PyStr.split_ws.
  rewrite split_ws_go_digits by apply pad_digits_all_digits.
  change (EmptyString ++ PyStr.pad_digits (S w) n)%string with (PyStr.pad_digits (S w) n).
  cbn [PyStr.split_ws_go]. change (PyStr.is_space " "%char) with true.
  cbv iota. rewrite pad_digits_nonempty.
  rewrite py_int_digits by apply pad_digits_all_digits.
  rewrite pad_digits_length.
  destruct (N.leb (N.of_nat (S w)) PyStr.int_max_str_digits); [|reflexivity].
  rewrite <- (string_app_empty (PyStr.pad_digits (S w) n)).
  rewrite parse_digits_pad. simpl PyStr.parse_digits.
  rewrite Z.mod_small by lia. reflexivity.
Qed.

Lemma convert_vote_count_decimal_witness :
  convert_vote_count (PStr "042 votes") = Ok (PInt 42).
Proof.
  apply (convert_vote_count_decimal 3 42); [lia | split; [lia | reflexivity]].
Defined.

End DecimalTally.

(** ** The cleaned date column and the whole script *)

Module CleanedDates.
Import Sheet GetCleaned DateKeywords.

Lemma convert_date_keyword to_datetime value :
  In value keywords -> exists t, convert_date to_datetime value = PTimestamp t.
Proof.
  unfold keywords. simpl.
  intros [<-|[<-|[<-|[<-|[]]]]]; eexists; reflexivity.
Qed.

Lemma convert_date_shape (to_datetime : pyval -> parse_outcome) (value : pyval) :
  (exists t, convert_date to_datetime value = PTimestamp t)
  \/ convert_date to_datetime value = PNaT
  \/ (convert_date to_datetime value = value
      /\ ~ In value keywords
      /\ exists e, to_datetime value = ParserRaised e).
Proof.
  destruct (in_dec (fun a b : pyval => ltac:(repeat decide equality) : {a = b} + {a <> b})
                   value keywords) as [Hk|Hk].
  - left. now apply convert_date_keyword.
  - rewrite (convert_date_fallthrough to_datetime value Hk). unfold day_first_parse.
    destruct (to_datetime value) as [t| |e] eqn:E; eauto 6.
Qed.

(** No relative keyword survives [convert_date]: whatever the parser
    does, the result is never one of the four keyword strings; it is a
    Timestamp, NaT, or (when the parser raised) the value itself. *)
Theorem convert_date_leaves_no_keyword (to_datetime : pyval -> parse_outcome)
    (value : pyval) :
  ~ In (convert_date to_datetime value) keywords
  /\ ((exists t, convert_date to_datetime value = PTimestamp t)
      \/ convert_date to_datetime value = PNaT
      \/ (convert_date to_datetime value = value
          /\ exists e, to_datetime value = ParserRaised e)).
Proof.
  destruct (convert_date_shape to_datetime value) as [[t E]|[E|[E [Hk He]]]].
  - split; [|left; eauto]. rewrite E. unfold keywords. simpl.
    intros [H|[H|[H|[H|[]]]]]; discriminate H.
  - split; [|right; left; exact E]. rewrite E. unfold keywords. simpl.
    intros [H|[H|[H|[H|[]]]]]; discriminate H.
  - split; [now rewrite E | right; right; auto].
Qed.

(** Converting a converted date again returns it unchanged, provided
    the parser returns a Timestamp as it is and NaT as NaT. *)
Theorem convert_date_idempotent (to_datetime : pyval -> parse_outcome) (value : pyval) :
  (forall t, to_datetime (PTimestamp t) = Parsed t) ->
  to_datetime PNaT = Unparseable ->
  convert_date to_datetime (convert_date to_datetime value)
  = convert_date to_datetime value.
Proof.
  intros Hts Hnat.
  destruct (convert_date_shape to_datetime value) as [[t E]|[E|[E _]]];
    rewrite E.
  - unfold convert_date. simpl. now rewrite Hts.
  - unfold convert_date. simpl. now rewrite Hnat.
  - exact E.
Qed.

Lemma convert_date_idempotent_witness :
  convert_date DayFirst.to_datetime (convert_date DayFirst.to_datetime (PStr "SUNDAY"))
  = convert_date DayFirst.to_datetime (PStr "SUNDAY").
Proof.
  apply convert_date_idempotent; [intros t; reflexivity | reflexivity].
Defined.

End CleanedDates.

Module CleaningScript.
Import Sheet GetCleaned Reconciliation.

Definition ballot_identity (v : voter_row) : string * string * string * pyval :=
  (voter_name v, question_text v, choice v, voting_time v).

Lemma cleaned_counts (voters : list voter_row) : forall counts,
  Forall2 (fun x y => convert_vote_count x = Ok y) (map vote_count voters) counts ->
  let cleaned := map (fun '(r, v) => with_vote_count r v) (combine voters counts) in
  map ballot_identity cleaned = map ballot_identity voters
  /\ Forall2 (fun v v' => convert_vote_count (vote_count v) = Ok (vote_count v'))
             voters cleaned.
Proof.
  induction voters as [|v t IH]; intros counts H; simpl in *.
  - inversion H. split; [reflexivity | constructor].
  - inversion H as [|? y ? ys Hy Hys]; subst. simpl.
    destruct (IH ys Hys) as [Hid Hall]. split.
    + now rewrite Hid.
    + constructor; [exact Hy | exact Hall].
Qed.

(** What the whole cleaning script does.  It can fail only with
    [ValueError], and only because some ballot's tally is a "votes"
    string without a leading integer.  When it succeeds, the ballot
    table keeps its rows with their voter, question, choice and voting
    time, each tally being the converted one, and the question table
    keeps its rows with their question and answer texts, each creation
    date being the converted one. *)
Theorem run_outcome (to_datetime : pyval -> parse_outcome) (fr : frames) :
  (forall e, run to_datetime fr = Raise e ->
     e = ValueError
     /\ exists v, In v (voter_df fr) /\ convert_vote_count (vote_count v) = Raise ValueError)
  /\ (forall fr', run to_datetime fr = Ok fr' ->
        map ballot_identity (voter_df fr') = map ballot_identity (voter_df fr)
        /\ Forall2 (fun v v' => convert_vote_count (vote_count v) = Ok (vote_count v'))
                   (voter_df fr) (voter_df fr')
        /\ map que_text (que_ans_df fr') = map que_text (que_ans_df fr)
        /\ map ans_text (que_ans_df fr') = map ans_text (que_ans_df fr)
        /\ map que_created_at (que_ans_df fr')
           = map (fun r => convert_date to_datetime (que_created_at r)) (que_ans_df fr)).
Proof.
  unfold run.
  destruct (apply_raising convert_vote_count (map vote_count (voter_df fr)))
    as [counts|e0] eqn:E.
  - split; [discriminate|]. intros fr' [= <-].
    rewrite reconcile_votes_rows. cbn [que_ans_df voter_df].
    destruct (cleaned_counts (voter_df fr) counts (apply_raising_Ok _ _ _ E))
      as [Hid Hall].
    split; [exact Hid|]. split; [exact Hall|].
    rewrite !map_map. repeat split; apply map_ext; intros r; unfold reconciled;
      match goal with
      | |- context [choice_voter_count ?a ?b ?c] => destruct (choice_voter_count a b c)
      end; reflexivity.
  - split; [|discriminate]. intros e [= <-].
    destruct (apply_raising_Raise _ _ _ E) as [cell [Hin Hcell]].
    pose proof (TallyLaws.convert_vote_count_raises_only_ValueError _ _ Hcell) as ->.
    split; [reflexivity|].
    apply in_map_iff in Hin. destruct Hin as [v [<- Hv]]. eauto.
Qed.

Lemma run_outcome_witness :
  exists v, In v [mk_voter "v1" "Q1" "A" (PStr "no votes") PNaT]
            /\ convert_vote_count (vote_count v) = Raise ValueError.
Proof.
  destruct (run_outcome (fun _ => Unparseable)
              {| que_ans_df := []; voter_df := [mk_voter "v1" "Q1" "A" (PStr "no votes") PNaT] |})
    as [Hraise _].
  destruct (Hraise ValueError eq_refl) as [_ H]. exact H.
Defined.

End CleaningScript.

(** * Further properties of get_questions.py *)

Lemma filter_all {A : Type} (p : A -> bool) (l : list A) :
  (forall x, In x l -> p x = true) -> filter p l = l.
Proof.
  induction l as [|x t IH]; simpl; intros H; [reflexivity|].
  rewrite (H x (or_introl eq_refl)). f_equal. apply IH. intros y Hy. apply H. now right.
Qed.

Lemma drop_duplicates_distinct {A : Type} (key : A -> string) (l : list A) :
  NoDup (map key l) -> drop_duplicates key l = l.
Proof.
  induction l as [|x t IH]; simpl; intros H; [reflexivity|].
  apply NoDup_cons_iff in H. destruct H as [Hx Ht].
  rewrite (IH Ht). f_equal. apply filter_all. intros y Hy.
  apply negb_true_iff. destruct (String.eqb (key y) (key x)) eqn:E; [|reflexivity].
  apply String.eqb_eq in E. exfalso. apply Hx. rewrite <- E. now apply in_map.
Qed.



Module QuestionTable.
Import Sheet GetQuestions.

(** De-duplication settles after one pass, and leaves a table whose
    question texts are already distinct exactly as it is. *)
Theorem dedup_questions_stable (que_ans_df : list que_ans_row) :
  dedup_questions (dedup_questions que_ans_df) = dedup_questions que_ans_df
  /\ (NoDup (map que_text que_ans_df) -> dedup_questions que_ans_df = que_ans_df).
Proof.
  unfold dedup_questions. split.
  - apply drop_duplicates_distinct, drop_duplicates_NoDup.
  - apply drop_duplicates_distinct.
Qed.

Lemma dedup_questions_stable_witness :
  dedup_questions [mk_que_ans "Q1" PNaT "A" (PInt 1); mk_que_ans "Q2" PNaT "A" (PInt 1)]
  = [mk_que_ans "Q1" PNaT "A" (PInt 1); mk_que_ans "Q2" PNaT "A" (PInt 1)].
Proof.
  apply (dedup_questions_stable
           [mk_que_ans "Q1" PNaT "A" (PInt 1); mk_que_ans "Q2" PNaT "A" (PInt 1)]).
  repeat constructor; simpl; intuition discriminate.
Defined.








End QuestionTable.

Module VotingTimeColumn.
Import Sheet GetQuestions WallClock.

(** A cell on which the membership test ["Today" in date_str] is
    defined. *)
Definition is_text_or_timestamp (v : pyval) : bool :=
  match v with PStr _ | PTimestamp _ => true | _ => false end.

Section Parser.
Variable to_datetime : Z -> pyval -> parse_outcome.

Lemma apply_parse_timestamps col w :
  forallb is_timestamp col = true ->
  apply_parse to_datetime col w = (Ok col, w).
Proof.
  induction col as [|v t IH]; simpl; [reflexivity|].
  intros H. apply andb_true_iff in H. destruct H as [Hv Ht].
  destruct v; try discriminate. unfold bind, ret. simpl.
  now rewrite (IH Ht).
Qed.

(** A ballot table whose voting times are all Timestamps passes
    through the cleaning untouched, without a look at the clock and
    whatever the parser: cleaning a cleaned table is the identity. *)
Theorem clean_voting_time_on_timestamps (voter_df : list voter_row) (w : wall_clock) :
  forallb is_timestamp (map voting_time voter_df) = true ->
  clean_voting_time to_datetime voter_df w = (Ok voter_df, w).
Proof.
  intros H. unfold clean_voting_time, bind, ret.
  rewrite (apply_parse_timestamps _ w H).
  now rewrite (combine_map_self voting_time with_voting_time voter_df with_voting_time_same).
Qed.

Lemma apply_parse_state (col : list pyval) : forall w r w',
  apply_parse to_datetime col w = (r, w') ->
  readings w' = readings w
  /\ forall out, r = Ok out ->
       List.length out = List.length col
       /\ reads w' = (reads w + count_where is_relative col)%nat.
Proof.
  induction col as [|v t IH]; intros w r w'.
  - simpl. unfold ret. intros [= <- <-]. split; [reflexivity|].
    intros out [= <-]. unfold count_where. simpl. split; [reflexivity | lia].
  - cbn [apply_parse]. unfold bind at 1.
    destruct (parse_custom_date_readings to_datetime v w) as [Hrd [_ Hr]].
    destruct (parse_custom_date to_datetime v w) as [r1 w1]. cbn [snd] in Hrd, Hr.
    destruct r1 as [y|e].
    + unfold bind. destruct (apply_parse to_datetime t w1) as [rs w2] eqn:E.
      unfold ret. intros [= <- <-].
      destruct (IH w1 rs w2 E) as [Hreadings Hout].
      split; [now rewrite Hreadings|].
      intros out Ho. destruct rs as [ys|e]; [|discriminate].
      injection Ho as <-. destruct (Hout ys eq_refl) as [Hlen Hreads].
      split; [simpl; now rewrite Hlen|].
      rewrite Hreads, Hr. unfold count_where. simpl.
      destruct (is_relative v); simpl; lia.
    + unfold ret. intros [= <- <-]. split; [exact Hrd|]. intros out Ho. discriminate Ho.
Qed.

(** When the whole column is normalised, it keeps its length and
    [datetime.now()] has been called exactly once for every cell that
    contains "Today" or "Yesterday", and for no other cell. *)
Theorem apply_parse_clock_reads (col : list pyval) (w : wall_clock) (out : list pyval) :
  fst (apply_parse to_datetime col w) = Ok out ->
  List.length out = List.length col
  /\ reads (snd (apply_parse to_datetime col w))
     = (reads w + count_where is_relative col)%nat
  /\ readings (snd (apply_parse to_datetime col w)) = readings w.
Proof.
  intros H. destruct (apply_parse to_datetime col w) as [r w'] eqn:E.
  cbn [fst snd] in *. destruct (apply_parse_state col w r w' E) as [Hreadings Hout].
  destruct (Hout out H) as [Hlen Hreads]. auto.
Qed.

(** A cell that is neither a string nor a Timestamp (an empty cell,
    NaT, a number) aborts the normalisation of the column with
    [TypeError], unless the parser itself raised on an earlier
    cell. *)
Theorem apply_parse_rejects_other_cells (col : list pyval) (w : wall_clock) :
  (forall t v e, to_datetime t v <> ParserRaised e) ->
  forallb is_text_or_timestamp col = false ->
  fst (apply_parse to_datetime col w) = Raise TypeError.
Proof.
  intros Hp. revert w. induction col as [|v t IH]; intros w; simpl; [discriminate|].
  intros H. unfold bind at 1.
  destruct (is_text_or_timestamp v) eqn:Hv.
  - simpl in H.
    assert (Hok : exists y w1, parse_custom_date to_datetime v w = (Ok y, w1)).
    { destruct v as [z|s|ts| |]; try discriminate.
      - rewrite parse_custom_date_text.
        destruct (to_datetime (parse_instants w (parses w))
                    (PStr (date_text (readings w (reads w)) s))) as [p| |e] eqn:E;
          [eauto | eauto | exfalso; exact (Hp _ _ _ E)].
      - simpl. unfold ret. eauto. }
    destruct Hok as [y [w1 ->]]. unfold bind.
    specialize (IH w1 H).
    destruct (apply_parse to_datetime t w1) as [rs w2]. simpl in IH. subst rs.
    reflexivity.
  - destruct v as [z|s|ts| |]; try discriminate; reflexivity.
Qed.

End Parser.

Lemma clean_voting_time_on_timestamps_witness :
  clean_voting_time (fun _ _ => Unparseable)
    [mk_voter "v1" "Q1" "A" (PInt 1) (PTimestamp 0)]
    (mk_clock (fun _ => 0) 0 (fun _ => 0) 0)
  = (Ok [mk_voter "v1" "Q1" "A" (PInt 1) (PTimestamp 0)],
     mk_clock (fun _ => 0) 0 (fun _ => 0) 0).
Proof. apply clean_voting_time_on_timestamps. reflexivity. Defined.

Lemma apply_parse_clock_reads_witness :
  reads (snd (apply_parse DayFirst.to_datetime_at
                [PStr "Today at 10:05"; PTimestamp 0; PStr "Yesterday at 09:00"]
                (mk_clock (fun _ => Calendar.datetime 2024 10 22 12 0) 0
                          (fun _ => Calendar.datetime 2024 10 22 12 0) 0)))
  = 2%nat.
Proof.
  destruct (apply_parse_clock_reads DayFirst.to_datetime_at
              [PStr "Today at 10:05"; PTimestamp 0; PStr "Yesterday at 09:00"]
              (mk_clock (fun _ => Calendar.datetime 2024 10 22 12 0) 0
                        (fun _ => Calendar.datetime 2024 10 22 12 0) 0)
              [PTimestamp (Calendar.datetime 2024 10 22 10 5); PTimestamp 0;
               PTimestamp (Calendar.datetime 2024 10 21 9 0)])
    as [_ [H _]]; [vm_compute; reflexivity | exact H].
Defined.

Lemma apply_parse_rejects_other_cells_witness :
  fst (apply_parse DayFirst.to_datetime_at [PTimestamp 0; PNaT]
         (mk_clock (fun _ => 0) 0 (fun _ => 0) 0))
  = Raise TypeError.
Proof.
  apply apply_parse_rejects_other_cells; [|reflexivity].
  intros t v e. unfold DayFirst.to_datetime_at, DayFirst.to_datetime.
  destruct v; try discriminate.
  destruct (String.eqb s "today"); [discriminate|].
  destruct (DayFirst.parse s); discriminate.
Defined.

End VotingTimeColumn.

(** * Further properties of the metrics *)

(** ** Counting by value *)

Lemma list_sum_perm (l l' : list nat) : Permutation l l' -> list_sum l = list_sum l'.
Proof.
  induction 1 as [|x l l' _ IH|x y l|l l' l'' _ IH1 _ IH2]; simpl; lia.
Qed.

Lemma indicator_sum (x : string) (ks : list string) :
  NoDup ks -> In x ks ->
  list_sum (map (fun k => if String.eqb k x then 1 else 0)%nat ks) = 1%nat.
Proof.
  induction ks as [|k t IH]; simpl; [contradiction|].
  intros Hnd Hin. apply NoDup_cons_iff in Hnd. destruct Hnd as [Hk Ht].
  destruct (String.eqb_spec k x) as [->|Hne].
  - assert (Hz : list_sum (map (fun k => if String.eqb k x then 1 else 0)%nat t) = 0%nat).
    { clear IH Ht Hin. induction t as [|a t IH]; simpl; [reflexivity|].
      destruct (String.eqb_spec a x) as [->|_].
      - exfalso. apply Hk. now left.
      - apply IH. intros H. apply Hk. now right. }
    lia.
  - destruct Hin as [E|Hin]; [contradiction|]. now rewrite IH.
Qed.

Lemma list_sum_map_add {A : Type} (f g : A -> nat) (l : list A) :
  list_sum (map (fun x => f x + g x)%nat l) = (list_sum (map f l) + list_sum (map g l))%nat.
Proof. induction l as [|x t IH]; simpl; lia. Qed.

(** Over distinct keys that cover a column, the per-key counts add up
    to the length of the column. *)
Lemma counts_add_up {A : Type} (key : A -> string) (df : list A) (ks : list string) :
  NoDup ks -> (forall r, In r df -> In (key r) ks) ->
  list_sum (map (fun k => List.length (group key df k)) ks) = List.length df.
Proof.
  intros Hnd. induction df as [|r t IH]; intros Hcov.
  - clear. induction ks as [|k ks' IHk]; simpl; [reflexivity | exact IHk].
  - assert (Hr : In (key r) ks) by (apply Hcov; now left).
    assert (Ht : forall r', In r' t -> In (key r') ks)
      by (intros r' Hr'; apply Hcov; now right).
    rewrite (map_ext _ (fun k => (if String.eqb k (key r) then 1 else 0)
                                 + List.length (group key t k))%nat).
    + rewrite list_sum_map_add, (indicator_sum _ _ Hnd Hr), (IH Ht). reflexivity.
    + intros k. unfold group. simpl. rewrite String.eqb_sym.
      destruct (String.eqb k (key r)); reflexivity.
Qed.

Lemma count_where_group (col : list string) (k : string) :
  count_where (String.eqb k) col = List.length (group (fun s => s) col k).
Proof.
  unfold count_where, group. f_equal. apply filter_ext. intros s. apply String.eqb_sym.
Qed.

Section ValueCounts.
Context `{Sorter}.
Variable col : list string.

Lemma value_counts_In (kv : string * nat) :
  In kv (value_counts col)
  <-> In (fst kv) col /\ snd kv = count_where (String.eqb (fst kv)) col.
Proof.
  unfold value_counts. split.
  - intros Hin. apply (Permutation_in _ (sort_values_perm _ _ _)) in Hin.
    apply in_map_iff in Hin. destruct Hin as [k [<- Hk]].
    apply (proj1 (unique_In _ _)) in Hk. simpl. auto.
  - intros [Hk Hc]. apply (Permutation_in _ (Permutation_sym (sort_values_perm _ _ _))).
    apply in_map_iff. exists (fst kv). split; [|now apply unique_In].
    destruct kv. simpl in *. now subst.
Qed.

Lemma value_counts_keys : Permutation (map fst (value_counts col)) (unique col).
Proof.
  unfold value_counts. rewrite (Permutation_map fst (sort_values_perm _ _ _)).
  rewrite map_map. simpl. now rewrite map_id.
Qed.

Lemma value_counts_total : list_sum (map snd (value_counts col)) = List.length col.
Proof.
  unfold value_counts.
  rewrite (list_sum_perm _ _ (Permutation_map snd (sort_values_perm _ _ _))).
  rewrite map_map. simpl.
  rewrite (map_ext _ (fun k => List.length (group (fun s => s) col k)))
    by (intros k; apply count_where_group).
  apply counts_add_up; [apply unique_NoDup | intros r Hr; now apply unique_In].
Qed.

End ValueCounts.

Lemma count_where_present (col : list string) (k : string) :
  In k col -> (1 <= count_where (String.eqb k) col)%nat.
Proof.
  unfold count_where. induction col as [|x t IH]; simpl; [contradiction|].
  intros [->|Hin].
  - rewrite String.eqb_refl. simpl. lia.
  - destruct (String.eqb k x); simpl; [lia | now apply IH].
Qed.

Lemma NoDup_skipn {A : Type} (n : nat) (l : list A) : NoDup l -> NoDup (skipn n l).
Proof.
  intros H. rewrite <- (firstn_skipn n l) in H. now apply NoDup_app_remove_l in H.
Qed.

Module BallotCounts.
Import Frame QuizDashboard3.

(** An entry of a count table: the value occurs in the column and the
    count is the number of its occurrences. *)
Definition counts (col : list string) (kv : string * nat) : Prop :=
  In (fst kv) col
  /\ snd kv = count_where (String.eqb (fst kv)) col
  /\ (1 <= snd kv)%nat.

Lemma value_counts_counts `{Sorter} (col : list string) :
  Forall (counts col) (value_counts col).
Proof.
  rewrite Forall_forall. intros kv Hkv. apply value_counts_In in Hkv.
  destruct Hkv as [Hin Hc]. unfold counts. rewrite Hc.
  repeat split; auto using count_where_present.
Qed.

Lemma value_counts_NoDup `{Sorter} (col : list string) :
  NoDup (map fst (value_counts col)).
Proof.
  eapply Permutation_NoDup; [symmetry; apply value_counts_keys | apply unique_NoDup].
Qed.

(** The three metrics that count ballots report exact counts: every
    entry names a voter (or question) that occurs in the ballots, its
    count is the number of that voter's (question's) ballots and is
    at least one, and no voter (question) is listed twice.  Over the
    whole ranking the counts add up to the number of ballots, which is
    what [active_voters] shows once [n] reaches the number of
    voters. *)
Theorem ballot_count_metrics_exact `{Sorter} (voter_df : list ballot)
    (correct_answers_df : list Sheet.correct_row) (n : nat) :
  let I := calculate_insights voter_df correct_answers_df n in
  let voters := map voter_name voter_df in
  let questions := map question_text voter_df in
  Forall (counts voters) (active_voters I)
  /\ Forall (counts voters) (least_active I)
  /\ Forall (counts questions) (least_voted I)
  /\ NoDup (map fst (active_voters I))
  /\ NoDup (map fst (least_active I))
  /\ NoDup (map fst (least_voted I))
  /\ list_sum (map snd (value_counts voters)) = List.length voter_df
  /\ ((List.length (unique voters) <= n)%nat ->
      list_sum (map snd (active_voters I)) = List.length voter_df).
Proof.
  cbv zeta. unfold calculate_insights; cbn [active_voters least_active least_voted].
  pose proof (value_counts_counts (map voter_name voter_df)) as Hv.
  pose proof (value_counts_counts (map question_text voter_df)) as Hq.
  rewrite Forall_forall in Hv, Hq.
  split; [|split; [|split; [|split; [|split; [|split; [|split]]]]]].
  - rewrite Forall_forall. intros kv Hkv. apply Hv. eapply firstn_In, Hkv.
  - rewrite Forall_forall. intros kv Hkv. apply Hv. eapply skipn_In, Hkv.
  - rewrite Forall_forall. intros kv Hkv. apply Hq. eapply nsmallest_In, Hkv.
  - unfold head. rewrite <- firstn_map. apply NoDup_firstn, value_counts_NoDup.
  - unfold tail. rewrite <- skipn_map. apply NoDup_skipn, value_counts_NoDup.
  - apply select_n_distinct, value_counts_NoDup.
  - rewrite value_counts_total. apply length_map.
  - intros Hn. unfold head. rewrite firstn_all2.
    + rewrite value_counts_total. apply length_map.
    + rewrite <- (length_map fst), (Permutation_length (value_counts_keys _)). exact Hn.
Qed.

Lemma ballot_count_metrics_exact_witness :
  list_sum (map snd (active_voters (calculate_insights LeastActive.two_voters [] 5)))
  = 3%nat.
Proof.
  destruct (ballot_count_metrics_exact LeastActive.two_voters [] 5)
    as [_ [_ [_ [_ [_ [_ [_ H]]]]]]].
  apply H. simpl. lia.
Defined.

End BallotCounts.

(** ** Loading the frames *)

Lemma filter_none {A : Type} (p : A -> bool) (l : list A) :
  (forall x, In x l -> p x = false) -> filter p l = [].
Proof.
  induction l as [|x t IH]; simpl; intros H; [reflexivity|].
  rewrite (H x (or_introl eq_refl)). apply IH. intros y Hy. apply H. now right.
Qed.

Lemma filter_distinct_key {A : Type} (key : A -> string) (l : list A) (q : string) :
  NoDup (map key l) ->
  (List.length (filter (fun r => String.eqb (key r) q) l) <= 1)%nat.
Proof.
  induction l as [|x t IH]; simpl; intros H; [lia|].
  apply NoDup_cons_iff in H. destruct H as [Hx Ht].
  destruct (String.eqb_spec (key x) q) as [E|_]; [|now apply IH].
  simpl. rewrite (filter_none _ t); [simpl; lia|].
  intros y Hy. destruct (String.eqb_spec (key y) q) as [E'|_]; [|reflexivity].
  exfalso. apply Hx. rewrite E, <- E'. now apply in_map.
Qed.



Module LoadedFrames.
Import Frame QuizDashboard3.




Section Parser.
Variable to_datetime : list pyval -> pyval -> parse_outcome.





End Parser.


End LoadedFrames.

(** ** The merge with the answer key *)

Module AnswerKey.
Import Frame.

Definition keyed_question (key : list Sheet.correct_row) (b : ballot) : bool :=
  existsb (fun k => String.eqb (Sheet.key_que_text k) (question_text b)) key.

Lemma merge_one_distinct (key : list Sheet.correct_row) (b : ballot) :
  NoDup (map Sheet.key_que_text key) ->
  map ballot_of (merge_correct [b] key) = if keyed_question key b then [b] else [].
Proof.
  intros Hnd. unfold merge_correct, keyed_question. simpl. rewrite app_nil_r.
  pose proof (filter_distinct_key Sheet.key_que_text key (question_text b) Hnd) as Hle.
  destruct (existsb _ key) eqn:E.
  - apply existsb_exists in E. destruct E as [k [Hk Hq]].
    assert (Hin : In k (filter (fun k => String.eqb (Sheet.key_que_text k) (question_text b)) key))
      by (apply filter_In; auto).
    destruct (filter _ key) as [|k1 [|k2 rest]]; simpl in *; [contradiction | reflexivity | lia].
  - rewrite filter_none; [reflexivity|]. intros k Hk.
    destruct (String.eqb (Sheet.key_que_text k) (question_text b)) eqn:Hq; [|reflexivity].
    assert (Ht : existsb (fun k => String.eqb (Sheet.key_que_text k) (question_text b)) key = true)
      by (apply existsb_exists; eauto).
    congruence.
Qed.

(** With one answer-key row per question, the merged table is the
    ballot table restricted to the questions of the key, in the same
    order and without repetition; in general every merged row pairs a
    ballot with a key row of its question, and [is_correct] says
    whether the ballot's choice is that row's answer. *)
Theorem merge_correct_rows (voter_df : list ballot) (key : list Sheet.correct_row) :
  (forall m, In m (merge_correct voter_df key) ->
     In (ballot_of m) voter_df
     /\ In (Sheet.mk_correct (question_text (ballot_of m)) (ans_text m)) key
     /\ is_correct m = String.eqb (choice (ballot_of m)) (ans_text m))
  /\ (NoDup (map Sheet.key_que_text key) ->
      map ballot_of (merge_correct voter_df key) = filter (keyed_question key) voter_df).
Proof.
  split.
  - intros m Hm. unfold merge_correct in Hm. apply in_flat_map in Hm.
    destruct Hm as [b [Hb Hm]]. apply in_map_iff in Hm. destruct Hm as [k [<- Hk]].
    apply filter_In in Hk. destruct Hk as [Hk Hq]. apply String.eqb_eq in Hq.
    cbn [ballot_of ans_text is_correct]. split; [exact Hb|]. split; [|reflexivity].
    rewrite <- Hq. now destruct k.
  - intros Hnd. induction voter_df as [|b t IH]; [reflexivity|].
    change (b :: t) with ([b] ++ t).
    rewrite UnmatchedBallots.merge_correct_app, map_app, IH, merge_one_distinct by exact Hnd.
    simpl. destruct (keyed_question key b); reflexivity.
Qed.

Lemma merge_correct_rows_witness :
  map ballot_of (merge_correct LeastActive.two_voters [Sheet.mk_correct "Q2" "A"])
  = filter (keyed_question [Sheet.mk_correct "Q2" "A"]) LeastActive.two_voters.
Proof.
  apply merge_correct_rows. repeat constructor. simpl. tauto.
Defined.

End AnswerKey.

(** ** Easy and difficult questions *)

Lemma Zpos_of_nat (n : nat) : (0 < n)%nat -> Z.pos (Pos.of_nat n) = Z.of_nat n.
Proof.
  destruct n; [lia|]. intros _. rewrite <- Pos.of_nat_succ.
  now rewrite Zpos_P_of_succ_nat, Nat2Z.inj_succ.
Qed.

Lemma ratio_is_one (k n : nat) :
  (0 < n)%nat -> Qeq_bool (QuizDashboard3.ratio k n) 1 = true <-> k = n.
Proof.
  intros Hn. rewrite Qeq_bool_iff, (ratio_value k n Hn).
  unfold Qeq. cbn [Qnum Qden]. rewrite (Zpos_of_nat n Hn). lia.
Qed.

Lemma fraction_bounds (k n : nat) :
  (0 < n)%nat -> (k <= n)%nat ->
  (0 <= Z.of_nat k # Pos.of_nat n)%Q /\ (Z.of_nat k # Pos.of_nat n <= 1)%Q.
Proof.
  intros Hn Hk. unfold Qle. cbn [Qnum Qden]. rewrite (Zpos_of_nat n Hn). lia.
Qed.

Lemma count_where_all {A : Type} (p : A -> bool) (l : list A) :
  count_where p l = List.length l <-> forall x, In x l -> p x = true.
Proof.
  unfold count_where. split.
  - intros H. apply filter_length_forallb in H. now apply forallb_forall.
  - intros H. now rewrite filter_all.
Qed.

Module QuestionDifficulty.
Import Frame QuizDashboard3.

(** Every merged ballot of question [q] is correct. *)
Definition all_correct (merged_rows : list merged) (q : string) : Prop :=
  forall m, In m merged_rows -> by_question m = q -> is_correct m = true.

Lemma all_correct_group merged_rows q :
  correct_in (group by_question merged_rows q) = List.length (group by_question merged_rows q)
  <-> all_correct merged_rows q.
Proof.
  unfold correct_in. rewrite count_where_all. unfold all_correct. split.
  - intros H m Hm Hq. apply H. apply group_In. auto.
  - intros H m Hm. apply group_In in Hm. destruct Hm. auto.
Qed.

(** [easy_questions] lists only questions that have a merged ballot
    and whose merged ballots are all correct, each with ratio 1 and at
    most once; once [n] reaches the number of questions it lists every
    such question.  Every entry of [incorrect_questions] carries the
    share of incorrect ballots among the question's merged ballots, a
    number between 0 and 1. *)
Theorem question_ratios `{Sorter} (voter_df : list ballot)
    (correct_answers_df : list Sheet.correct_row) (n : nat) :
  let I := calculate_insights voter_df correct_answers_df n in
  let merged_rows := merge_correct voter_df correct_answers_df in
  Forall (fun kv => In (fst kv) (map by_question merged_rows)
                    /\ (snd kv == 1)%Q
                    /\ all_correct merged_rows (fst kv)) (easy_questions I)
  /\ NoDup (map fst (easy_questions I))
  /\ ((List.length (group_keys by_question merged_rows) <= n)%nat ->
      forall q, In q (map by_question merged_rows) -> all_correct merged_rows q ->
                In q (map fst (easy_questions I)))
  /\ Forall (fun kv =>
               let g := group by_question merged_rows (fst kv) in
               In (fst kv) (map by_question merged_rows)
               /\ (snd kv == Z.of_nat (incorrect_in g) # Pos.of_nat (List.length g))%Q
               /\ (0 <= snd kv)%Q /\ (snd kv <= 1)%Q) (incorrect_questions I).
Proof.
  cbv zeta. unfold calculate_insights; cbn [easy_questions incorrect_questions].
  fold (merged_df voter_df correct_answers_df).
  set (merged_rows := merged_df voter_df correct_answers_df).
  set (table := map (fun k => (k, ratio (correct_in (group by_question merged_rows k))
                                        (List.length (group by_question merged_rows k))))
                    (group_keys by_question merged_rows)).
  assert (Hentry : forall kv, In kv (filter (fun kv => Qeq_bool (snd kv) 1) table) ->
            In (fst kv) (map by_question merged_rows)
            /\ (snd kv == 1)%Q /\ all_correct merged_rows (fst kv)).
  { intros kv Hkv. apply filter_In in Hkv. destruct Hkv as [Hin Hone].
    unfold table in Hin. apply in_map_iff in Hin. destruct Hin as [k [<- Hk]].
    apply group_keys_In in Hk. cbn [fst snd] in *.
    split; [exact Hk|]. split; [now apply Qeq_bool_iff|].
    apply all_correct_group. apply ratio_is_one in Hone; [exact Hone|].
    now apply group_nonempty. }
  split; [|split; [|split]].
  - rewrite Forall_forall. intros kv Hkv. apply Hentry. eapply firstn_In, Hkv.
  - unfold head. rewrite <- firstn_map. apply NoDup_firstn.
    apply distinct_keys_filter with (key := @fst string Q).
    unfold table. rewrite map_map. simpl. rewrite map_id. apply group_keys_NoDup.
  - intros Hn q Hq Hall. unfold head. rewrite firstn_all2.
    + apply in_map_iff.
      exists (q, ratio (correct_in (group by_question merged_rows q))
                       (List.length (group by_question merged_rows q))).
      split; [reflexivity|]. apply filter_In. split.
      * unfold table. apply in_map_iff. exists q. split; [reflexivity|].
        now apply group_keys_In.
      * cbn [snd]. apply ratio_is_one; [now apply group_nonempty|].
        now apply all_correct_group.
    + etransitivity; [apply filter_length_le|]. unfold table. now rewrite length_map.
  - rewrite Forall_forall. intros kv Hkv. apply nlargest_In in Hkv.
    apply in_map_iff in Hkv. destruct Hkv as [k [<- Hk]].
    apply group_keys_In in Hk. cbn [fst snd].
    pose proof (group_nonempty by_question merged_rows k Hk) as Hn.
    pose proof (count_where_le (fun m => negb (is_correct m))
                  (group by_question merged_rows k)) as Hle.
    split; [exact Hk|]. split; [now apply ratio_value|].
    rewrite (ratio_value _ _ Hn). now apply fraction_bounds.
Qed.

Lemma question_ratios_witness :
  In "Q1" (map fst (easy_questions
                      (calculate_insights SmallFrame.one_ballot SmallFrame.one_key 3))).
Proof.
  destruct (question_ratios SmallFrame.one_ballot SmallFrame.one_key 3)
    as [_ [_ [Hall _]]].
  apply Hall.
  - simpl. lia.
  - simpl. now left.
  - intros m [<-|[]] _. reflexivity.
Defined.

End QuestionDifficulty.

(** ** Fastest and slowest responses, last participation *)

Lemma list_min_spec (l : list Z) : forall x,
  In (list_min x l) (x :: l) /\ forall y, In y (x :: l) -> list_min x l <= y.
Proof.
  unfold list_min. induction l as [|a t IH]; intros x; simpl.
  - split; [now left | intros y [<-|[]]; lia].
  - destruct (IH (Z.min x a)) as [Hin Hle]. split.
    + destruct Hin as [E|Hin]; [|now right; right].
      rewrite <- E. destruct (Z.min_spec x a) as [[_ ->]|[_ ->]]; auto.
    + intros y [<-|[<-|Hy]].
      * specialize (Hle (Z.min x a) (or_introl eq_refl)). lia.
      * specialize (Hle (Z.min x a) (or_introl eq_refl)). lia.
      * apply Hle. now right.
Qed.

Lemma list_max_spec (l : list Z) : forall x,
  In (list_max x l) (x :: l) /\ forall y, In y (x :: l) -> y <= list_max x l.
Proof.
  unfold list_max. induction l as [|a t IH]; intros x; simpl.
  - split; [now left | intros y [<-|[]]; lia].
  - destruct (IH (Z.max x a)) as [Hin Hle]. split.
    + destruct Hin as [E|Hin]; [|now right; right].
      rewrite <- E. destruct (Z.max_spec x a) as [[_ ->]|[_ ->]]; auto.
    + intros y [<-|[<-|Hy]].
      * specialize (Hle (Z.max x a) (or_introl eq_refl)). lia.
      * specialize (Hle (Z.max x a) (or_introl eq_refl)). lia.
      * apply Hle. now right.
Qed.

Lemma dropna_In {A : Type} (col : list (option A)) (v : A) :
  In v (dropna col) <-> In (Some v) col.
Proof.
  induction col as [|[x|] t IH]; simpl; [tauto| |].
  - rewrite IH. split; intros [E|H]; auto; left; congruence.
  - rewrite IH. split; [auto | intros [E|H]; [discriminate | exact H]].
Qed.

Module ResponseExtremes.
Import Frame QuizDashboard3.

(** Some ballot of question [q] has response time [t]. *)
Definition attained (df : list ballot) (q : string) (t : Z) : Prop :=
  exists b, In b df /\ question_text b = q /\ response_time b = Some t.

Lemma group_times df q t :
  In t (dropna (map response_time (group question_text (notna df) q))) <-> attained df q t.
Proof.
  rewrite dropna_In, in_map_iff. unfold attained. split.
  - intros [b [Ht Hb]]. apply group_In in Hb. destruct Hb as [Hb Hq].
    apply EarlyBirds.notna_In in Hb. destruct Hb as [Hb _]. eauto.
  - intros [b [Hb [Hq Ht]]]. exists b. split; [exact Ht|].
    apply group_In. split; [|exact Hq]. apply EarlyBirds.notna_In. eauto.
Qed.

Section Pick.
Variable pick : Z -> list Z -> Z.
Variable R : Z -> Z -> Prop.
Hypothesis pick_spec : forall x l,
  In (pick x l) (x :: l) /\ forall y, In y (x :: l) -> R (pick x l) y.

Lemma per_question_entry df kv :
  In kv (per_question pick (notna df)) ->
  attained df (fst kv) (snd kv)
  /\ forall t, attained df (fst kv) t -> R (snd kv) t.
Proof.
  unfold per_question. intros H. apply in_flat_map in H. destruct H as [q [_ H]].
  destruct (dropna (map response_time (group question_text (notna df) q)))
    as [|x rest] eqn:E; [contradiction|].
  destruct H as [<-|[]]. cbn [fst snd].
  destruct (pick_spec x rest) as [Hin Hall]. rewrite <- E in Hin, Hall. split.
  - now apply group_times.
  - intros t Ht. apply Hall. now apply group_times.
Qed.

Lemma per_question_keys df :
  NoDup (map fst (per_question pick df)).
Proof.
  unfold per_question. pose proof (group_keys_NoDup question_text df) as Hnd.
  induction (group_keys question_text df) as [|q ks IH]; simpl; [constructor|].
  apply NoDup_cons_iff in Hnd. destruct Hnd as [Hq Hks].
  destruct (dropna (map response_time (group question_text df q))) as [|x rest];
    simpl; [now apply IH|].
  constructor; [|now apply IH].
  intros Hin. apply Hq. apply in_map_iff in Hin. destruct Hin as [[q' t] [E Hin]].
  simpl in E. subst q'. apply in_flat_map in Hin. destruct Hin as [k [Hk Hin]].
  destruct (dropna (map response_time (group question_text df k))); [contradiction|].
  destruct Hin as [[= -> _]|[]]. exact Hk.
Qed.

End Pick.

(** Every entry of [fast_responses] carries a response time that one
    of the question's ballots really has and that no ballot of the
    question with a response time undercuts; [slow_responses]
    likewise with the largest.  No question is listed twice, and a
    question listed in both has its fastest time no later than its
    slowest. *)
Theorem response_time_extremes `{Sorter} (voter_df : list ballot)
    (correct_answers_df : list Sheet.correct_row) (n : nat) :
  let I := calculate_insights voter_df correct_answers_df n in
  Forall (fun kv => attained voter_df (fst kv) (snd kv)
                    /\ forall t, attained voter_df (fst kv) t -> snd kv <= t)
         (fast_responses I)
  /\ Forall (fun kv => attained voter_df (fst kv) (snd kv)
                       /\ forall t, attained voter_df (fst kv) t -> t <= snd kv)
            (slow_responses I)
  /\ NoDup (map fst (fast_responses I))
  /\ NoDup (map fst (slow_responses I))
  /\ (forall q t_fast t_slow,
        In (q, t_fast) (fast_responses I) -> In (q, t_slow) (slow_responses I) ->
        t_fast <= t_slow).
Proof.
  cbv zeta. unfold calculate_insights; cbn [fast_responses slow_responses].
  assert (Hfast : forall kv,
            In kv (nsmallest Z.leb n snd (per_question list_min (notna voter_df))) ->
            attained voter_df (fst kv) (snd kv)
            /\ forall t, attained voter_df (fst kv) t -> snd kv <= t).
  { intros kv Hkv. apply nsmallest_In in Hkv.
    apply (per_question_entry list_min Z.le (fun x l => list_min_spec l x)). exact Hkv. }
  assert (Hslow : forall kv,
            In kv (nlargest Z.leb n snd (per_question list_max (notna voter_df))) ->
            attained voter_df (fst kv) (snd kv)
            /\ forall t, attained voter_df (fst kv) t -> t <= snd kv).
  { intros kv Hkv. apply nlargest_In in Hkv.
    destruct (per_question_entry list_max (fun a b => b <= a)
                (fun x l => list_max_spec l x) voter_df kv Hkv) as [Ha Hb]. auto. }
  split; [|split; [|split; [|split]]].
  - rewrite Forall_forall. exact Hfast.
  - rewrite Forall_forall. exact Hslow.
  - apply select_n_distinct, per_question_keys.
  - apply select_n_distinct, per_question_keys.
  - intros q tf ts Hf Hs. destruct (Hfast _ Hf) as [_ Hmin].
    destruct (Hslow _ Hs) as [Hatt _]. now apply Hmin.
Qed.

Lemma response_time_extremes_witness :
  60 <= 90.
Proof.
  destruct (response_time_extremes LeastActive.two_voters [] 5) as [_ [_ [_ [_ H]]]].
  apply (H "Q1"); vm_compute; tauto.
Defined.

End ResponseExtremes.


Module LastParticipation.
Import Frame QuizDashboard3.




End LastParticipation.

(** ** Early-bird credits *)

Lemma list_sum_firstn (n : nat) (l : list nat) : (list_sum (firstn n l) <= list_sum l)%nat.
Proof.
  revert n. induction l as [|x t IH]; intros [|n]; simpl; try lia.
  specialize (IH n). lia.
Qed.

Lemma drop_duplicates_keys_unique {A : Type} (key : A -> string) (l : list A) :
  map key (drop_duplicates key l) = unique (map key l).
Proof.
  unfold unique. induction l as [|x t IH]; simpl; [reflexivity|].
  f_equal. rewrite <- IH. clear IH.
  induction (drop_duplicates key t) as [|y r IHr]; simpl; [reflexivity|].
  destruct (String.eqb (key y) (key x)); simpl; now rewrite IHr.
Qed.

Lemma unique_perm_length (l l' : list string) :
  Permutation l l' -> List.length (unique l) = List.length (unique l').
Proof.
  intros Hp. apply Permutation_length. apply NoDup_Permutation; try apply unique_NoDup.
  intros x. rewrite !unique_In. split; apply Permutation_in; [exact Hp | now symmetry].
Qed.

Lemma keyed_values {A : Type} (key : A -> option Z) (l : list A) :
  map snd (keyed key l) = filter (fun r => is_some (key r)) l.
Proof.
  unfold keyed. induction l as [|x t IH]; simpl; [reflexivity|].
  destruct (key x); simpl; now rewrite IH.
Qed.

Lemma filter_split_perm {A : Type} (p : A -> bool) (l : list A) :
  Permutation (filter p l ++ filter (fun r => negb (p r)) l) l.
Proof.
  induction l as [|x t IH]; simpl; [constructor|].
  destruct (p x); simpl.
  - now constructor.
  - rewrite <- Permutation_middle. now constructor.
Qed.

Lemma sort_values_by_perm `{Sorter} {A : Type} (key : A -> option Z) (l : list A) :
  Permutation (sort_values_by key l) l.
Proof.
  unfold sort_values_by.
  rewrite (Permutation_map snd (sort_values_perm _ _ _)), keyed_values.
  apply filter_split_perm.
Qed.

Module EarlyBirdCredits.
Import Frame QuizDashboard3 EarlyBirds.

(** The questions some ballot answered with a known response time. *)
Definition timed_questions (voter_df : list ballot) : list string :=
  unique (map question_text (notna voter_df)).

Lemma first_responses_length `{Sorter} (voter_df : list ballot) :
  List.length (first_responses voter_df) = List.length (timed_questions voter_df).
Proof.
  unfold first_responses, timed_questions.
  rewrite <- (length_map question_text), drop_duplicates_keys_unique.
  apply unique_perm_length, Permutation_map, sort_values_by_perm.
Qed.

Lemma groupby_size_total {A : Type} (key : A -> string) (df : list A) :
  list_sum (map snd (groupby_size key df)) = List.length df.
Proof.
  unfold groupby_size. rewrite map_map. simpl.
  apply counts_add_up; [apply group_keys_NoDup|].
  intros r Hr. apply group_keys_In. now apply in_map.
Qed.

(** One credit per question: the credits of all voters add up to the
    number of distinct questions that have a ballot with a response
    time.  [early_birds] shows at most that many, and exactly that
    many once [n] reaches the number of credited voters. *)
Theorem early_birds_credit_total `{Sorter} (voter_df : list ballot)
    (correct_answers_df : list Sheet.correct_row) (n : nat) :
  let eb := early_birds (calculate_insights voter_df correct_answers_df n) in
  let credited := groupby_size voter_name (first_responses voter_df) in
  list_sum (map snd credited) = List.length (timed_questions voter_df)
  /\ (list_sum (map snd eb) <= List.length (timed_questions voter_df))%nat
  /\ ((List.length credited <= n)%nat ->
      list_sum (map snd eb) = List.length (timed_questions voter_df)).
Proof.
  cbv zeta. rewrite early_birds_eq.
  set (credited := groupby_size voter_name (first_responses voter_df)).
  assert (Htotal : list_sum (map snd credited) = List.length (timed_questions voter_df)).
  { unfold credited. rewrite groupby_size_total. apply first_responses_length. }
  split; [exact Htotal|]. unfold nlargest. split.
  - rewrite <- Htotal.
    destruct (select_n_prefix (descending Nat.leb snd) n credited) as [s [Hp [-> _]]].
    rewrite <- firstn_map, <- (list_sum_perm _ _ (Permutation_map snd Hp)).
    apply list_sum_firstn.
  - intros Hn. rewrite <- Htotal.
    apply list_sum_perm, Permutation_map. now apply select_n_all.
Qed.

Lemma early_birds_credit_total_witness :
  list_sum (map snd (early_birds (calculate_insights LeastActive.two_voters [] 5))) = 2%nat.
Proof.
  destruct (early_birds_credit_total LeastActive.two_voters [] 5) as [_ [_ H]].
  apply H. vm_compute. lia.
Defined.

Lemma first_responses_spec_witness :
  exists r, In r (first_responses LeastActive.two_voters)
            /\ question_text r = "Q1".
Proof.
  destruct (first_responses_spec LeastActive.two_voters) as [_ [H _]].
  destruct (H (mk_ballot "a" "Q1" "A" (Some 0) (Some 60)) 60) as [r [Hr [Hq _]]];
    [simpl; tauto | reflexivity | eauto].
Defined.

End EarlyBirdCredits.

(** * Properties of quiz_dashboard.py *)









Module FirstDashboard.
Import Frame.






(** On a frame with a ballot that has no response time the early
    birds of the first dashboard and of the third differ. *)
Example early_birds_variants_differ :
  QuizDashboard.early_birds (QuizDashboard.calculate_insights SmallFrame.one_ballot [] 5)
    = [("v1", 1%nat)]
  /\ QuizDashboard3.early_birds (QuizDashboard3.calculate_insights SmallFrame.one_ballot [] 5)
     = [].
Proof. vm_compute. split; reflexivity. Qed.

End FirstDashboard.

(** * Properties of the report's question tables *)

Lemma stable_sort_ordered {A : Type} (le : A -> A -> bool) (l : list A) :
  (forall x y, In x l -> In y l -> le x y = true) -> stable_sort le l = l.
Proof.
  induction l as [|x t IH]; simpl; intros H; [reflexivity|].
  rewrite IH by (intros a b Ha Hb; apply H; now right).
  destruct t as [|y t']; [reflexivity|]. simpl.
  now rewrite (H x y (or_introl eq_refl) (or_intror (or_introl eq_refl))).
Qed.

Lemma filter_map_keys {A V : Type} (f : A -> V) (p : A * V -> bool) (ks : list A) :
  map fst (filter p (map (fun k => (k, f k)) ks)) = filter (fun k => p (k, f k)) ks.
Proof.
  induction ks as [|k t IH]; simpl; [reflexivity|].
  destruct (p (k, f k)); simpl; now rewrite IH.
Qed.

Lemma correct_incorrect_total (g : list Frame.merged) :
  (QuizDashboard3.correct_in g + QuizDashboard3.incorrect_in g = List.length g)%nat.
Proof.
  unfold QuizDashboard3.correct_in, QuizDashboard3.incorrect_in, count_where.
  induction g as [|m t IH]; simpl; [reflexivity|].
  destruct (Frame.is_correct m); simpl; lia.
Qed.

Module ReportQuestions.
Import Frame.

(** The questions of the merged table without an incorrect ballot, in
    the order of the groups. *)
Definition unmissed (merged_rows : list merged) : list string :=
  filter (fun q => Nat.eqb (QuizDashboard3.incorrect_in
                              (group ReportTables.by_question merged_rows q)) 0)
         (group_keys ReportTables.by_question merged_rows).

Lemma no_incorrect_all_correct merged_rows q :
  QuizDashboard3.incorrect_in (group ReportTables.by_question merged_rows q) = 0%nat
  <-> QuestionDifficulty.all_correct merged_rows q.
Proof.
  rewrite <- QuestionDifficulty.all_correct_group.
  pose proof (correct_incorrect_total (group ReportTables.by_question merged_rows q)) as Ht.
  change ReportTables.by_question with QuizDashboard3.by_question in *. lia.
Qed.

(** The report's easy questions.  Every entry is a question of the
    merged table all of whose merged ballots are correct, listed once
    with the count 0.  When there are at most 32 such questions the
    table holds all of them, in an order that is the sorter's; when
    there are more it holds the first 32 in the order of the
    groups. *)
Theorem report_easy_questions `{Sorter} (report_df : list ballot)
    (correct_answers_df : list Sheet.correct_row) :
  let merged_rows := merge_correct report_df correct_answers_df in
  let easy := ReportTables.easy_questions report_df correct_answers_df in
  Forall (fun kv => snd kv = 0%nat
                    /\ In (fst kv) (map ReportTables.by_question merged_rows)
                    /\ QuestionDifficulty.all_correct merged_rows (fst kv)) easy
  /\ NoDup (map fst easy)
  /\ List.length easy = Nat.min GetQuestions.N (List.length (unmissed merged_rows))
  /\ ((List.length (unmissed merged_rows) <= GetQuestions.N)%nat ->
      Permutation (map fst easy) (unmissed merged_rows))
  /\ ((GetQuestions.N < List.length (unmissed merged_rows))%nat ->
      map fst easy = firstn GetQuestions.N (unmissed merged_rows)).
Proof.
  cbv zeta. unfold ReportTables.easy_questions, nlargest.
  set (merged_rows := merge_correct report_df correct_answers_df).
  set (zero := filter (fun kv : string * nat => Nat.eqb (snd kv) 0)
                      (ReportTables.incorrect_counts report_df correct_answers_df)).
  assert (Hkeys : map fst zero = unmissed merged_rows).
  { unfold zero, ReportTables.incorrect_counts, unmissed, GetQuestions.merged_df.
    fold merged_rows.
    apply (filter_map_keys
             (fun k => QuizDashboard3.incorrect_in
                         (group ReportTables.by_question merged_rows k))
             (fun kv => Nat.eqb (snd kv) 0)). }
  assert (Hlen : List.length zero = List.length (unmissed merged_rows))
    by (rewrite <- Hkeys; symmetry; apply length_map).
  assert (Hzero : forall kv, In kv zero ->
            snd kv = 0%nat
            /\ In (fst kv) (map ReportTables.by_question merged_rows)
            /\ QuestionDifficulty.all_correct merged_rows (fst kv)).
  { intros kv Hkv. apply filter_In in Hkv. destruct Hkv as [Hin Hz].
    apply Nat.eqb_eq in Hz. split; [exact Hz|].
    unfold ReportTables.incorrect_counts, GetQuestions.merged_df in Hin.
    fold merged_rows in Hin. apply in_map_iff in Hin. destruct Hin as [k [<- Hk]].
    cbn [fst snd] in *. split; [now apply group_keys_In|].
    now apply no_incorrect_all_correct. }
  destruct (select_n_top (descending Nat.leb (@snd string nat))
              (descending_total Nat.leb snd nat_leb_total)
              (descending_trans Nat.leb snd nat_leb_trans) GetQuestions.N zero)
    as [rest [_ [_ Hn]]].
  split; [|split; [|split; [|split]]].
  - rewrite Forall_forall. intros kv Hkv. apply Hzero. eapply select_n_In, Hkv.
  - apply select_n_distinct. rewrite Hkeys. unfold unmissed.
    apply NoDup_filter, group_keys_NoDup.
  - now rewrite Hn, Hlen.
  - intros Hle. rewrite <- Hkeys. apply Permutation_map, select_n_all. now rewrite Hlen.
  - intros Hgt. unfold select_n. rewrite <- Hlen in Hgt.
    destruct (Nat.leb_spec (List.length zero) GetQuestions.N) as [Hle|_]; [lia|].
    rewrite stable_sort_ordered.
    + now rewrite <- firstn_map, Hkeys.
    + intros x y Hx Hy. unfold descending.
      destruct (Hzero x Hx) as [-> _]. destruct (Hzero y Hy) as [-> _]. reflexivity.
Qed.

Lemma report_easy_questions_witness :
  Permutation
    (map fst (ReportTables.easy_questions SmallFrame.one_ballot SmallFrame.one_key))
    (unmissed (merge_correct SmallFrame.one_ballot SmallFrame.one_key)).
Proof.
  destruct (report_easy_questions SmallFrame.one_ballot SmallFrame.one_key)
    as [_ [_ [_ [H _]]]].
  apply H. vm_compute. lia.
Defined.

End ReportQuestions.

(** * The report script up to its metrics *)

Module ReportFrame.
Import Sheet GetQuestions WallClock.



End ReportFrame.
